(** * Inventory and order service: a shallow embedding of backend/index.js

    The service keeps one JSON document, [{products: [...], orders: [...]}],
    which every request reads whole, mutates in memory and writes back.
    The embedding follows the JavaScript source handler by handler; the
    properties proved about it come after the definitions.

    Modelling conventions.
    - JavaScript values are the primitive values: [undefined], [null],
      booleans, numbers and strings.  Arrays and objects nested inside a
      request body or inside a stored field are not modelled.  Parameters of
      the query string and text fields of a multipart form are strings, or
      absent; the fields of a JSON body are values of any primitive type.
    - Numbers are the integers together with [NaN].  Arithmetic on them is
      exact, which is what IEEE doubles do up to 2^53; fractions, infinities
      and the negative zero are outside the model, and so is text that
      denotes a number in another form than decimal digits with an optional
      sign.  A property that depends on it says so: [exact_number] tells the
      values on which the coercion to a number is the one of JavaScript,
      [safe] the integers doubles represent exactly.
    - Strings are byte strings; case folding is the ASCII one, which is the
      one of JavaScript on ASCII text ([ascii_text]).
    - The clock, the random generator and the time zone are inputs of a
      request; the zone gives its offset from UTC at every instant, so that
      daylight saving changes are within the model.
    - An uncaught exception inside a handler is the outcome [Threw]
      (Express answers such a request with status 500 and writes nothing).
      Failures of the file system are not modelled. *)

From Stdlib Require Import ZArith Ascii String Lia Bool.
From stdpp Require Import base option list strings.

Local Open Scope Z_scope.

(* ===================================================================== *)
(** ** JavaScript primitive values and the coercions the handlers use    *)
(* ===================================================================== *)

Inductive num : Type :=
| NaN
| Fin (z : Z).

Inductive value : Type :=
| VUndefined
| VNull
| VBool (b : bool)
| VNum (n : num)
| VStr (s : string).

Definition num_eq_dec (a b : num) : {a = b} + {a <> b}.
Proof. decide equality. apply Z.eq_dec. Defined.

Definition value_eq_dec (a b : value) : {a = b} + {a <> b}.
Proof.
  decide equality.
  - apply Bool.bool_dec.
  - apply num_eq_dec.
  - apply String.string_dec.
Defined.

(** [ToBoolean]: the falsy values are undefined, null, false, 0, NaN, "". *)
Definition ToBoolean (v : value) : bool :=
  match v with
  | VUndefined | VNull => false
  | VBool b => b
  | VNum NaN => false
  | VNum (Fin z) => negb (z =? 0)
  | VStr s => negb (String.eqb s "")
  end.

(** *** Strings as character lists *)

Definition chars (s : string) : list ascii := String.list_ascii_of_string s.
Definition of_chars (l : list ascii) : string := String.string_of_list_ascii l.

Definition code (c : ascii) : Z := Z.of_nat (nat_of_ascii c).

(** WhiteSpace and LineTerminator code points in the ASCII range. *)
Definition is_ws (c : ascii) : bool :=
  let n := code c in
  (n =? 9) || (n =? 10) || (n =? 11) || (n =? 12) || (n =? 13) || (n =? 32).

Fixpoint drop_ws (l : list ascii) : list ascii :=
  match l with
  | c :: l' => if is_ws c then drop_ws l' else l
  | [] => []
  end.

Definition trim_ws (l : list ascii) : list ascii :=
  rev (drop_ws (rev (drop_ws l))).

Definition digit_val (c : ascii) : option Z :=
  let n := code c in
  if (48 <=? n) && (n <=? 57) then Some (n - 48) else None.

(** Value of a run of decimal digits, read left to right; [None] when a
    character is not a digit. *)
Fixpoint digits_val (acc : Z) (l : list ascii) : option Z :=
  match l with
  | [] => Some acc
  | c :: l' =>
      match digit_val c with
      | Some d => digits_val (acc * 10 + d) l'
      | None => None
      end
  end.

Definition unsigned_val (l : list ascii) : num :=
  match l with
  | [] => NaN
  | _ => match digits_val 0 l with Some z => Fin z | None => NaN end
  end.

(** [StringToNumber], on the integer fragment of StringNumericLiteral:
    surrounding white space is dropped, the empty string is 0, an optional
    sign is followed by decimal digits; any other text is NaN. *)
Definition StringToNumber (s : string) : num :=
  match trim_ws (chars s) with
  | [] => Fin 0
  | c :: l' =>
      if code c =? 45 then
        match unsigned_val l' with Fin z => Fin (- z) | NaN => NaN end
      else if code c =? 43 then unsigned_val l'
      else unsigned_val (c :: l')
  end.

(** [ToNumber] on primitives; [Number(x)] called as a function is this. *)
Definition ToNumber (v : value) : num :=
  match v with
  | VUndefined => NaN
  | VNull => Fin 0
  | VBool b => Fin (if b then 1 else 0)
  | VNum n => n
  | VStr s => StringToNumber s
  end.

Definition Number (v : value) : value := VNum (ToNumber v).

(** Digits of a non-negative integer in a radix up to 36, most significant
    first, as [Number.prototype.toString(radix)] prints them. *)
Definition digit_char (d : Z) : ascii :=
  ascii_of_nat (Z.to_nat (if d <? 10 then 48 + d else 87 + d)).

Fixpoint digits_aux (fuel : nat) (radix n : Z) (acc : list ascii) : list ascii :=
  match fuel with
  | O => acc
  | S fuel' =>
      let acc' := digit_char (n mod radix) :: acc in
      if n / radix =? 0 then acc' else digits_aux fuel' radix (n / radix) acc'
  end.

Definition digits_of (radix n : Z) : list ascii :=
  digits_aux (S (Z.to_nat (Z.log2 n))) radix n [].

Definition int_toString (radix n : Z) : string :=
  if n <? 0 then of_chars ("-"%char :: digits_of radix (- n))
  else of_chars (digits_of radix n).

Definition num_toString (n : num) : string :=
  match n with
  | NaN => "NaN"
  | Fin z => int_toString 10 z
  end.

Definition ToString (v : value) : string :=
  match v with
  | VUndefined => "undefined"
  | VNull => "null"
  | VBool true => "true"
  | VBool false => "false"
  | VNum n => num_toString n
  | VStr s => s
  end.

(** *** Operators *)

(** [a || b] and [a && b] return one of their operands. *)
Definition js_or (a b : value) : value := if ToBoolean a then a else b.
Definition js_and (a b : value) : value := if ToBoolean a then b else a.

Definition num_add (a b : num) : num :=
  match a, b with
  | Fin x, Fin y => Fin (x + y)
  | _, _ => NaN
  end.

Definition num_sub (a b : num) : num :=
  match a, b with
  | Fin x, Fin y => Fin (x - y)
  | _, _ => NaN
  end.

(** [a + b]: concatenation as soon as one operand is a string. *)
Definition js_add (a b : value) : value :=
  match a, b with
  | VStr _, _ | _, VStr _ => VStr (ToString a +:+ ToString b)
  | _, _ => VNum (num_add (ToNumber a) (ToNumber b))
  end.

(** [a - b] is always numeric. *)
Definition js_sub (a b : value) : value :=
  VNum (num_sub (ToNumber a) (ToNumber b)).

Definition num_lt (a b : num) : bool :=
  match a, b with
  | Fin x, Fin y => x <? y
  | _, _ => false
  end.

(** [a < b]: two strings compare by code units, anything else numerically,
    and a comparison involving NaN is false. *)
Definition js_lt (a b : value) : bool :=
  match a, b with
  | VStr s, VStr t => String.ltb s t
  | _, _ => num_lt (ToNumber a) (ToNumber b)
  end.

(** [a > b] is [b < a]. *)
Definition js_gt (a b : value) : bool := js_lt b a.

(** [a === b]: same type and same value; NaN differs from itself. *)
Definition strict_eq (a b : value) : bool :=
  match a, b with
  | VUndefined, VUndefined => true
  | VNull, VNull => true
  | VBool x, VBool y => Bool.eqb x y
  | VNum (Fin x), VNum (Fin y) => x =? y
  | VStr s, VStr t => String.eqb s t
  | _, _ => false
  end.

(** *** String methods *)

Definition lower_char (c : ascii) : ascii :=
  let n := code c in
  if (65 <=? n) && (n <=? 90) then ascii_of_nat (Z.to_nat (n + 32)) else c.

Fixpoint toLowerCase (s : string) : string :=
  match s with
  | EmptyString => EmptyString
  | String c s' => String (lower_char c) (toLowerCase s')
  end.

(** [s.includes(sub)]: [sub] occurs in [s] at some position. *)
Fixpoint includes (s sub : string) : bool :=
  String.prefix sub s ||
  match s with
  | EmptyString => false
  | String _ s' => includes s' sub
  end.

(** Calling [.toLowerCase()] on a value: a method of strings only.  On
    undefined or null the property access throws, on a number or boolean
    the property is undefined and the call throws; both are [None]. *)
Definition call_toLowerCase (v : value) : option string :=
  match v with
  | VStr s => Some (toLowerCase s)
  | _ => None
  end.

(* ===================================================================== *)
(** ** Dates: the time-value algorithms of ECMAScript's [Date]           *)
(* ===================================================================== *)

(** A [Date] object holds a time value: milliseconds since the epoch, or
    NaN for an invalid date. *)
Definition Date : Type := num.

Definition msPerDay : Z := 86400000.
Definition msPerHour : Z := 3600000.
Definition msPerMinute : Z := 60000.
Definition msPerSecond : Z := 1000.

Definition Day (t : Z) : Z := t / msPerDay.
Definition TimeWithinDay (t : Z) : Z := t mod msPerDay.

Definition DaysInYear (y : Z) : Z :=
  if negb (y mod 4 =? 0) then 365
  else if negb (y mod 100 =? 0) then 366
  else if negb (y mod 400 =? 0) then 365
  else 366.

Definition DayFromYear (y : Z) : Z :=
  365 * (y - 1970) + (y - 1969) / 4 - (y - 1901) / 100 + (y - 1601) / 400.

Definition TimeFromYear (y : Z) : Z := msPerDay * DayFromYear y.

(** The largest year [y] with [TimeFromYear y <= t]: a first guess from
    the mean year length, off by at most one, then corrected. *)
Definition YearFromTime (t : Z) : Z :=
  let d := Day t in
  let y := 1970 + (400 * d) / 146097 in
  if d <? DayFromYear y then y - 1
  else if DayFromYear (y + 1) <=? d then y + 1
  else y.

Definition leap_of_year (y : Z) : Z := if DaysInYear y =? 365 then 0 else 1.
Definition InLeapYear (t : Z) : Z := leap_of_year (YearFromTime t).
Definition DayWithinYear (t : Z) : Z := Day t - DayFromYear (YearFromTime t).

(** First day-within-year of month [m] (0 = January .. 11 = December, and
    12 for the end of the year). *)
Definition month_start (leap m : Z) : Z :=
  match m with
  | 0 => 0
  | 1 => 31
  | 2 => 59 + leap
  | 3 => 90 + leap
  | 4 => 120 + leap
  | 5 => 151 + leap
  | 6 => 181 + leap
  | 7 => 212 + leap
  | 8 => 243 + leap
  | 9 => 273 + leap
  | 10 => 304 + leap
  | 11 => 334 + leap
  | _ => 365 + leap
  end.

Definition month_of_day (leap dwy : Z) : Z :=
  if dwy <? 31 then 0
  else if dwy <? 59 + leap then 1
  else if dwy <? 90 + leap then 2
  else if dwy <? 120 + leap then 3
  else if dwy <? 151 + leap then 4
  else if dwy <? 181 + leap then 5
  else if dwy <? 212 + leap then 6
  else if dwy <? 243 + leap then 7
  else if dwy <? 273 + leap then 8
  else if dwy <? 304 + leap then 9
  else if dwy <? 334 + leap then 10
  else 11.

Definition MonthFromTime (t : Z) : Z :=
  month_of_day (InLeapYear t) (DayWithinYear t).

Definition DateFromTime (t : Z) : Z :=
  DayWithinYear t - month_start (InLeapYear t) (MonthFromTime t) + 1.

Definition HourFromTime (t : Z) : Z := (t / msPerHour) mod 24.
Definition MinFromTime (t : Z) : Z := (t / msPerMinute) mod 60.
Definition SecFromTime (t : Z) : Z := (t / msPerSecond) mod 60.
Definition msFromTime (t : Z) : Z := t mod msPerSecond.

(** [MakeDay(year, month, date)]: the month may lie outside 0..11 and the
    date outside the month; both carry over. *)
Definition MakeDay (year month date : Z) : Z :=
  let ym := year + month / 12 in
  let mn := month mod 12 in
  DayFromYear ym + month_start (leap_of_year ym) mn + date - 1.

Definition MakeDate (day time : Z) : Z := day * msPerDay + time.

Definition TimeClip (t : Z) : Date :=
  if 8640000000000000 <? Z.abs t then NaN else Fin t.

(** The server's time zone: the offset of local time from UTC, in
    milliseconds, in force at a UTC instant ([LocalTZA(t, true)]) and the
    offset by which a local time is read ([LocalTZA(t, false)]).  The two
    agree except around a change of offset: a local time that a change
    skips, or that occurs twice, is read with an offset the implementation
    chooses. *)
Record Zone : Type := mkZone {
  offset_at : Z -> Z;
  offset_of_local : Z -> Z
}.

(** A zone without changes of offset. *)
Definition fixed_zone (offset : Z) : Zone :=
  mkZone (fun _ => offset) (fun _ => offset).

Definition LocalTime (tza : Zone) (t : Z) : Z := t + offset_at tza t.
Definition UTC (tza : Zone) (t : Z) : Z := t - offset_of_local tza t.

(** [d.getMonth()] *)
Definition getMonth (tza : Zone) (d : Date) : num :=
  match d with
  | NaN => NaN
  | Fin t => Fin (MonthFromTime (LocalTime tza t))
  end.

(** [d.setMonth(month)]: the new time value of [d]. *)
Definition setMonth (tza : Zone) (d : Date) (month : num) : Date :=
  match d, month with
  | Fin t0, Fin m =>
      let t := LocalTime tza t0 in
      let newDate :=
        MakeDate (MakeDay (YearFromTime t) m (DateFromTime t)) (TimeWithinDay t) in
      TimeClip (UTC tza newDate)
  | _, _ => NaN
  end.

(** Decimal digits of a non-negative integer, zero-padded on the left. *)
Definition pad (width : nat) (n : Z) : list ascii :=
  let ds := digits_of 10 n in
  repeat "0"%char (width - length ds)%nat ++ ds.

Definition iso_year (y : Z) : list ascii :=
  if (0 <=? y) && (y <=? 9999) then pad 4 y
  else if y <? 0 then "-"%char :: pad 6 (- y)
  else "+"%char :: pad 6 y.

(** The text [YYYY-MM-DDTHH:mm:ss.sssZ] of a time value, in UTC. *)
Definition iso_format (t : Z) : string :=
  of_chars
    (iso_year (YearFromTime t) ++ "-"%char :: pad 2 (MonthFromTime t + 1)
     ++ "-"%char :: pad 2 (DateFromTime t)
     ++ "T"%char :: pad 2 (HourFromTime t)
     ++ ":"%char :: pad 2 (MinFromTime t)
     ++ ":"%char :: pad 2 (SecFromTime t)
     ++ "."%char :: pad 3 (msFromTime t) ++ ["Z"%char]).

(** [d.toISOString()]: throws a RangeError ([None]) on an invalid date. *)
Definition toISOString (d : Date) : option string :=
  match d with
  | NaN => None
  | Fin t => Some (iso_format t)
  end.

(** *** Calendar months

    A time value read as a calendar date: year, month (0 = January), day of
    the month (from 1) and milliseconds into the day. *)
Record Civil : Type := mkCivil {
  c_year : Z;
  c_month : Z;
  c_date : Z;
  c_time : Z
}.

Definition civil (t : Z) : Civil :=
  mkCivil (YearFromTime t) (MonthFromTime t) (DateFromTime t) (TimeWithinDay t).

Definition DaysInMonth (y m : Z) : Z :=
  month_start (leap_of_year y) (m + 1) - month_start (leap_of_year y) m.

(** Advancing a date by [n] calendar months with roll-over: the month
    number moves by [n], carrying into the year; the day of the month is
    kept when the target month has it, and otherwise the days beyond the end
    of the target month run on into the month after it (31 January plus one
    month is 2 or 3 March; nothing is clamped to the end of February).  The
    time of day is kept. *)
Definition add_months_rollover (c : Civil) (n : Z) : Civil :=
  let months := c_month c + n in
  let y := c_year c + months / 12 in
  let m := months mod 12 in
  if c_date c <=? DaysInMonth y m
  then mkCivil y m (c_date c) (c_time c)
  else mkCivil y (m + 1) (c_date c - DaysInMonth y m) (c_time c).

(** A local time exists in a zone when reading it as an instant and
    going back to local time gives it again: it is not a time of day that a
    change of offset skips (the hour lost when clocks are set forward). *)
Definition local_time_exists (tza : Zone) (t : Z) : Prop :=
  LocalTime tza (UTC tza t) = t.

(* ===================================================================== *)
(** ** The document: products and orders                                 *)
(* ===================================================================== *)

(** A stored object is a record of its properties.  A property the object
    does not have reads as [VUndefined], as in JavaScript. *)
Record Product : Type := mkProduct {
  p_id : value;
  p_name : value;
  p_price : value;
  p_warrantyMonths : value;
  p_category : value;
  p_stock : value;
  p_image : value;
  p_createdAt : value
}.

Record Order : Type := mkOrder {
  o_id : value;
  o_name : value;
  o_phone : value;
  o_productId : value;
  o_quantity : value;
  o_serialNumber : value;
  o_status : value;
  o_createdAt : value;
  o_approvedAt : value;
  o_warrantyExpiry : value;
  o_rejectedAt : value
}.

Record DB : Type := mkDB {
  products : list Product;
  orders : list Order
}.

(** The document created when data.json does not exist. *)
Definition empty_db : DB := mkDB [] [].

(** Property assignments [obj.field = v]. *)
Definition set_stock (v : value) (p : Product) : Product :=
  mkProduct (p_id p) (p_name p) (p_price p) (p_warrantyMonths p)
            (p_category p) v (p_image p) (p_createdAt p).

Definition set_status (v : value) (o : Order) : Order :=
  mkOrder (o_id o) (o_name o) (o_phone o) (o_productId o) (o_quantity o)
          (o_serialNumber o) v (o_createdAt o) (o_approvedAt o)
          (o_warrantyExpiry o) (o_rejectedAt o).

Definition set_approvedAt (v : value) (o : Order) : Order :=
  mkOrder (o_id o) (o_name o) (o_phone o) (o_productId o) (o_quantity o)
          (o_serialNumber o) (o_status o) (o_createdAt o) v
          (o_warrantyExpiry o) (o_rejectedAt o).

Definition set_warrantyExpiry (v : value) (o : Order) : Order :=
  mkOrder (o_id o) (o_name o) (o_phone o) (o_productId o) (o_quantity o)
          (o_serialNumber o) (o_status o) (o_createdAt o) (o_approvedAt o)
          v (o_rejectedAt o).

Definition set_rejectedAt (v : value) (o : Order) : Order :=
  mkOrder (o_id o) (o_name o) (o_phone o) (o_productId o) (o_quantity o)
          (o_serialNumber o) (o_status o) (o_createdAt o) (o_approvedAt o)
          (o_warrantyExpiry o) v.

(** *** Persistence: [writeDB] followed by a later [readDB]

    [JSON.stringify] prints NaN as [null] and leaves out properties whose
    value is undefined; [JSON.parse] reads the text back.  On the modelled
    values the round trip changes NaN into null and nothing else. *)
Definition json_value (v : value) : value :=
  match v with
  | VNum NaN => VNull
  | _ => v
  end.

Definition json_product (p : Product) : Product :=
  mkProduct (json_value (p_id p)) (json_value (p_name p))
            (json_value (p_price p)) (json_value (p_warrantyMonths p))
            (json_value (p_category p)) (json_value (p_stock p))
            (json_value (p_image p)) (json_value (p_createdAt p)).

Definition json_order (o : Order) : Order :=
  mkOrder (json_value (o_id o)) (json_value (o_name o))
          (json_value (o_phone o)) (json_value (o_productId o))
          (json_value (o_quantity o)) (json_value (o_serialNumber o))
          (json_value (o_status o)) (json_value (o_createdAt o))
          (json_value (o_approvedAt o)) (json_value (o_warrantyExpiry o))
          (json_value (o_rejectedAt o)).

(** [writeDB data]: the document the next [readDB] returns. *)
Definition writeDB (data : DB) : DB :=
  mkDB (map json_product (products data)) (map json_order (orders data)).

(** A document as [readDB] can return it: writing it and reading it back
    gives the same document (no field holds NaN). *)
Definition json_db (db : DB) : Prop := writeDB db = db.

(* ===================================================================== *)
(** ** Requests, responses and the request environment                   *)
(* ===================================================================== *)

(** What a handler reads from outside the request: the clock, the random
    generator and the server's time zone. *)
Record Env : Type := mkEnv {
  id_clock : Z;     (* Date.now() inside makeId *)
  id_random : Z;    (* Math.round(Math.random() * 1e6) inside makeId *)
  clock : Z;        (* the time value of new Date() *)
  tza : Zone        (* the server's time zone *)
}.

(** JSON bodies the handlers send with [res.json]. *)
Inductive Body : Type :=
| Json_pong
| Json_empty_array
| Json_error (error : string)
| Json_products (items : list Product)
| Json_product (p : Product)
| Json_message_product (message : string) (product : Product)
| Json_message_order (message : string) (order : Order)
| Json_orders (items : list (Order * option Product))
| Json_search (found_products : list Product) (found_orders : list Order).

Inductive Outcome : Type :=
| Reply (status : Z) (body : Body)
| Threw.

Definition OK : Z := 200.
Definition BadRequest : Z := 400.
Definition NotFound : Z := 404.

(** A text parameter, from the query string or from a multipart form, is
    absent or a string. *)
Definition param (q : option string) : value :=
  match q with
  | Some s => VStr s
  | None => VUndefined
  end.

(** [makeId(prefix)] *)
Definition makeId (env : Env) (prefix : string) : string :=
  prefix +:+ int_toString 36 (id_clock env) +:+ int_toString 36 (id_random env).

(** [new Date().toISOString()]: the current time is always a valid date. *)
Definition now_iso (env : Env) : string := iso_format (clock env).

(** [arr.find(pred)] gives the first matching element; the handlers then
    mutate that very object, so its position is kept. *)
Definition find {A} (pred : A -> bool) (arr : list A) : option (nat * A) :=
  list_find (fun x => pred x = true) arr.

(** [arr.filter(pred)] where evaluating [pred] may throw: elements are
    visited in order and the first exception aborts the call. *)
Fixpoint filter_js {A} (pred : A -> option value) (arr : list A)
  : option (list A) :=
  match arr with
  | [] => Some []
  | x :: arr' =>
      match pred x with
      | None => None
      | Some v =>
          match filter_js pred arr' with
          | None => None
          | Some r => Some (if ToBoolean v then x :: r else r)
          end
      end
  end.

(** Short-circuit [a || b] and [a && b] when evaluating an operand may
    throw. *)
Definition or_else (a b : option value) : option value :=
  match a with
  | None => None
  | Some x => if ToBoolean x then Some x else b
  end.

Definition and_then (a b : option value) : option value :=
  match a with
  | None => None
  | Some x => if ToBoolean x then b else Some x
  end.

(** [v.toLowerCase().includes(qq)] *)
Definition lower_includes (v : value) (qq : string) : option value :=
  match call_toLowerCase v with
  | Some s => Some (VBool (includes s qq))
  | None => None
  end.

(** Destructuring default [{ field = d }]: used when the field is
    undefined. *)
Definition default_to (d v : value) : value :=
  match v with
  | VUndefined => d
  | _ => v
  end.

(* ===================================================================== *)
(** ** The route handlers                                                *)
(* ===================================================================== *)

(** Each handler takes the document [readDB] returns and gives the
    response together with the document on disk afterwards: the argument
    itself when the handler does not reach [writeDB]. *)

(** GET /api/ping *)
Definition ping : Outcome := Reply OK Json_pong.

(** The predicate of the [q] filter, shared by the product list and the
    search:
    [p.name.toLowerCase().includes(qq) ||
     (p.category || "").toLowerCase().includes(qq)] *)
Definition product_matches (qq : string) (p : Product) : option value :=
  or_else (lower_includes (p_name p) qq)
          (lower_includes (js_or (p_category p) (VStr "")) qq).

(** [(p.category || "").toLowerCase() === category.toLowerCase()] *)
Definition category_is (category : string) (p : Product) : option value :=
  match call_toLowerCase (js_or (p_category p) (VStr "")) with
  | Some c => Some (VBool (strict_eq (VStr c) (VStr (toLowerCase category))))
  | None => None
  end.

(** GET /api/products?q=&category= *)
Definition list_products (db : DB) (q category : option string) : Outcome :=
  let items := products db in
  match (match q with
         | Some s =>
             if ToBoolean (VStr s)
             then filter_js (product_matches (toLowerCase s)) items
             else Some items
         | None => Some items
         end) with
  | None => Threw
  | Some items =>
      match (match category with
             | Some c =>
                 if ToBoolean (VStr c)
                 then filter_js (category_is c) items
                 else Some items
             | None => Some items
             end) with
      | None => Threw
      | Some items => Reply OK (Json_products items)
      end
  end.

(** GET /api/products/:id *)
Definition get_product (db : DB) (id : string) : Outcome :=
  match find (fun x => strict_eq (p_id x) (VStr id)) (products db) with
  | None => Reply NotFound (Json_error "Product not found")
  | Some (_, p) => Reply OK (Json_product p)
  end.

(** The text fields of a multipart product form, and the stored file name
    when an image came with it. *)
Record ProductForm : Type := mkProductForm {
  f_name : option string;
  f_price : option string;
  f_warrantyMonths : option string;
  f_category : option string;
  f_initialStock : option string;
  f_file : option string
}.

(** POST /api/admin/product with a multipart form.  The handler's
    [try ... catch], which answers 500 "Upload failed", is reached through a
    failing file or document access only; those are not modelled. *)
Definition add_product (env : Env) (db : DB) (body : ProductForm)
  : Outcome * DB :=
  let name := param (f_name body) in
  let price := param (f_price body) in
  let warrantyMonths := default_to (VNum (Fin 0)) (param (f_warrantyMonths body)) in
  let category := default_to (VStr "General") (param (f_category body)) in
  let initialStock := default_to (VNum (Fin 0)) (param (f_initialStock body)) in
  if negb (ToBoolean name)
  then (Reply BadRequest (Json_error "Product name required"), db)
  else
    let newProduct :=
      mkProduct (VStr (makeId env "prod_"))
                name
                (js_or (Number price) (VNum (Fin 0)))
                (js_or (Number warrantyMonths) (VNum (Fin 0)))
                category
                (js_or (Number initialStock) (VNum (Fin 0)))
                (match f_file body with
                 | Some filename => VStr ("/uploads/" +:+ filename)
                 | None => VNull
                 end)
                (VStr (now_iso env)) in
    let db' := mkDB (products db ++ [newProduct]) (orders db) in
    (Reply OK (Json_message_product "Product added" newProduct), writeDB db').

(** The same route, whatever the request carries.  [req.body] holds the
    text fields of a multipart form, or, for a JSON request, what
    [express.json()] parsed: values of any type ([multer] lets such a request
    pass, without a file).  The handler reads both in the same way. *)
Record ProductBody : Type := mkProductBody {
  pb_name : value;
  pb_price : value;
  pb_warrantyMonths : value;
  pb_category : value;
  pb_initialStock : value;
  pb_file : option string
}.

Definition add_product_body (env : Env) (db : DB) (body : ProductBody)
  : Outcome * DB :=
  let name := pb_name body in
  let price := pb_price body in
  let warrantyMonths := default_to (VNum (Fin 0)) (pb_warrantyMonths body) in
  let category := default_to (VStr "General") (pb_category body) in
  let initialStock := default_to (VNum (Fin 0)) (pb_initialStock body) in
  if negb (ToBoolean name)
  then (Reply BadRequest (Json_error "Product name required"), db)
  else
    let newProduct :=
      mkProduct (VStr (makeId env "prod_"))
                name
                (js_or (Number price) (VNum (Fin 0)))
                (js_or (Number warrantyMonths) (VNum (Fin 0)))
                category
                (js_or (Number initialStock) (VNum (Fin 0)))
                (match pb_file body with
                 | Some filename => VStr ("/uploads/" +:+ filename)
                 | None => VNull
                 end)
                (VStr (now_iso env)) in
    let db' := mkDB (products db ++ [newProduct]) (orders db) in
    (Reply OK (Json_message_product "Product added" newProduct), writeDB db').

(** The body a multipart form amounts to. *)
Definition form_body (form : ProductForm) : ProductBody :=
  mkProductBody (param (f_name form)) (param (f_price form))
                (param (f_warrantyMonths form)) (param (f_category form))
                (param (f_initialStock form)) (f_file form).

(** The body of POST /api/admin/stock *)
Record StockBody : Type := mkStockBody {
  s_productId : value;
  s_addQuantity : value
}.

(** POST /api/admin/stock *)
Definition update_stock (db : DB) (body : StockBody) : Outcome * DB :=
  let productId := s_productId body in
  let addQuantity := s_addQuantity body in
  match find (fun x => strict_eq (p_id x) productId) (products db) with
  | None => (Reply NotFound (Json_error "Product not found"), db)
  | Some (i, p) =>
      let p' :=
        set_stock (js_add (js_or (p_stock p) (VNum (Fin 0)))
                          (Number (js_or addQuantity (VNum (Fin 0))))) p in
      let db' := mkDB (<[i := p']> (products db)) (orders db) in
      (Reply OK (Json_message_product "Stock updated" p'), writeDB db')
  end.

(** The body of POST /api/orders *)
Record OrderBody : Type := mkOrderBody {
  b_name : value;
  b_phone : value;
  b_productId : value;
  b_quantity : value;
  b_serialNumber : value
}.

(** POST /api/orders *)
Definition place_order (env : Env) (db : DB) (body : OrderBody)
  : Outcome * DB :=
  let name := b_name body in
  let phone := b_phone body in
  let productId := b_productId body in
  let quantity := b_quantity body in
  let serialNumber := b_serialNumber body in
  if negb (ToBoolean name) || negb (ToBoolean phone)
     || negb (ToBoolean productId) || negb (ToBoolean quantity)
  then (Reply BadRequest (Json_error "Missing fields"), db)
  else
    match find (fun p => strict_eq (p_id p) productId) (products db) with
    | None => (Reply NotFound (Json_error "Product not found"), db)
    | Some (_, product) =>
        if js_lt (p_stock product) (Number quantity)
        then (Reply BadRequest (Json_error "Not enough stock"), db)
        else
          let order :=
            mkOrder (VStr (makeId env "ord_")) name phone productId
                    (Number quantity)
                    (js_or serialNumber VNull)
                    (VStr "PENDING")
                    (VStr (now_iso env))
                    VUndefined VUndefined VUndefined in
          let db' := mkDB (products db) (orders db ++ [order]) in
          (Reply OK (Json_message_order
                       "Order placed (pending admin approval)" order),
           writeDB db')
    end.

(** GET /api/admin/orders?status= *)
Definition list_orders (db : DB) (status : option string) : Outcome :=
  let os := orders db in
  let os :=
    if ToBoolean (param status)
    then List.filter (fun o => strict_eq (o_status o) (param status)) os
    else os in
  Reply OK
    (Json_orders
       (map (fun o =>
               (o, snd <$> find (fun p => strict_eq (p_id p) (o_productId o))
                                (products db)))
            os)).

(** The warranty expiry computed at approval:
    [null] unless [warrantyMonths && warrantyMonths > 0], and then
    [expiry.setMonth(expiry.getMonth() + Number(warrantyMonths))] on a copy
    of [approvedAt], printed with [toISOString] (which may throw). *)
Definition warranty_expiry (tza : Zone) (approvedAt : Date) (warrantyMonths : value)
  : option value :=
  if ToBoolean (js_and warrantyMonths
                       (VBool (js_gt warrantyMonths (VNum (Fin 0)))))
  then
    let expiry : Date := approvedAt in
    let expiry :=
      setMonth tza expiry
               (num_add (getMonth tza expiry) (ToNumber warrantyMonths)) in
    match toISOString expiry with
    | Some s => Some (VStr s)
    | None => None
    end
  else Some VNull.

(** POST /api/admin/orders/:id/approve *)
Definition approve (env : Env) (db : DB) (orderId : string) : Outcome * DB :=
  match find (fun o => strict_eq (o_id o) (VStr orderId)) (orders db) with
  | None => (Reply NotFound (Json_error "Order not found"), db)
  | Some (i, order) =>
      if negb (strict_eq (o_status order) (VStr "PENDING"))
      then (Reply BadRequest (Json_error "Order not pending"), db)
      else
        match find (fun p => strict_eq (p_id p) (o_productId order))
                   (products db) with
        | None => (Reply NotFound (Json_error "Product not found for order"), db)
        | Some (j, product) =>
            if js_lt (js_or (p_stock product) (VNum (Fin 0))) (o_quantity order)
            then (Reply BadRequest (Json_error "Insufficient stock"), db)
            else
              let product' :=
                set_stock (js_sub (p_stock product) (o_quantity order)) product in
              let approvedAt : Date := Fin (clock env) in
              match warranty_expiry (tza env) approvedAt
                                    (p_warrantyMonths product') with
              | None => (Threw, db)
              | Some warrantyExpiry =>
                  let order' :=
                    set_warrantyExpiry warrantyExpiry
                      (set_approvedAt (VStr (now_iso env))
                         (set_status (VStr "APPROVED") order)) in
                  let db' := mkDB (<[j := product']> (products db))
                                  (<[i := order']> (orders db)) in
                  (Reply OK (Json_message_order "Order approved" order'),
                   writeDB db')
              end
        end
  end.

(** POST /api/admin/orders/:id/reject *)
Definition reject (env : Env) (db : DB) (orderId : string) : Outcome * DB :=
  match find (fun o => strict_eq (o_id o) (VStr orderId)) (orders db) with
  | None => (Reply NotFound (Json_error "Order not found"), db)
  | Some (i, order) =>
      let order' :=
        set_rejectedAt (VStr (now_iso env))
                       (set_status (VStr "REJECTED") order) in
      let db' := mkDB (products db) (<[i := order']> (orders db)) in
      (Reply OK (Json_message_order "Order rejected" order'), writeDB db')
  end.

(** The predicate of the order filter of the search:
    [(o.name && o.name.toLowerCase().includes(qq)) ||
     (o.serialNumber && o.serialNumber.toLowerCase().includes(qq))] *)
Definition order_matches (qq : string) (o : Order) : option value :=
  or_else (and_then (Some (o_name o)) (lower_includes (o_name o) qq))
          (and_then (Some (o_serialNumber o))
                    (lower_includes (o_serialNumber o) qq)).

(** GET /api/search?q= *)
Definition search (db : DB) (q : option string) : Outcome :=
  match q with
  | Some s =>
      if ToBoolean (VStr s) then
        let qq := toLowerCase s in
        match filter_js (product_matches qq) (products db) with
        | None => Threw
        | Some ps =>
            match filter_js (order_matches qq) (orders db) with
            | None => Threw
            | Some os => Reply OK (Json_search ps os)
            end
        end
      else Reply OK Json_empty_array
  | None => Reply OK Json_empty_array
  end.

(** *** The service as a transition system *)

Inductive Request : Type :=
| GET_ping
| GET_products (q category : option string)
| GET_product (id : string)
| POST_admin_product (body : ProductForm)
| POST_admin_product_json (body : ProductBody)
| POST_admin_stock (body : StockBody)
| POST_orders (body : OrderBody)
| GET_admin_orders (status : option string)
| POST_approve (id : string)
| POST_reject (id : string)
| GET_search (q : option string).

Definition handle (env : Env) (db : DB) (req : Request) : Outcome * DB :=
  match req with
  | GET_ping => (ping, db)
  | GET_products q category => (list_products db q category, db)
  | GET_product id => (get_product db id, db)
  | POST_admin_product body => add_product env db body
  | POST_admin_product_json body => add_product_body env db body
  | POST_admin_stock body => update_stock db body
  | POST_orders body => place_order env db body
  | GET_admin_orders status => (list_orders db status, db)
  | POST_approve id => approve env db id
  | POST_reject id => reject env db id
  | GET_search q => (search db q, db)
  end.

(** Documents the service can reach from the initial one, requests being
    served one after the other. *)
Inductive reachable : DB -> Prop :=
| reachable_init : reachable empty_db
| reachable_step env db req :
    reachable db -> reachable (snd (handle env db req)).

(** Running a list of requests, each with its environment. *)
Fixpoint run (db : DB) (reqs : list (Env * Request)) : DB :=
  match reqs with
  | [] => db
  | (env, req) :: reqs' => run (snd (handle env db req)) reqs'
  end.

(* ===================================================================== *)
(** ** Vocabulary of the specification                                   *)
(* ===================================================================== *)

(** *** Field types of the data model *)

Definition is_string (v : value) : Prop := exists s, v = VStr s.

(** An optional string: a string, or a falsy value standing for none. *)
Definition string_or_falsy (v : value) : Prop :=
  is_string v \/ ToBoolean v = false.

(** A numeric field as it reads back from the document: a number, or
    [null] where NaN was written. *)
Definition json_number (v : value) : Prop :=
  v = VNull \/ exists z, v = VNum (Fin z).

(** The text of an optional string field; empty when there is none. *)
Definition text_of (v : value) : string :=
  match v with
  | VStr s => s
  | _ => ""
  end.

Definition products_typed (db : DB) : Prop :=
  Forall (fun p => is_string (p_name p) /\ string_or_falsy (p_category p))
         (products db).

Definition orders_typed (db : DB) : Prop :=
  Forall (fun o => string_or_falsy (o_name o) /\
                   string_or_falsy (o_serialNumber o))
         (orders db).

(** *** Where the model is exact

    The integers that JavaScript numbers represent exactly: on them, sums
    and differences whose result is one of them are the exact ones. *)
Definition is_safe (z : Z) : bool :=
  (- 9007199254740992 <=? z) && (z <=? 9007199254740992).

Definition safe (z : Z) : Prop := is_safe z = true.

Definition is_letter (c : ascii) : bool :=
  let n := code c in
  ((65 <=? n) && (n <=? 90)) || ((97 <=? n) && (n <=? 122)).

(** Text of letters only, other than "Infinity": no numeric literal. *)
Definition is_word (s : string) : bool :=
  forallb is_letter (chars s) && negb (String.eqb s "Infinity").

(** The values on which [ToNumber] is the coercion of JavaScript: a string
    must be integer text (white space around it, an optional sign, decimal
    digits; or nothing but white space, which is 0) within the safe range,
    or a word, which is no number; a number must be safe.  Text with a
    fraction, an exponent or a radix prefix, and "Infinity", are left out:
    JavaScript reads a number there and the model does not. *)
Definition is_exact_number (v : value) : bool :=
  match v with
  | VStr s =>
      match StringToNumber s with
      | Fin z => is_safe z
      | NaN => is_word s
      end
  | VNum (Fin z) => is_safe z
  | _ => true
  end.

Definition exact_number (v : value) : Prop := is_exact_number v = true.

Definition is_safe_value (v : value) : bool :=
  match v with
  | VNum (Fin z) => is_safe z
  | _ => true
  end.

(** Text within ASCII, on which [toLowerCase] is the one of JavaScript. *)
Definition is_ascii_text (s : string) : bool :=
  forallb (fun c => code c <? 128) (chars s).

Definition ascii_text (s : string) : Prop := is_ascii_text s = true.

Definition is_ascii_value (v : value) : bool :=
  match v with
  | VStr s => is_ascii_text s
  | _ => true
  end.

Definition ascii_value (v : value) : Prop := is_ascii_value v = true.

(** The text the filters read is within ASCII. *)
Definition ascii_fields (db : DB) : Prop :=
  forallb (fun p => is_ascii_value (p_name p) && is_ascii_value (p_category p))
          (products db)
  && forallb (fun o => is_ascii_value (o_name o)
                       && is_ascii_value (o_serialNumber o))
             (orders db)
  = true.

(** *** Matching

    Two characters are the same letter when they are equal or are the
    capital and the small form of one of the 26 letters. *)
Definition same_letter (a b : ascii) : Prop :=
  a = b \/
  exists k, 0 <= k < 26 /\
            ((code a = 65 + k /\ code b = 97 + k) \/
             (code a = 97 + k /\ code b = 65 + k)).

(** [s] equals [t], letter case ignored: the same length, and letter by
    letter the same. *)
Definition equal_ci (s t : string) : Prop :=
  Forall2 same_letter (chars s) (chars t).

(** [s] contains [q], letter case ignored: a part of [s] equals [q] up to
    letter case. *)
Definition contains_ci (s q : string) : Prop :=
  exists pre part post, s = pre +:+ part +:+ post /\ equal_ci part q.

Definition product_hit (q : string) (p : Product) : Prop :=
  contains_ci (text_of (p_name p)) q \/ contains_ci (text_of (p_category p)) q.

Definition order_hit (q : string) (o : Order) : Prop :=
  contains_ci (text_of (o_name o)) q \/
  contains_ci (text_of (o_serialNumber o)) q.

(** A filter of the product list is in force when its parameter is present
    and not empty. *)
Definition passes_q (q : option string) (p : Product) : Prop :=
  match q with
  | Some s => s = "" \/ product_hit s p
  | None => True
  end.

Definition passes_category (category : option string) (p : Product) : Prop :=
  match category with
  | Some c => c = "" \/ equal_ci (text_of (p_category p)) c
  | None => True
  end.

(** [exactly_those P l r]: [r] lists the elements of [l] that satisfy [P],
    each as often as in [l] and in the order of [l]. *)
Inductive exactly_those {A} (P : A -> Prop) : list A -> list A -> Prop :=
| exactly_nil : exactly_those P [] []
| exactly_keep x l r :
    P x -> exactly_those P l r -> exactly_those P (x :: l) (x :: r)
| exactly_skip x l r :
    ~ P x -> exactly_those P l r -> exactly_those P (x :: l) r.

(** *** Stock *)

(** Every product's stock is a number and not below zero. *)
Definition stock_nonneg (db : DB) : Prop :=
  Forall (fun p => exists z, p_stock p = VNum (Fin z) /\ 0 <= z) (products db).

(** No product's stock compares below zero (a stock that is not a number
    passes). *)
Definition no_stock_below_zero (db : DB) : Prop :=
  Forall (fun p => js_lt (p_stock p) (VNum (Fin 0)) = false) (products db).

Definition quantities_numeric (db : DB) : Prop :=
  Forall (fun o => json_number (o_quantity o)) (orders db).

(** The invariant behind non-negative stock: order quantities are numeric
    fields too. *)
Definition stock_inv (db : DB) : Prop :=
  stock_nonneg db /\ quantities_numeric db.

(** A field of a request counts as missing when it is absent or falsy. *)
Definition missing (v : value) : Prop := ToBoolean v = false.

(** *** The objects a request designates *)

(** [x], at position [i], is the first element of [l] that satisfies
    [pred]: the object [l.find(pred)] returns. *)
Definition first_with {A} (pred : A -> bool) (l : list A) (i : nat) (x : A)
  : Prop :=
  l !! i = Some x /\ pred x = true /\
  forall j y, l !! j = Some y -> (j < i)%nat -> pred y = false.

(** The order a route parameter [:id] designates. *)
Definition the_order (db : DB) (orderId : string) (i : nat) (order : Order)
  : Prop :=
  first_with (fun o => strict_eq (o_id o) (VStr orderId)) (orders db) i order.

(** The product a product id designates. *)
Definition the_product (db : DB) (productId : value) (j : nat)
  (product : Product) : Prop :=
  first_with (fun p => strict_eq (p_id p) productId) (products db) j product.

(** An order with this id exists. *)
Definition order_exists (db : DB) (orderId : string) : Prop :=
  exists o, o ∈ orders db /\ o_id o = VStr orderId.

(** Rejection assigns [status] and [rejectedAt]; [same_but_rejection o o']
    says that [o'] has every other field of [o]. *)
Definition same_but_rejection (o o' : Order) : Prop :=
  o_id o' = o_id o /\ o_name o' = o_name o /\ o_phone o' = o_phone o /\
  o_productId o' = o_productId o /\ o_quantity o' = o_quantity o /\
  o_serialNumber o' = o_serialNumber o /\ o_createdAt o' = o_createdAt o /\
  o_approvedAt o' = o_approvedAt o /\ o_warrantyExpiry o' = o_warrantyExpiry o.

(** A product with this id exists. *)
Definition product_exists (db : DB) (productId : value) : Prop :=
  exists p, p ∈ products db /\ p_id p = productId.

(** [a] is less than [b] as numbers, after coercion; false when either
    side is not a number. *)
Definition less_than (a b : value) : Prop :=
  exists x y, ToNumber a = Fin x /\ ToNumber b = Fin y /\ x < y.

(** All four required fields of an order request are there. *)
Definition complete (body : OrderBody) : Prop :=
  ~ missing (b_name body) /\ ~ missing (b_phone body) /\
  ~ missing (b_productId body) /\ ~ missing (b_quantity body).

(** The order an approval writes, and the document it writes. *)
Definition approved_order (env : Env) (w : value) (order : Order) : Order :=
  set_warrantyExpiry w
    (set_approvedAt (VStr (now_iso env)) (set_status (VStr "APPROVED") order)).

Definition approved_db (env : Env) (db : DB) (i j : nat) (order : Order)
  (product : Product) (w : value) : DB :=
  writeDB
    (mkDB (<[j := set_stock (js_sub (p_stock product) (o_quantity order)) product]>
             (products db))
          (<[i := approved_order env w order]> (orders db))).

(** The order [place_order] builds from a request. *)
Definition new_order (env : Env) (body : OrderBody) : Order :=
  mkOrder (VStr (makeId env "ord_")) (b_name body) (b_phone body)
          (b_productId body) (Number (b_quantity body))
          (js_or (b_serialNumber body) VNull) (VStr "PENDING")
          (VStr (now_iso env)) VUndefined VUndefined VUndefined.

(** *** Typing invariants of the document *)

(** Stock and quantity are numeric fields. *)
Definition numeric_fields (db : DB) : Prop :=
  Forall (fun p => json_number (p_stock p)) (products db) /\
  Forall (fun o => json_number (o_quantity o)) (orders db).

(** The same while a handler still holds the document in memory, where a
    number may be NaN. *)
Definition numeric_fields_mem (db : DB) : Prop :=
  Forall (fun p => p_stock p = VNull \/ exists n, p_stock p = VNum n)
         (products db) /\
  Forall (fun o => o_quantity o = VNull \/ exists n, o_quantity o = VNum n)
         (orders db).

Definition stock_inv_mem (db : DB) : Prop :=
  stock_nonneg db /\
  Forall (fun o => o_quantity o = VNull \/ exists n, o_quantity o = VNum n)
         (orders db).

Definition db_typed (db : DB) : Prop := products_typed db /\ orders_typed db.

(** A request whose text fields are strings: the customer name and the
    serial number of an order, the name and the category of a product sent
    as JSON (the fields of a product form always are). *)
Definition typed_request (req : Request) : Prop :=
  match req with
  | POST_admin_product_json body =>
      is_string (pb_name body) /\ string_or_falsy (pb_category body)
  | POST_orders body =>
      is_string (b_name body) /\ string_or_falsy (b_serialNumber body)
  | _ => True
  end.

(** The numeric fields of a product body are values the model reads as
    JavaScript does. *)
Definition exact_product (body : ProductBody) : Prop :=
  exact_number (pb_price body) /\
  exact_number (default_to (VNum (Fin 0)) (pb_warrantyMonths body)) /\
  exact_number (default_to (VNum (Fin 0)) (pb_initialStock body)).

(** *** Requests that keep stock at or above zero

    Product creation and stock adjustment do not validate the amounts they
    are given.  [keeps_stock db req] says of a request served on [db]:
    - a product is created with a price, warranty months and an initial
      stock that are each absent, an integer or a word (which counts as 0),
      the initial stock not below zero;
    - a stock adjustment is by an amount that is an integer (absent, null
      and empty count as 0) and does not take the stock below zero;
    - the quantity of an order is an integer or a word;
    the integers being numbers or integer text within the safe range, on
    which the model reads the amounts as JavaScript does
    ([exact_number]). *)
Definition initial_stock_ok (body : ProductBody) : Prop :=
  exact_product body /\
  ~ less_than (default_to (VNum (Fin 0)) (pb_initialStock body)) (VNum (Fin 0)).

Definition keeps_stock (db : DB) (req : Request) : Prop :=
  match req with
  | POST_admin_product body => initial_stock_ok (form_body body)
  | POST_admin_product_json body => initial_stock_ok body
  | POST_admin_stock body =>
      exact_number (s_addQuantity body) /\
      forall j p s,
        the_product db (s_productId body) j p ->
        p_stock p = VNum (Fin s) ->
        exists a,
          ToNumber (js_or (s_addQuantity body) (VNum (Fin 0))) = Fin a /\
          0 <= s + a
  | POST_orders body => exact_number (b_quantity body)
  | _ => True
  end.

(** The stocks and the quantities of a document are within the safe
    range. *)
Definition safe_document (db : DB) : Prop :=
  forallb (fun p => is_safe_value (p_stock p)) (products db)
  && forallb (fun o => is_safe_value (o_quantity o)) (orders db)
  = true.

(** A run of such requests in which every document written stays within
    the safe range. *)
Fixpoint keeps_stock_run (db : DB) (reqs : list (Env * Request)) : Prop :=
  match reqs with
  | [] => True
  | (env, req) :: reqs' =>
      keeps_stock db req /\
      safe_document (snd (handle env db req)) /\
      keeps_stock_run (snd (handle env db req)) reqs'
  end.

(* ===================================================================== *)
(** ** A sample scenario (section 8 of the specification)                *)
(* ===================================================================== *)

Definition env0 : Env := mkEnv 1706659200000 123456 1706659200000 (fixed_zone 0).

Definition widget_form : ProductForm :=
  mkProductForm (Some "Widget") (Some "10") (Some "3") None (Some "5") None.

(** One product, "Widget", stock 5, warranty 3 months. *)
Definition db_widget : DB := snd (add_product env0 empty_db widget_form).

Definition widget_id : string := makeId env0 "prod_".

Definition ann_order (quantity : value) : OrderBody :=
  mkOrderBody (VStr "Ann") (VStr "555-0100") (VStr widget_id) quantity VUndefined.

(** Ann's pending order for 2 widgets, and the document once approved. *)
Definition db_pending : DB := snd (place_order env0 db_widget (ann_order (VNum (Fin 2)))).
Definition ann_id : string := makeId env0 "ord_".
Definition db_approved : DB := snd (approve env0 db_pending ann_id).

(** An adjustment by -8 of the widget stock of 5. *)
Definition overdraw : StockBody := mkStockBody (VStr widget_id) (VNum (Fin (-8))).
Definition db_overdrawn : DB := snd (update_stock db_widget overdraw).

(** The pending order once the widget stock has been overdrawn to -3. *)
Definition db_short : DB := snd (update_stock db_pending overdraw).

(** The pending order once rejected. *)
Definition db_rejected : DB := snd (reject env0 db_pending ann_id).

(** An order for "-3" widgets, as text, and the document holding it. *)
Definition db_negative : DB :=
  snd (place_order env0 db_widget (ann_order (VStr "-3"))).

(** The scenario as a list of requests. *)
Definition scenario : list (Env * Request) :=
  [(env0, POST_admin_product widget_form);
   (env0, POST_orders (ann_order (VNum (Fin 2))));
   (env0, POST_approve ann_id)].

(** An order whose customer name is the number 7, and the document
    holding it. *)
Definition numbered_order : OrderBody :=
  mkOrderBody (VNum (Fin 7)) (VStr "555-0100") (VStr widget_id) (VNum (Fin 1))
              VUndefined.

Definition db_numbered : DB := snd (place_order env0 db_widget numbered_order).

(** A product sent as JSON with the number 7 for its name, and the document
    holding it. *)
Definition seven_body : ProductBody :=
  mkProductBody (VNum (Fin 7)) (VNum (Fin 10)) VUndefined VUndefined
                (VNum (Fin 5)) None.

Definition db_seven : DB := snd (add_product_body env0 empty_db seven_body).

(** A zone with a change to summer time: five hours behind UTC until
    2024-03-10T07:00Z, four hours behind from then on; the local hour from
    02:00 that the change skips is read with the offset before it. *)
Definition eastern : Zone :=
  mkZone (fun t => if t <? 1710054000000 then -18000000 else -14400000)
         (fun t => if t <? 1710039600000 then -18000000 else -14400000).

(* ===================================================================== *)
(** ** Vocabulary for the remaining routes and for the invariants        *)
(* ===================================================================== *)

(** [Number(x) || 0] as an integer: NaN counts as 0. *)
Definition num_or_zero (n : num) : Z :=
  match n with
  | NaN => 0
  | Fin z => z
  end.

(** The product [add_product] builds from a form. *)
Definition new_product (env : Env) (body : ProductForm) : Product :=
  mkProduct (VStr (makeId env "prod_"))
            (param (f_name body))
            (VNum (Fin (num_or_zero (ToNumber (param (f_price body))))))
            (VNum (Fin (num_or_zero
                          (ToNumber (default_to (VNum (Fin 0))
                                                (param (f_warrantyMonths body)))))))
            (default_to (VStr "General") (param (f_category body)))
            (VNum (Fin (num_or_zero
                          (ToNumber (default_to (VNum (Fin 0))
                                                (param (f_initialStock body)))))))
            (match f_file body with
             | Some filename => VStr ("/uploads/" +:+ filename)
             | None => VNull
             end)
            (VStr (now_iso env)).

(** The product the handler builds from a body of any kind. *)
Definition new_product_body (env : Env) (body : ProductBody) : Product :=
  mkProduct (VStr (makeId env "prod_"))
            (pb_name body)
            (VNum (Fin (num_or_zero (ToNumber (pb_price body)))))
            (VNum (Fin (num_or_zero
                          (ToNumber (default_to (VNum (Fin 0))
                                                (pb_warrantyMonths body))))))
            (default_to (VStr "General") (pb_category body))
            (VNum (Fin (num_or_zero
                          (ToNumber (default_to (VNum (Fin 0))
                                                (pb_initialStock body))))))
            (match pb_file body with
             | Some filename => VStr ("/uploads/" +:+ filename)
             | None => VNull
             end)
            (VStr (now_iso env)).

(** The status filter of the order list is in force when its parameter is
    present and not empty. *)
Definition passes_status (status : option string) (o : Order) : Prop :=
  match status with
  | Some s => s = "" \/ o_status o = VStr s
  | None => True
  end.

(** An item of the order list: the order with the product its [productId]
    designates, or with none when no product has that id. *)
Definition joined (db : DB) (item : Order * option Product) : Prop :=
  match snd item with
  | Some p => exists j, the_product db (o_productId (fst item)) j p
  | None =>
      forall p, p ∈ products db ->
                strict_eq (p_id p) (o_productId (fst item)) = false
  end.

(** What a request may change in a stored product: its stock. *)
Definition same_but_stock (p p' : Product) : Prop :=
  p_id p' = p_id p /\ p_name p' = p_name p /\ p_price p' = p_price p /\
  p_warrantyMonths p' = p_warrantyMonths p /\ p_category p' = p_category p /\
  p_image p' = p_image p /\ p_createdAt p' = p_createdAt p.

(** What no request changes in a stored order: what the customer sent and
    the creation stamp. *)
Definition same_request (o o' : Order) : Prop :=
  o_id o' = o_id o /\ o_name o' = o_name o /\ o_phone o' = o_phone o /\
  o_productId o' = o_productId o /\ o_quantity o' = o_quantity o /\
  o_serialNumber o' = o_serialNumber o /\ o_createdAt o' = o_createdAt o.

(** The three shapes of a stored order. *)
Definition pending_order (o : Order) : Prop :=
  o_status o = VStr "PENDING" /\ o_approvedAt o = VUndefined /\
  o_warrantyExpiry o = VUndefined /\ o_rejectedAt o = VUndefined.

Definition approved_shape (o : Order) : Prop :=
  o_status o = VStr "APPROVED" /\ is_string (o_approvedAt o) /\
  (o_warrantyExpiry o = VNull \/ is_string (o_warrantyExpiry o)) /\
  o_rejectedAt o = VUndefined.

Definition rejected_order (o : Order) : Prop :=
  o_status o = VStr "REJECTED" /\ is_string (o_rejectedAt o).

Definition order_shape (o : Order) : Prop :=
  is_string (o_id o) /\ is_string (o_createdAt o) /\
  ToBoolean (o_name o) = true /\ ToBoolean (o_phone o) = true /\
  ToBoolean (o_productId o) = true /\ json_number (o_quantity o) /\
  (pending_order o \/ approved_shape o \/ rejected_order o).

(** The shape of a stored product.  The name is there, of whatever type
    the request had it; nothing is known of the category. *)
Definition product_shape (p : Product) : Prop :=
  is_string (p_id p) /\
  ToBoolean (p_name p) = true /\
  json_number (p_price p) /\
  json_number (p_warrantyMonths p) /\
  json_number (p_stock p) /\
  (p_image p = VNull \/ is_string (p_image p)) /\
  is_string (p_createdAt p).

(** Every order refers to a product of the document. *)
Definition references_resolve (db : DB) : Prop :=
  Forall (fun o => exists p, p ∈ products db /\
                             strict_eq (p_id p) (o_productId o) = true)
         (orders db).

(** Value of a run of digits in a radix up to 36, as [toString(radix)]
    prints them: digits 0-9 then letters a-z. *)
Definition digit36_val (c : ascii) : Z :=
  let n := code c in
  if (48 <=? n) && (n <=? 57) then n - 48 else n - 87.

Fixpoint digits_value (radix acc : Z) (l : list ascii) : Z :=
  match l with
  | [] => acc
  | c :: l' => digits_value radix (acc * radix + digit36_val c) l'
  end.

(** The five ways a request rewrites the document: [rewrites db db'] holds
    when [db'] is what one of the writing handlers stores on [db]. *)
Inductive rewrites (db : DB) : DB -> Prop :=
| rewrites_product env body :
    ~ missing (pb_name body) ->
    rewrites db (writeDB (mkDB (products db ++ [new_product_body env body])
                               (orders db)))
| rewrites_stock body j p :
    the_product db (s_productId body) j p ->
    rewrites db
      (writeDB
         (mkDB (<[j := set_stock
                         (js_add (js_or (p_stock p) (VNum (Fin 0)))
                                 (Number (js_or (s_addQuantity body)
                                                (VNum (Fin 0))))) p]>
                  (products db))
               (orders db)))
| rewrites_order env body j product :
    complete body ->
    the_product db (b_productId body) j product ->
    ~ less_than (p_stock product) (b_quantity body) ->
    rewrites db (writeDB (mkDB (products db)
                               (orders db ++ [new_order env body])))
| rewrites_approval env orderId i order j product w :
    the_order db orderId i order ->
    o_status order = VStr "PENDING" ->
    the_product db (o_productId order) j product ->
    js_lt (js_or (p_stock product) (VNum (Fin 0))) (o_quantity order) = false ->
    warranty_expiry (tza env) (Fin (clock env)) (p_warrantyMonths product)
      = Some w ->
    rewrites db (approved_db env db i j order product w)
| rewrites_rejection env orderId i order :
    the_order db orderId i order ->
    rewrites db
      (writeDB
         (mkDB (products db)
               (<[i := set_rejectedAt (VStr (now_iso env))
                                      (set_status (VStr "REJECTED") order)]>
                  (orders db)))).

(** How a request may change a stored order: not at all, by approving it
    while it is pending, or by rejecting it. *)
Inductive order_step (o : Order) : Order -> Prop :=
| order_kept : order_step o o
| order_approved env w :
    o_status o = VStr "PENDING" ->
    w = VNull \/ is_string w ->
    order_step o (approved_order env w o)
| order_rejected env :
    order_step o (set_rejectedAt (VStr (now_iso env))
                                 (set_status (VStr "REJECTED") o)).

(** How a request may change a stored product: not at all, by a stock
    adjustment, or by the approval of an order for it. *)
Inductive product_step (p : Product) : Product -> Prop :=
| product_kept : product_step p p
| product_adjusted addQuantity :
    product_step p
      (json_product
         (set_stock (js_add (js_or (p_stock p) (VNum (Fin 0)))
                            (Number (js_or addQuantity (VNum (Fin 0))))) p))
| product_sold quantity :
    product_step p
      (json_product (set_stock (js_sub (p_stock p) quantity) p)).

(** The order list embeds a product in each of its items. *)
Definition all_joined (items : list (Order * option Product)) : Prop :=
  Forall (fun item => is_Some (snd item)) items.

(** *** Stock accounting *)

(** A stock adjustment, the one request that moves stock without an
    order. *)
Definition is_adjustment (req : Request) : bool :=
  match req with
  | POST_admin_stock _ => true
  | _ => false
  end.

(** An order counts against the product [id] once it has been approved:
    it names that product and carries an approval stamp (which a later
    rejection does not take away). *)
Definition counts_for (id : string) (o : Order) : bool :=
  strict_eq (o_productId o) (VStr id) &&
  match o_approvedAt o with
  | VUndefined => false
  | _ => true
  end.

(** The units of product [id] that approvals have taken from the stock. *)
Fixpoint approved_units (id : string) (os : list Order) : Z :=
  match os with
  | [] => 0
  | o :: os' =>
      (if counts_for id o then num_or_zero (ToNumber (o_quantity o)) else 0)
      + approved_units id os'
  end.

(** The writes of the requests other than stock adjustments. *)
Inductive order_write (db : DB) : DB -> Prop :=
| write_product env body :
    ~ missing (pb_name body) ->
    order_write db (writeDB (mkDB (products db ++ [new_product_body env body])
                                  (orders db)))
| write_order env body j product :
    complete body ->
    the_product db (b_productId body) j product ->
    ~ less_than (p_stock product) (b_quantity body) ->
    order_write db (writeDB (mkDB (products db)
                                  (orders db ++ [new_order env body])))
| write_approval env orderId i order j product w :
    the_order db orderId i order ->
    o_status order = VStr "PENDING" ->
    the_product db (o_productId order) j product ->
    js_lt (js_or (p_stock product) (VNum (Fin 0))) (o_quantity order) = false ->
    warranty_expiry (tza env) (Fin (clock env)) (p_warrantyMonths product)
      = Some w ->
    order_write db (approved_db env db i j order product w)
| write_rejection env orderId i order :
    the_order db orderId i order ->
    order_write db
      (writeDB
         (mkDB (products db)
               (<[i := set_rejectedAt (VStr (now_iso env))
                                      (set_status (VStr "REJECTED") order)]>
                  (orders db)))).

(** A request whose amounts the model reads as JavaScript does, and a run
    of such requests in which every document written keeps its stocks and
    quantities within the safe range, so that every sum and difference
    taken along the run is the exact one. *)
Definition exact_request (req : Request) : Prop :=
  match req with
  | POST_admin_product body => exact_product (form_body body)
  | POST_admin_product_json body => exact_product body
  | POST_admin_stock body => exact_number (s_addQuantity body)
  | POST_orders body => exact_number (b_quantity body)
  | _ => True
  end.

Fixpoint exact_run (db : DB) (reqs : list (Env * Request)) : Prop :=
  match reqs with
  | [] => True
  | (env, req) :: reqs' =>
      exact_request req /\
      safe_document (snd (handle env db req)) /\
      exact_run (snd (handle env db req)) reqs'
  end.

(** An order request. *)
Definition is_order_request (req : Request) : bool :=
  match req with
  | POST_orders _ => true
  | _ => false
  end.

(* ===================================================================== *)
(** ** The sample scenario, continued                                    *)
(* ===================================================================== *)

(** A form without a name. *)
Definition nameless_form : ProductForm :=
  mkProductForm None (Some "10") None None None None.

(** The widget form sent twice within the same millisecond, with the same
    random number: two products under one id. *)
Definition db_twin_products : DB := snd (add_product env0 db_widget widget_form).

(** Ann's order followed by an order made under the same id. *)
Definition db_twin_orders : DB :=
  snd (place_order env0 db_pending (ann_order (VNum (Fin 1)))).

(** An order whose quantity is the text "abc". *)
Definition letters_order : OrderBody := ann_order (VStr "abc").

(** The same identifier clock and random number as [env0], another time and
    zone. *)
Definition env1 : Env :=
  mkEnv 1706659200000 123456 1709251200000 (fixed_zone 3600000).

(** Requests served after the scenario. *)
Definition approve_then_reject : list (Env * Request) :=
  [(env1, POST_approve ann_id); (env1, POST_reject ann_id)].

(** Three more orders of Ann for 2 widgets each. *)
Definition three_orders : list (Env * Request) :=
  [(env0, POST_orders (ann_order (VNum (Fin 2))));
   (env1, POST_orders (ann_order (VNum (Fin 2))));
   (env1, POST_orders (ann_order (VNum (Fin 2))))].

(* ===================================================================== *)
(** * Properties                                                         *)
(* ===================================================================== *)

(** ** Values, lookups and the JSON round trip *)

Lemma strict_eq_VStr v s : strict_eq v (VStr s) = true <-> v = VStr s.
Proof.
  destruct v as [| |b|[|z]|t]; simpl; split; try discriminate; try congruence.
  - intros H. apply String.eqb_eq in H. congruence.
  - intros [= ->]. apply String.eqb_refl.
Qed.

Lemma strict_eq_true a b : strict_eq a b = true -> a = b /\ a <> VNum NaN.
Proof.
  destruct a as [| |x|[|x]|s], b as [| |y|[|y]|t]; simpl; try discriminate;
    intros H; split; try discriminate; try reflexivity.
  - apply Bool.eqb_prop in H. congruence.
  - apply Z.eqb_eq in H. congruence.
  - apply String.eqb_eq in H. congruence.
Qed.

Lemma json_value_idem v : json_value (json_value v) = json_value v.
Proof. destruct v as [| |b|[|z]|s]; reflexivity. Qed.

Lemma strict_eq_json_l a b :
  b <> VNull -> strict_eq (json_value a) b = strict_eq a b.
Proof.
  destruct a as [| |x|[|x]|s]; try reflexivity.
  simpl. destruct b as [| |y|[|y]|t]; congruence.
Qed.

(** *** [find] and the first element with a property *)

Section Find.
Context {A : Type} (pred : A -> bool).

Lemma find_Some l i x :
  find pred l = Some (i, x) <->
  l !! i = Some x /\ pred x = true /\
  forall j y, l !! j = Some y -> (j < i)%nat -> pred y <> true.
Proof. unfold find. by rewrite list_find_Some. Qed.

Lemma find_None l :
  find pred l = None <-> Forall (fun x => pred x <> true) l.
Proof. unfold find. by rewrite list_find_None. Qed.

Lemma find_insert_same l i x x' :
  find pred l = Some (i, x) -> pred x' = true ->
  find pred (<[i := x']> l) = Some (i, x').
Proof.
  intros Hf Hx'. apply find_Some in Hf as (Hi & Hx & Hleast).
  apply find_Some. split_and!.
  - apply list_lookup_insert_eq. eapply lookup_lt_Some; eauto.
  - done.
  - intros j y Hj Hlt. rewrite list_lookup_insert_ne in Hj by lia. eauto.
Qed.

Lemma find_map (f : A -> A) l :
  (forall x, pred (f x) = pred x) ->
  find pred (map f l) = prod_map id f <$> find pred l.
Proof.
  intros Hf. unfold find.
  rewrite (list_find_fmap f (fun x => pred x = true) l).
  f_equal. apply list_find_ext. intros x. simpl. by rewrite Hf.
Qed.

Lemma find_first_with l i x :
  find pred l = Some (i, x) <-> first_with pred l i x.
Proof.
  rewrite find_Some. unfold first_with.
  split; intros (? & ? & H); split_and!; try done; intros j y Hj Hlt.
  - specialize (H j y Hj Hlt). by destruct (pred y).
  - rewrite (H j y Hj Hlt). discriminate.
Qed.

Lemma find_exists l x :
  x ∈ l -> pred x = true -> exists i y, find pred l = Some (i, y).
Proof.
  intros Hin Hp.
  destruct (find pred l) as [[i y]|] eqn:E; [eauto|].
  apply find_None in E. rewrite Forall_forall in E. by destruct (E x Hin).
Qed.

End Find.

(** *** Documents read back from JSON *)

Lemma map_id_lookup {A} (f : A -> A) (l : list A) :
  map f l = l -> forall k x, l !! k = Some x -> f x = x.
Proof.
  intros H k x Hk.
  assert (Hm : map f l !! k = Some (f x)) by (by rewrite list_lookup_fmap, Hk).
  rewrite H, Hk in Hm. congruence.
Qed.

Lemma json_db_products db : json_db db -> map json_product (products db) = products db.
Proof. unfold json_db, writeDB. destruct db; simpl. congruence. Qed.

Lemma json_db_orders db : json_db db -> map json_order (orders db) = orders db.
Proof. unfold json_db, writeDB. destruct db; simpl. congruence. Qed.

Lemma json_product_idem p : json_product (json_product p) = json_product p.
Proof. destruct p; unfold json_product; simpl. by rewrite !json_value_idem. Qed.

Lemma json_order_idem o : json_order (json_order o) = json_order o.
Proof. destruct o; unfold json_order; simpl. by rewrite !json_value_idem. Qed.

Lemma writeDB_json db : json_db (writeDB db).
Proof.
  unfold json_db, writeDB. simpl. f_equal; rewrite map_map; apply map_ext.
  - apply json_product_idem.
  - apply json_order_idem.
Qed.

Lemma map_insert_fixed {A} (f : A -> A) (l : list A) i x :
  map f l = l -> map f (<[i := x]> l) = <[i := f x]> l.
Proof. intros H. change (map f) with (fmap (M:=list) f). rewrite list_fmap_insert. f_equal. exact H. Qed.

(** The route parameter is a string, so matching an order id is not
    affected by the JSON round trip. *)
Lemma order_id_json orderId o :
  strict_eq (o_id (json_order o)) (VStr orderId) = strict_eq (o_id o) (VStr orderId).
Proof. simpl. by apply strict_eq_json_l. Qed.

(* ------------------------------------------------------------------ *)
(** ** Rejection                                                        *)
(* ------------------------------------------------------------------ *)

Lemma order_exists_find db orderId :
  order_exists db orderId <->
  exists i order, the_order db orderId i order.
Proof.
  split.
  - intros (o & Hin & Hid).
    destruct (find_exists (fun o => strict_eq (o_id o) (VStr orderId)) (orders db) o)
      as (i & y & Hf); [done | by apply strict_eq_VStr |].
    exists i, y. by apply find_first_with.
  - intros (i & order & Hi & Hp & _).
    exists order. split; [by eapply list_elem_of_lookup_2 | by apply strict_eq_VStr].
Qed.

Lemma reject_found env db orderId i order :
  the_order db orderId i order ->
  reject env db orderId =
    (Reply OK (Json_message_order "Order rejected"
                 (set_rejectedAt (VStr (now_iso env))
                                 (set_status (VStr "REJECTED") order))),
     writeDB (mkDB (products db)
                   (<[i := set_rejectedAt (VStr (now_iso env))
                                          (set_status (VStr "REJECTED") order)]>
                      (orders db)))).
Proof. intros H. apply find_first_with in H. unfold reject. by rewrite H. Qed.

Lemma reject_absent env db orderId :
  ~ order_exists db orderId ->
  reject env db orderId = (Reply NotFound (Json_error "Order not found"), db).
Proof.
  intros H. unfold reject.
  destruct (find _ _) as [[i order]|] eqn:E; [|done].
  destruct H. apply order_exists_find. exists i, order. by apply find_first_with.
Qed.

Lemma the_order_id db orderId i order :
  the_order db orderId i order -> o_id order = VStr orderId.
Proof. intros (_ & H & _). by apply strict_eq_VStr. Qed.

Lemma the_order_lt db orderId i order :
  the_order db orderId i order -> (i < length (orders db))%nat.
Proof. intros (H & _). by eapply lookup_lt_Some. Qed.

Lemma writeDB_orders_lookup db i :
  orders (writeDB db) !! i = json_order <$> orders db !! i.
Proof. unfold writeDB. simpl. apply list_lookup_fmap. Qed.

Lemma writeDB_products_lookup db j :
  products (writeDB db) !! j = json_product <$> products db !! j.
Proof. unfold writeDB. simpl. apply list_lookup_fmap. Qed.

(** C4. Rejection has no status guard: for every existing order, whatever
    its status, the reject operation answers 200, sets the status of the
    designated order to REJECTED, stamps rejectedAt with the current time
    and writes the document (so that rejecting once more succeeds again);
    it answers NotFound exactly when no order has the id. *)
Theorem reject_any_status env db orderId :
  (order_exists db orderId ->
   exists i order order' stored,
     the_order db orderId i order /\
     reject env db orderId =
       (Reply OK (Json_message_order "Order rejected" order'),
        writeDB (mkDB (products db) (<[i := order']> (orders db)))) /\
     o_status order' = VStr "REJECTED" /\
     o_rejectedAt order' = VStr (now_iso env) /\
     orders (snd (reject env db orderId)) !! i = Some stored /\
     o_status stored = VStr "REJECTED" /\
     o_rejectedAt stored = VStr (now_iso env) /\
     order_exists (snd (reject env db orderId)) orderId)
  /\ (forall body,
        fst (reject env db orderId) = Reply NotFound body ->
        ~ order_exists db orderId)
  /\ (~ order_exists db orderId ->
      reject env db orderId = (Reply NotFound (Json_error "Order not found"), db)).
Proof.
  split_and!.
  - intros Hex. apply order_exists_find in Hex as (i & order & Hthe).
    pose proof (reject_found env db orderId i order Hthe) as Hrej.
    set (order' := set_rejectedAt _ _) in Hrej.
    assert (Hst : orders (snd (reject env db orderId)) !! i = Some (json_order order')).
    { rewrite Hrej. simpl. rewrite list_lookup_fmap, list_lookup_insert_eq; [done|].
      by eapply the_order_lt. }
    exists i, order, order', (json_order order'). split_and!; try done.
    exists (json_order order'). split; [by eapply list_elem_of_lookup_2|].
    simpl. by rewrite (the_order_id _ _ _ _ Hthe).
  - intros body Hnf Hex. apply order_exists_find in Hex as (i & order & Hthe).
    rewrite (reject_found env db orderId i order Hthe) in Hnf. discriminate.
  - apply reject_absent.
Qed.

(** C10. Frame of rejection: on a document read from data.json, rejecting
    the order an id designates leaves every product as it was (no stock is
    given back), leaves every other order as it was, and in the designated
    order changes nothing but status and rejectedAt: approvedAt and
    warrantyExpiry of an approved order stay. *)
Theorem reject_frame env db orderId i order :
  json_db db ->
  the_order db orderId i order ->
  products (snd (reject env db orderId)) = products db /\
  length (orders (snd (reject env db orderId))) = length (orders db) /\
  (forall k, k <> i ->
     orders (snd (reject env db orderId)) !! k = orders db !! k) /\
  exists order',
    orders (snd (reject env db orderId)) !! i = Some order' /\
    same_but_rejection order order'.
Proof.
  intros Hjson Hthe.
  rewrite (reject_found env db orderId i order Hthe). simpl.
  pose proof (json_db_orders db Hjson) as Ho.
  rewrite (map_insert_fixed _ _ _ _ Ho).
  split_and!.
  - by apply json_db_products.
  - by rewrite length_insert.
  - intros k Hk. by rewrite list_lookup_insert_ne.
  - eexists. split.
    + apply list_lookup_insert_eq. by eapply the_order_lt.
    + destruct Hthe as (Hi & _).
      pose proof (map_id_lookup _ _ Ho i order Hi) as Hfix.
      unfold same_but_rejection. simpl.
      destruct order; unfold json_order in Hfix; simpl in *.
      injection Hfix as H1 H2 H3 H4 H5 H6 H7 H8 H9 H10 H11.
      split_and!; congruence.
Qed.

(* ------------------------------------------------------------------ *)
(** ** Approval                                                         *)
(* ------------------------------------------------------------------ *)

Lemma not_pending v :
  negb (strict_eq v (VStr "PENDING")) = true <-> v <> VStr "PENDING".
Proof.
  rewrite negb_true_iff. split.
  - intros H E. apply strict_eq_VStr in E. congruence.
  - intros H. destruct (strict_eq v (VStr "PENDING")) eqn:E; [|done].
    apply strict_eq_VStr in E. congruence.
Qed.

Lemma approve_ok env db orderId i order j product w :
  the_order db orderId i order ->
  o_status order = VStr "PENDING" ->
  the_product db (o_productId order) j product ->
  js_lt (js_or (p_stock product) (VNum (Fin 0))) (o_quantity order) = false ->
  warranty_expiry (tza env) (Fin (clock env)) (p_warrantyMonths product) = Some w ->
  approve env db orderId =
    (Reply OK (Json_message_order "Order approved" (approved_order env w order)),
     approved_db env db i j order product w).
Proof.
  intros Ho Hst Hp Hlt Hw.
  apply find_first_with in Ho. apply find_first_with in Hp.
  unfold approve. rewrite Ho, Hst. simpl. rewrite Hp, Hlt. simpl.
  by rewrite Hw.
Qed.

Lemma approve_ok_inv env db orderId body db' :
  approve env db orderId = (Reply OK body, db') ->
  exists i order j product w,
    the_order db orderId i order /\
    o_status order = VStr "PENDING" /\
    the_product db (o_productId order) j product /\
    js_lt (js_or (p_stock product) (VNum (Fin 0))) (o_quantity order) = false /\
    warranty_expiry (tza env) (Fin (clock env)) (p_warrantyMonths product) = Some w /\
    body = Json_message_order "Order approved" (approved_order env w order) /\
    db' = approved_db env db i j order product w.
Proof.
  unfold approve.
  destruct (find _ (orders db)) as [[i order]|] eqn:Ho; [|discriminate].
  destruct (negb _) eqn:Hst; [discriminate|].
  destruct (find _ (products db)) as [[j product]|] eqn:Hp; [|discriminate].
  destruct (js_lt _ _) eqn:Hlt; [discriminate|].
  simpl. destruct (warranty_expiry _ _ _) as [w|] eqn:Hw; [|discriminate].
  intros [= <- <-].
  exists i, order, j, product, w. split_and!; try done.
  - by apply find_first_with.
  - apply negb_false_iff, strict_eq_VStr in Hst. done.
  - by apply find_first_with.
Qed.

Lemma approve_not_pending env db orderId i order :
  the_order db orderId i order ->
  o_status order <> VStr "PENDING" ->
  approve env db orderId = (Reply BadRequest (Json_error "Order not pending"), db).
Proof.
  intros Ho Hst. apply find_first_with in Ho. apply not_pending in Hst.
  unfold approve. by rewrite Ho, Hst.
Qed.

Lemma approve_insufficient env db orderId i order j product :
  the_order db orderId i order ->
  o_status order = VStr "PENDING" ->
  the_product db (o_productId order) j product ->
  js_lt (js_or (p_stock product) (VNum (Fin 0))) (o_quantity order) = true ->
  approve env db orderId = (Reply BadRequest (Json_error "Insufficient stock"), db).
Proof.
  intros Ho Hst Hp Hlt.
  apply find_first_with in Ho. apply find_first_with in Hp.
  unfold approve. rewrite Ho, Hst. simpl. by rewrite Hp, Hlt.
Qed.

Lemma the_product_lt db pid j product :
  the_product db pid j product -> (j < length (products db))%nat.
Proof. intros (H & _). by eapply lookup_lt_Some. Qed.

Lemma approved_db_order env db i j order product w :
  (i < length (orders db))%nat ->
  orders (approved_db env db i j order product w) !! i =
    Some (json_order (approved_order env w order)).
Proof.
  intros Hi. unfold approved_db. rewrite writeDB_orders_lookup. simpl.
  by rewrite list_lookup_insert_eq.
Qed.

Lemma approved_db_product env db i j order product w :
  (j < length (products db))%nat ->
  products (approved_db env db i j order product w) !! j =
    Some (json_product
            (set_stock (js_sub (p_stock product) (o_quantity order)) product)).
Proof.
  intros Hj. unfold approved_db. rewrite writeDB_products_lookup. simpl.
  by rewrite list_lookup_insert_eq.
Qed.

(** The stock test of approval on numeric fields. *)
Lemma stock_test_numeric stock quantity :
  json_number stock -> json_number quantity ->
  exists s q, ToNumber stock = Fin s /\ ToNumber quantity = Fin q /\
    js_lt (js_or stock (VNum (Fin 0))) quantity = (s <? q) /\
    js_sub stock quantity = VNum (Fin (s - q)).
Proof.
  intros [->|[s ->]] [->|[q ->]]; eexists _, _; split_and!; try reflexivity.
  - unfold js_or. simpl. by destruct (s =? 0) eqn:E; simpl; [apply Z.eqb_eq in E; subst|].
  - unfold js_or. simpl. by destruct (s =? 0) eqn:E; simpl; [apply Z.eqb_eq in E; subst|].
Qed.


Lemma find_order_after_approve env db orderId i j order product w :
  the_order db orderId i order ->
  the_order (approved_db env db i j order product w) orderId i
            (json_order (approved_order env w order)).
Proof.
  intros Ho. apply find_first_with. unfold approved_db, writeDB. simpl.
  rewrite (find_map _ json_order) by apply order_id_json. 
  apply find_first_with in Ho.
  erewrite find_insert_same; [done|exact Ho|].
  simpl. apply find_Some in Ho. tauto.
Qed.

(** C3. Approval needs a pending order: when the designated order's
    status is not PENDING the approve operation answers BadRequest and the
    document stays as it was; so approving an order that has just been
    approved fails. *)
Theorem approve_requires_pending env db orderId :
  (forall i order,
      the_order db orderId i order ->
      o_status order <> VStr "PENDING" ->
      approve env db orderId =
        (Reply BadRequest (Json_error "Order not pending"), db))
  /\
  (forall body db' env',
      approve env db orderId = (Reply OK body, db') ->
      approve env' db' orderId =
        (Reply BadRequest (Json_error "Order not pending"), db')).
Proof.
  split.
  - apply approve_not_pending.
  - intros body db' env' Hok.
    apply approve_ok_inv in Hok
      as (i & order & j & product & w & Ho & Hst & Hp & Hlt & Hw & -> & ->).
    eapply approve_not_pending.
    + by apply find_order_after_approve.
    + discriminate.
Qed.

(* ------------------------------------------------------------------ *)
(** ** Placing an order                                                 *)
(* ------------------------------------------------------------------ *)

Lemma not_missing v : ~ missing v <-> ToBoolean v = true.
Proof. unfold missing. destruct (ToBoolean v); split; congruence. Qed.


Lemma strict_eq_refl v : v <> VNum NaN -> strict_eq v v = true.
Proof.
  destruct v as [| |b|[|z]|s]; simpl; try done.
  - intros _. by destruct b.
  - intros _. apply Z.eqb_refl.
  - intros _. apply String.eqb_refl.
Qed.

Lemma strict_eq_truthy a b :
  ToBoolean b = true -> (strict_eq a b = true <-> a = b).
Proof.
  intros Hb. split.
  - intros H. by apply strict_eq_true in H as [-> _].
  - intros ->. apply strict_eq_refl. intros ->. discriminate.
Qed.

Lemma product_exists_find db productId :
  ToBoolean productId = true ->
  (product_exists db productId <->
   exists j product, the_product db productId j product).
Proof.
  intros Hb. split.
  - intros (p & Hin & Hid).
    destruct (find_exists (fun p => strict_eq (p_id p) productId) (products db) p)
      as (j & y & Hf); [done | by apply strict_eq_truthy |].
    exists j, y. by apply find_first_with.
  - intros (j & product & Hj & Hp & _).
    exists product. split; [by eapply list_elem_of_lookup_2 | by apply strict_eq_truthy].
Qed.

Lemma js_lt_Number a b : js_lt a (Number b) = num_lt (ToNumber a) (ToNumber b).
Proof. by destruct a. Qed.

Lemma num_lt_less_than a b :
  num_lt (ToNumber a) (ToNumber b) = true <-> less_than a b.
Proof.
  unfold less_than. split.
  - destruct (ToNumber a) as [|x], (ToNumber b) as [|y]; simpl; try discriminate.
    intros H. apply Z.ltb_lt in H. eauto.
  - intros (x & y & -> & -> & H). by apply Z.ltb_lt.
Qed.

Lemma place_order_missing env db body :
  ~ complete body ->
  place_order env db body = (Reply BadRequest (Json_error "Missing fields"), db).
Proof.
  unfold complete. rewrite !not_missing. intros H. unfold place_order.
  destruct (ToBoolean (b_name body)), (ToBoolean (b_phone body)),
    (ToBoolean (b_productId body)), (ToBoolean (b_quantity body)); simpl; try done.
  by destruct H.
Qed.

Lemma place_order_complete env db body :
  complete body ->
  place_order env db body =
    match find (fun p => strict_eq (p_id p) (b_productId body)) (products db) with
    | None => (Reply NotFound (Json_error "Product not found"), db)
    | Some (_, product) =>
        if num_lt (ToNumber (p_stock product)) (ToNumber (b_quantity body))
        then (Reply BadRequest (Json_error "Not enough stock"), db)
        else (Reply OK (Json_message_order "Order placed (pending admin approval)"
                          (new_order env body)),
              writeDB (mkDB (products db) (orders db ++ [new_order env body])))
    end.
Proof.
  unfold complete. rewrite !not_missing. intros (H1 & H2 & H3 & H4).
  unfold place_order. rewrite H1, H2, H3, H4. simpl.
  destruct (find _ _) as [[j product]|]; [|done].
  by rewrite js_lt_Number.
Qed.

Lemma place_order_creates env db body j product :
  complete body -> the_product db (b_productId body) j product ->
  ~ less_than (p_stock product) (b_quantity body) ->
  place_order env db body =
    (Reply OK (Json_message_order "Order placed (pending admin approval)"
                 (new_order env body)),
     writeDB (mkDB (products db) (orders db ++ [new_order env body]))).
Proof.
  intros Hc Hp Hge. rewrite place_order_complete by done.
  apply find_first_with in Hp. rewrite Hp.
  destruct (num_lt _ _) eqn:E; [by apply num_lt_less_than in E|done].
Qed.

(** C6. Creating an order: a request with a missing (absent or falsy)
    name, phone, productId or quantity is answered BadRequest; a complete
    request for a product that does not exist is answered NotFound; a
    complete request whose quantity exceeds the product's stock is answered
    BadRequest "Not enough stock"; in these three cases the document stays
    as it was.  Any other request creates a PENDING order, appended to the
    orders and written, and leaves the products, stock included, alone.
    The two cases that compare stock and quantity are stated for a stock
    and a quantity that are each an integer, or integer text, or a word,
    which is no number ([exact_number]): there the stock test of the model
    is the comparison JavaScript makes. *)
Theorem place_order_cases env db body :
  (~ complete body ->
   place_order env db body = (Reply BadRequest (Json_error "Missing fields"), db))
  /\
  (complete body -> ~ product_exists db (b_productId body) ->
   place_order env db body = (Reply NotFound (Json_error "Product not found"), db))
  /\
  (forall j product,
     complete body -> the_product db (b_productId body) j product ->
     exact_number (p_stock product) -> exact_number (b_quantity body) ->
     less_than (p_stock product) (b_quantity body) ->
     place_order env db body = (Reply BadRequest (Json_error "Not enough stock"), db))
  /\
  (forall j product,
     complete body -> the_product db (b_productId body) j product ->
     exact_number (p_stock product) -> exact_number (b_quantity body) ->
     ~ less_than (p_stock product) (b_quantity body) ->
     exists order,
       place_order env db body =
         (Reply OK (Json_message_order "Order placed (pending admin approval)" order),
          writeDB (mkDB (products db) (orders db ++ [order]))) /\
       o_status order = VStr "PENDING" /\
       o_quantity order = Number (b_quantity body) /\
       o_productId order = b_productId body /\
       (json_db db ->
        products (snd (place_order env db body)) = products db /\
        orders (snd (place_order env db body)) = orders db ++ [json_order order])).
Proof.
  split_and!.
  - apply place_order_missing.
  - intros Hc Hno. rewrite place_order_complete by done.
    destruct (find _ _) as [[j product]|] eqn:E; [|done].
    destruct Hno. apply product_exists_find; [by apply not_missing, Hc|].
    exists j, product. by apply find_first_with.
  - intros j product Hc Hp _ _ Hlt. rewrite place_order_complete by done.
    apply find_first_with in Hp. rewrite Hp.
    apply num_lt_less_than in Hlt. by rewrite Hlt.
  - intros j product Hc Hp _ _ Hge.
    rewrite (place_order_creates env db body j product) by done.
    exists (new_order env body). split_and!; try done.
    intros Hjson. simpl. split.
    + by apply json_db_products.
    + change (map json_order) with (fmap (M:=list) json_order).
      rewrite fmap_app. f_equal. by apply json_db_orders.
Qed.

(* ------------------------------------------------------------------ *)
(** ** Negative quantities                                              *)
(* ------------------------------------------------------------------ *)

Lemma negative_truthy v q : ToNumber v = Fin q -> q < 0 -> ToBoolean v = true.
Proof.
  destruct v as [| |b|[|z]|s]; simpl; try discriminate.
  - intros [= <-]; lia.
  - destruct b; intros [= <-]; lia.
  - intros [= ->] H. apply negb_true_iff, Z.eqb_neq. lia.
  - destruct s as [|c s]; [|done]. intros [= <-]. lia.
Qed.


(* ------------------------------------------------------------------ *)
(** ** Stock never below zero: where it holds and where it does not     *)
(* ------------------------------------------------------------------ *)

Lemma stock_inv_mem_of db : stock_inv db -> stock_inv_mem db.
Proof.
  intros [Hs Hq]. split; [done|].
  eapply Forall_impl; [exact Hq|]. intros o [->|[z ->]]; eauto.
Qed.

Lemma stock_inv_writeDB db : stock_inv_mem db -> stock_inv (writeDB db).
Proof.
  intros [Hs Hq]. split.
  - unfold stock_nonneg, writeDB. simpl. apply Forall_fmap.
    eapply Forall_impl; [exact Hs|]. intros p (z & E & Hz). simpl.
    exists z. by rewrite E.
  - unfold quantities_numeric, writeDB. simpl. apply Forall_fmap.
    eapply Forall_impl; [exact Hq|]. intros o [E|[[|z] E]]; simpl; rewrite E; simpl.
    + by left.
    + by left.
    + right. eauto.
Qed.

(** A multipart form is handled as the body of its text fields. *)
Lemma add_product_form env db form :
  add_product env db form = add_product_body env db (form_body form).
Proof. reflexivity. Qed.

Lemma add_product_body_keeps_stock env db body :
  stock_inv db -> keeps_stock db (POST_admin_product_json body) ->
  stock_inv (snd (add_product_body env db body)).
Proof.
  intros Hinv [_ Hguard]. unfold add_product_body.
  destruct (negb _); [done|]. cbn [snd].
  apply stock_inv_writeDB. destruct (stock_inv_mem_of _ Hinv) as [Hs Hq].
  split; [|done]. unfold stock_nonneg. cbn [products].
  apply Forall_app. split; [done|]. apply Forall_singleton.
  cbn [p_stock]. unfold Number, js_or.
  destruct (ToNumber _) as [|z] eqn:E.
  - exists 0. by simpl.
  - simpl. destruct (z =? 0) eqn:Ez; simpl.
    + exists 0. done.
    + exists z. split; [done|].
      destruct (Z.lt_ge_cases z 0) as [Hlt|]; [|lia].
      destruct Hguard. exists z, 0. done.
Qed.

Lemma add_product_keeps_stock env db body :
  stock_inv db -> keeps_stock db (POST_admin_product body) ->
  stock_inv (snd (add_product env db body)).
Proof.
  intros Hinv Hguard. rewrite add_product_form.
  by apply add_product_body_keeps_stock.
Qed.

Lemma update_stock_sets db body j p s a :
  the_product db (s_productId body) j p ->
  p_stock p = VNum (Fin s) ->
  ToNumber (js_or (s_addQuantity body) (VNum (Fin 0))) = Fin a ->
  update_stock db body =
    (Reply OK (Json_message_product "Stock updated" (set_stock (VNum (Fin (s + a))) p)),
     writeDB (mkDB (<[j := set_stock (VNum (Fin (s + a))) p]> (products db))
                   (orders db))).
Proof.
  intros Hp Hs Ha. apply find_first_with in Hp.
  unfold update_stock. rewrite Hp.
  assert (E : js_add (js_or (p_stock p) (VNum (Fin 0)))
                     (Number (js_or (s_addQuantity body) (VNum (Fin 0))))
              = VNum (Fin (s + a))).
  { unfold Number. rewrite Ha, Hs. unfold js_or. simpl.
    destruct (s =? 0) eqn:Ez; simpl; [|done].
    apply Z.eqb_eq in Ez. by subst. }
  by rewrite E.
Qed.

Lemma update_stock_keeps_stock db body :
  stock_inv db -> keeps_stock db (POST_admin_stock body) ->
  stock_inv (snd (update_stock db body)).
Proof.
  intros Hinv Hguard.
  destruct (find (fun x => strict_eq (p_id x) (s_productId body)) (products db))
    as [[j p]|] eqn:Hf.
  - apply find_first_with in Hf.
    destruct Hinv as [Hs Hq].
    assert (Hp : exists z, p_stock p = VNum (Fin z) /\ 0 <= z).
    { destruct Hf as (Hj & _).
      by apply (proj1 (Forall_lookup _ _) Hs j p). }
    destruct Hp as (s & Es & Hs0).
    destruct (proj2 Hguard j p s Hf Es) as (a & Ea & Hsa).
    rewrite (update_stock_sets db body j p s a) by done. cbn [snd].
    apply stock_inv_writeDB. split.
    + unfold stock_nonneg. cbn [products]. apply Forall_insert; [done|].
      exists (s + a). done.
    + cbn [orders]. by apply (stock_inv_mem_of db).
  - unfold update_stock. by rewrite Hf.
Qed.

Lemma place_order_keeps_stock env db body :
  stock_inv db -> stock_inv (snd (place_order env db body)).
Proof.
  intros Hinv. unfold place_order.
  destruct (_ || _); [done|].
  destruct (find _ _) as [[j product]|]; [|done].
  destruct (js_lt _ _); [done|]. cbn [snd].
  apply stock_inv_writeDB. destruct (stock_inv_mem_of _ Hinv) as [Hs Hq].
  split; [done|]. cbn [orders].
  apply Forall_app. split; [done|]. apply Forall_singleton.
  right. unfold Number. simpl. eauto.
Qed.

Lemma approve_keeps_stock env db orderId :
  stock_inv db -> stock_inv (snd (approve env db orderId)).
Proof.
  intros Hinv.
  destruct (approve env db orderId) as [out db'] eqn:E.
  assert (Hcases : db' = db \/ exists body, out = Reply OK body).
  { revert E. unfold approve.
    repeat (case_match; try (intros [= <- <-]; by left)).
    intros [= <- <-]. right. eauto. }
  destruct Hcases as [->|[body ->]]; [done|]. cbn [snd].
  apply approve_ok_inv in E
    as (i & order & j & product & w & Ho & Hst & Hp & Hlt & Hw & -> & ->).
  destruct Hinv as [Hs Hq]. unfold approved_db.
  apply stock_inv_writeDB. split.
  - unfold stock_nonneg. cbn [products]. apply Forall_insert; [done|].
    destruct Ho as (Hi & _). destruct Hp as (Hj & _).
    pose proof (proj1 (Forall_lookup _ _) Hs j product Hj) as (s & Es & Hs0).
    pose proof (proj1 (Forall_lookup _ _) Hq i order Hi) as Hqo.
    destruct (stock_test_numeric (p_stock product) (o_quantity order))
      as (s' & q' & Es' & Eq' & Etest & Esub); [right; eauto | done |].
    cbn [p_stock set_stock]. rewrite Esub. exists (s' - q'). split; [done|].
    rewrite Etest in Hlt. apply Z.ltb_ge in Hlt. lia.
  - cbn [orders]. apply Forall_insert.
    + by apply (stock_inv_mem_of db).
    + destruct Ho as (Hi & _).
      pose proof (proj1 (Forall_lookup _ _) Hq i order Hi) as [E|[z E]];
        simpl; rewrite E; eauto.
Qed.

Lemma reject_keeps_stock env db orderId :
  stock_inv db -> stock_inv (snd (reject env db orderId)).
Proof.
  intros Hinv. unfold reject.
  destruct (find _ _) as [[i order]|] eqn:Hf; [|done]. cbn [snd].
  apply find_first_with in Hf. destruct Hf as (Hi & _).
  destruct Hinv as [Hs Hq].
  apply stock_inv_writeDB. split; [done|]. cbn [orders].
  apply Forall_insert.
  - by apply (stock_inv_mem_of db).
  - pose proof (proj1 (Forall_lookup _ _) Hq i order Hi) as [E|[z E]];
      simpl; rewrite E; eauto.
Qed.

Lemma handle_keeps_stock env db req :
  stock_inv db -> keeps_stock db req -> stock_inv (snd (handle env db req)).
Proof.
  intros Hinv Hguard. destruct req; simpl; try done.
  - by apply add_product_keeps_stock.
  - by apply add_product_body_keeps_stock.
  - by apply update_stock_keeps_stock.
  - by apply place_order_keeps_stock.
  - by apply approve_keeps_stock.
  - by apply reject_keeps_stock.
Qed.

Lemma run_keeps_stock reqs : forall db,
  stock_inv db -> keeps_stock_run db reqs -> stock_inv (run db reqs).
Proof.
  induction reqs as [|[env req] reqs IH]; intros db Hinv Hrun; simpl; [done|].
  destruct Hrun as (Hreq & _ & Hrest). apply IH; [|done].
  by apply handle_keeps_stock.
Qed.

Lemma run_reachable reqs : forall db, reachable db -> reachable (run db reqs).
Proof.
  induction reqs as [|[env req] reqs IH]; intros db Hr; simpl; [done|].
  apply IH. by constructor.
Qed.


Lemma db_overdrawn_value :
  db_overdrawn =
  mkDB [mkProduct (VStr widget_id) (VStr "Widget") (VNum (Fin 10))
                  (VNum (Fin 3)) (VStr "General") (VNum (Fin (-3))) VNull
                  (VStr (now_iso env0))]
       [].
Proof. vm_compute. reflexivity. Qed.

Lemma db_widget_value :
  db_widget =
  mkDB [mkProduct (VStr widget_id) (VStr "Widget") (VNum (Fin 10))
                  (VNum (Fin 3)) (VStr "General") (VNum (Fin 5)) VNull
                  (VStr (now_iso env0))]
       [].
Proof. vm_compute. reflexivity. Qed.


(* ------------------------------------------------------------------ *)
(** ** Substring search                                                 *)
(* ------------------------------------------------------------------ *)

Lemma append_cons c a b : String c a +:+ b = String c (a +:+ b).
Proof. reflexivity. Qed.

Lemma append_nil b : "" +:+ b = b.
Proof. reflexivity. Qed.

Lemma prefix_app p : forall s,
  String.prefix p s = true <-> exists post, s = p +:+ post.
Proof.
  induction p as [|a p IH]; intros s.
  - split; [intros _; by exists s|]. intros _. by destruct s.
  - destruct s as [|b s]; simpl.
    + split; [discriminate|]. intros [post H]. rewrite append_cons in H. discriminate.
    + destruct (ascii_dec a b) as [->|Hne].
      * rewrite IH. split; intros [post H]; exists post;
          rewrite append_cons in *; congruence.
      * split; [discriminate|]. intros [post H]. rewrite append_cons in H. congruence.
Qed.

Lemma includes_nil sub : includes "" sub = String.prefix sub "".
Proof. cbn [includes]. apply orb_false_r. Qed.

Lemma includes_cons c s sub :
  includes (String c s) sub = String.prefix sub (String c s) || includes s sub.
Proof. reflexivity. Qed.

Lemma includes_app s : forall sub,
  includes s sub = true <-> exists pre post, s = pre +:+ sub +:+ post.
Proof.
  induction s as [|c s IH]; intros sub.
  - rewrite includes_nil, prefix_app. split.
    + intros [post H]. by exists "", post.
    + intros (pre & post & H). destruct pre; [by exists post|].
      rewrite append_cons in H. discriminate.
  - rewrite includes_cons, orb_true_iff, prefix_app, IH. split.
    + intros [[post H]|(pre & post & H)].
      * by exists "", post.
      * exists (String c pre), post. rewrite append_cons. by rewrite H.
    + intros (pre & post & H). destruct pre as [|c' pre].
      * left. by exists post.
      * right. exists pre, post. rewrite append_cons in H. congruence.
Qed.

(** *** Letter case: [toLowerCase] against the letters themselves *)

Lemma code_inj a b : code a = code b -> a = b.
Proof.
  unfold code. intros H. apply Nat2Z.inj in H.
  rewrite <- (ascii_nat_embedding a), <- (ascii_nat_embedding b). by rewrite H.
Qed.

Lemma code_range c : 0 <= code c < 256.
Proof. unfold code. pose proof (nat_ascii_bounded c). lia. Qed.

Lemma code_lower_char c :
  code (lower_char c) =
  if (65 <=? code c) && (code c <=? 90) then code c + 32 else code c.
Proof.
  unfold lower_char. destruct ((65 <=? code c) && (code c <=? 90)) eqn:E; [|done].
  apply andb_prop in E as [E1 E2]. apply Z.leb_le in E1, E2.
  unfold code at 1. rewrite nat_ascii_embedding by lia. lia.
Qed.

(** Two characters fold to the same one exactly when they are the same
    letter. *)
Lemma lower_char_same a b : lower_char a = lower_char b <-> same_letter a b.
Proof.
  split.
  - intros H. apply (f_equal code) in H. rewrite !code_lower_char in H.
    unfold same_letter.
    destruct (Z.leb_spec 65 (code a)), (Z.leb_spec (code a) 90),
             (Z.leb_spec 65 (code b)), (Z.leb_spec (code b) 90);
      simpl in H;
      first [ left; apply code_inj; lia
            | right; exists (code a - 65); lia
            | right; exists (code b - 65); lia ].
  - intros [->|(k & Hk & [[Ha Hb]|[Ha Hb]])]; [done| |];
      apply code_inj; rewrite !code_lower_char, Ha, Hb;
      repeat match goal with
             | |- context [?x <=? ?y] => destruct (Z.leb_spec x y)
             end; simpl; lia.
Qed.

Lemma equal_ci_lower s : forall t,
  equal_ci s t <-> toLowerCase s = toLowerCase t.
Proof.
  unfold equal_ci, chars.
  induction s as [|a s IH]; intros [|b t]; simpl.
  - split; [done|constructor].
  - split; [by inversion 1|discriminate].
  - split; [by inversion 1|discriminate].
  - split.
    + inversion 1 as [|? ? ? ? Hab Hst]; subst.
      apply lower_char_same in Hab. apply IH in Hst. congruence.
    + intros [= Hab Hst]. constructor; [by apply lower_char_same|by apply IH].
Qed.

Lemma toLowerCase_app s1 s2 :
  toLowerCase (s1 +:+ s2) = toLowerCase s1 +:+ toLowerCase s2.
Proof.
  induction s1 as [|c s1 IH]; [done|].
  rewrite append_cons. simpl. by rewrite append_cons, IH.
Qed.

(** A folded text splits where its folding does. *)
Lemma toLowerCase_split a : forall s b,
  toLowerCase s = a +:+ b ->
  exists s1 s2, s = s1 +:+ s2 /\ toLowerCase s1 = a /\ toLowerCase s2 = b.
Proof.
  induction a as [|c a IH]; intros s b H.
  - exists "", s. by rewrite append_nil in H.
  - destruct s as [|d s]; [rewrite append_cons in H; discriminate|].
    simpl in H. rewrite append_cons in H. injection H as Hc H.
    destruct (IH s b H) as (s1 & s2 & -> & <- & <-).
    exists (String d s1), s2. rewrite append_cons. simpl. by rewrite Hc.
Qed.

(** Containment up to letter case is containment of the folded texts. *)
Lemma contains_ci_lower s q :
  contains_ci s q <->
  exists pre post, toLowerCase s = pre +:+ toLowerCase q +:+ post.
Proof.
  unfold contains_ci. split.
  - intros (pre & part & post & -> & Heq). apply equal_ci_lower in Heq.
    exists (toLowerCase pre), (toLowerCase post).
    by rewrite !toLowerCase_app, Heq.
  - intros (pre & post & H).
    apply toLowerCase_split in H as (s1 & s23 & -> & <- & H).
    apply toLowerCase_split in H as (s2 & s3 & -> & Hq & <-).
    exists s1, s2, s3. split; [done|]. by apply equal_ci_lower.
Qed.

Lemma contains_ci_includes s q :
  contains_ci s q <-> includes (toLowerCase s) (toLowerCase q) = true.
Proof. rewrite contains_ci_lower. by rewrite includes_app. Qed.

Lemma toLowerCase_empty s : toLowerCase s = "" <-> s = "".
Proof. by destruct s. Qed.

Lemma contains_ci_empty q : q <> "" -> ~ contains_ci "" q.
Proof.
  intros Hq Hc. apply contains_ci_lower in Hc as (pre & post & H). simpl in H.
  destruct pre; [|rewrite append_cons in H; discriminate].
  rewrite append_nil in H.
  destruct (toLowerCase q) eqn:E; [|rewrite append_cons in H; discriminate].
  apply Hq. by apply toLowerCase_empty.
Qed.

(* ------------------------------------------------------------------ *)
(** ** Filtering                                                        *)
(* ------------------------------------------------------------------ *)

Lemma filter_js_exactly {A} (pred : A -> option value) (P : A -> Prop) l :
  Forall (fun x => exists v, pred x = Some v /\ (ToBoolean v = true <-> P x)) l ->
  exists r, filter_js pred l = Some r /\ exactly_those P l r.
Proof.
  induction 1 as [|x l (v & Hv & HP) _ (r & Hr & Hex)]; simpl.
  - exists []. split; [done|constructor].
  - rewrite Hv, Hr. destruct (ToBoolean v) eqn:Hb.
    + exists (x :: r). split; [done|]. constructor; [by apply HP|done].
    + exists r. split; [done|]. constructor; [|done].
      intros HPx. apply HP in HPx. congruence.
Qed.

Section ExactlyThose.
Context {A : Type} (P : A -> Prop).

Lemma exactly_those_sublist l r :
  exactly_those P l r -> r `sublist_of` l.
Proof. induction 1; by constructor. Qed.

Lemma exactly_those_elem_of l r :
  exactly_those P l r -> forall x, x ∈ r <-> x ∈ l /\ P x.
Proof.
  induction 1 as [|x l r HP _ IH|x l r HP _ IH]; intros y.
  - split; [by intros ?%elem_of_nil | by intros [?%elem_of_nil _]].
  - rewrite !elem_of_cons, IH. split; [|tauto].
    intros [->|[? ?]]; auto.
  - rewrite elem_of_cons, IH. split; [tauto|].
    intros [[->|?] ?]; [contradiction|done].
Qed.

Lemma exactly_those_all l :
  (forall x, P x) -> exactly_those P l l.
Proof. intros H. induction l; constructor; auto. Qed.

Lemma exactly_those_iff (Q : A -> Prop) l r :
  (forall x, P x <-> Q x) -> exactly_those P l r -> exactly_those Q l r.
Proof.
  intros H. induction 1; constructor; try done.
  - by apply H.
  - by rewrite <- H.
Qed.

Lemma exactly_those_then (Q : A -> Prop) l r r' :
  exactly_those P l r -> exactly_those Q r r' ->
  exactly_those (fun x => P x /\ Q x) l r'.
Proof.
  intros H. revert r'. induction H as [|x l r HP _ IH|x l r HP _ IH]; intros r' H'.
  - inversion H'; subst. constructor.
  - inversion H'; subst.
    + constructor; [done|]. by apply IH.
    + apply exactly_skip; [tauto|]. by apply IH.
  - apply exactly_skip; [tauto|]. by apply IH.
Qed.

Lemma exactly_those_Forall (T : A -> Prop) l r :
  exactly_those P l r -> Forall T l -> Forall T r.
Proof.
  induction 1; intros HT; try done.
  - apply Forall_cons in HT as [? ?]. constructor; auto.
  - apply Forall_cons in HT as [? ?]. auto.
Qed.

End ExactlyThose.

(* ------------------------------------------------------------------ *)
(** ** The predicates of the filters on typed documents                 *)
(* ------------------------------------------------------------------ *)

Lemma optional_text v :
  string_or_falsy v ->
  call_toLowerCase (js_or v (VStr "")) = Some (toLowerCase (text_of v)).
Proof.
  intros [[s ->]|Hf].
  - unfold js_or. simpl. destruct s; reflexivity.
  - unfold js_or. rewrite Hf. simpl.
    destruct v as [| |b|n|s]; try reflexivity.
    simpl in Hf. destruct s; [reflexivity|discriminate].
Qed.

Lemma product_matches_hit q p :
  is_string (p_name p) -> string_or_falsy (p_category p) ->
  exists v, product_matches (toLowerCase q) p = Some v /\
            (ToBoolean v = true <-> product_hit q p).
Proof.
  intros [n Hn] Hc. unfold product_matches, product_hit, lower_includes.
  rewrite Hn, (optional_text _ Hc). cbn [call_toLowerCase text_of or_else].
  destruct (includes (toLowerCase n) (toLowerCase q)) eqn:E1;
    cbn [ToBoolean]; eexists; (split; [reflexivity|]);
    rewrite !contains_ci_includes, E1; cbn [ToBoolean].
  - tauto.
  - split; [tauto|]. by intros [?|?].
Qed.

Lemma optional_includes v q :
  q <> "" -> string_or_falsy v ->
  exists x, and_then (Some v) (lower_includes v (toLowerCase q)) = Some x /\
            (ToBoolean x = true <-> contains_ci (text_of v) q).
Proof.
  intros Hq Hv. unfold and_then.
  destruct (ToBoolean v) eqn:Hb.
  - destruct Hv as [[s ->]|Hf]; [|congruence].
    unfold lower_includes. simpl. eexists. split; [reflexivity|].
    simpl. by rewrite contains_ci_includes.
  - exists v. split; [done|]. rewrite Hb. split; [discriminate|].
    intros Hc. exfalso.
    assert (text_of v = "") as E.
    { destruct v as [| |b|n|s]; try reflexivity.
      simpl in Hb. destruct s; [reflexivity|discriminate]. }
    rewrite E in Hc. by apply contains_ci_empty in Hc.
Qed.

Lemma order_matches_hit q o :
  q <> "" ->
  string_or_falsy (o_name o) -> string_or_falsy (o_serialNumber o) ->
  exists v, order_matches (toLowerCase q) o = Some v /\
            (ToBoolean v = true <-> order_hit q o).
Proof.
  intros Hq Hn Hs. unfold order_matches, order_hit.
  destruct (optional_includes _ q Hq Hn) as (x & -> & Hx).
  destruct (optional_includes _ q Hq Hs) as (y & Ey & Hy).
  unfold or_else. destruct (ToBoolean x) eqn:Hb.
  - exists x. split; [done|]. rewrite Hb. split; [|done]. intros _. left. by apply Hx.
  - rewrite Ey. exists y. split; [done|]. rewrite Hy. split; [tauto|].
    intros [H|H]; [|done]. apply Hx in H. congruence.
Qed.

Lemma category_is_equal c p :
  string_or_falsy (p_category p) ->
  exists v, category_is c p = Some v /\
            (ToBoolean v = true <-> equal_ci (text_of (p_category p)) c).
Proof.
  intros Hc. unfold category_is. rewrite (optional_text _ Hc).
  eexists. split; [reflexivity|]. rewrite equal_ci_lower. simpl.
  apply String.eqb_eq.
Qed.

Lemma truthy_string s : ToBoolean (VStr s) = true <-> s <> "".
Proof.
  simpl. rewrite negb_true_iff. split.
  - intros H ->. discriminate.
  - intros H. destruct s; [done|reflexivity].
Qed.

(** *** What the predicates answer when they do not throw *)

Lemma lower_includes_Some v qq x :
  lower_includes v qq = Some x ->
  exists s, v = VStr s /\ x = VBool (includes (toLowerCase s) qq).
Proof.
  unfold lower_includes. destruct v as [| |b|n|s]; simpl; try discriminate.
  intros [= <-]. eauto.
Qed.

Lemma falsy_text v : ToBoolean v = false -> text_of v = "".
Proof.
  destruct v as [| |b|n|s]; try reflexivity.
  simpl. destruct s; [reflexivity|discriminate].
Qed.

Lemma js_or_empty_text v s : js_or v (VStr "") = VStr s -> s = text_of v.
Proof.
  unfold js_or. destruct (ToBoolean v) eqn:Hb.
  - intros ->. reflexivity.
  - intros [= <-]. symmetry. by apply falsy_text.
Qed.

Lemma product_matches_sound q p v :
  product_matches (toLowerCase q) p = Some v ->
  (ToBoolean v = true <-> product_hit q p).
Proof.
  unfold product_matches, or_else, product_hit.
  destruct (lower_includes (p_name p) _) as [x|] eqn:E1; [|discriminate].
  apply lower_includes_Some in E1 as (n & Hn & ->). rewrite Hn.
  cbn [ToBoolean text_of]. rewrite !contains_ci_includes.
  destruct (includes (toLowerCase n) (toLowerCase q)) eqn:Ei.
  - intros [= <-]. simpl. tauto.
  - intros E2. apply lower_includes_Some in E2 as (c & Hc & ->).
    apply js_or_empty_text in Hc. subst c. simpl. split; [tauto|].
    by intros [?|?].
Qed.

Lemma optional_includes_sound v q x :
  q <> "" ->
  and_then (Some v) (lower_includes v (toLowerCase q)) = Some x ->
  (ToBoolean x = true <-> contains_ci (text_of v) q).
Proof.
  intros Hq. unfold and_then. destruct (ToBoolean v) eqn:Hb.
  - intros E. apply lower_includes_Some in E as (s & -> & ->).
    simpl. by rewrite contains_ci_includes.
  - intros [= <-]. rewrite Hb, (falsy_text _ Hb). split; [discriminate|].
    intros Hc. by apply contains_ci_empty in Hc.
Qed.

Lemma order_matches_sound q o v :
  q <> "" ->
  order_matches (toLowerCase q) o = Some v ->
  (ToBoolean v = true <-> order_hit q o).
Proof.
  intros Hq. unfold order_matches, or_else, order_hit.
  destruct (and_then (Some (o_name o)) _) as [x|] eqn:E1; [|discriminate].
  pose proof (optional_includes_sound _ q x Hq E1) as Hx.
  destruct (ToBoolean x) eqn:Hb.
  - intros [= <-]. rewrite Hb. split; [|done]. intros _. left. by apply Hx.
  - intros E2. pose proof (optional_includes_sound _ q v Hq E2) as Hv.
    rewrite Hv. split; [tauto|]. intros [H|H]; [|done].
    apply Hx in H. congruence.
Qed.

Lemma category_is_sound c p v :
  category_is c p = Some v ->
  (ToBoolean v = true <-> equal_ci (text_of (p_category p)) c).
Proof.
  unfold category_is. rewrite equal_ci_lower.
  destruct (js_or (p_category p) (VStr "")) as [| |b|n|s] eqn:E; simpl;
    try discriminate.
  intros [= <-]. apply js_or_empty_text in E. subst s. simpl.
  apply String.eqb_eq.
Qed.

Lemma filter_js_sound {A} (pred : A -> option value) (P : A -> Prop) l :
  (forall x v, pred x = Some v -> (ToBoolean v = true <-> P x)) ->
  forall r, filter_js pred l = Some r -> exactly_those P l r.
Proof.
  intros Hsound. induction l as [|x l IH]; intros r; simpl.
  - intros [= <-]. constructor.
  - destruct (pred x) as [v|] eqn:Hv; [|discriminate].
    destruct (filter_js pred l) as [r0|]; [|discriminate].
    specialize (IH r0 eq_refl). pose proof (Hsound x v Hv) as HP.
    destruct (ToBoolean v); intros [= <-].
    + constructor; [by apply HP|done].
    + apply exactly_skip; [|done]. intros HPx. apply HP in HPx. discriminate.
Qed.

(** A field that is there but is not a string makes the filter throw. *)
Lemma filter_js_throws {A} (pred : A -> option value) l x :
  x ∈ l -> pred x = None -> filter_js pred l = None.
Proof.
  intros Hin Hx. induction l as [|y l IH]; [by apply elem_of_nil in Hin|].
  apply elem_of_cons in Hin as [<-|Hin]; simpl.
  - by rewrite Hx.
  - rewrite (IH Hin). by destruct (pred y).
Qed.

(** The filters call [toLowerCase] on the name of every product and on
    every customer name that is there, and on every category that is there
    when the category filter is in force: on a value that is not a string
    the call throws. *)
Lemma product_matches_throws qq p :
  ~ is_string (p_name p) -> product_matches qq p = None.
Proof.
  intros Hn. unfold product_matches.
  destruct (lower_includes (p_name p) qq) as [x|] eqn:E; [|done].
  apply lower_includes_Some in E as (n & Hname & _). destruct Hn. by exists n.
Qed.

Lemma order_matches_throws qq o :
  ToBoolean (o_name o) = true -> ~ is_string (o_name o) ->
  order_matches qq o = None.
Proof.
  intros Ht Hn. unfold order_matches, and_then. rewrite Ht.
  destruct (lower_includes (o_name o) qq) as [x|] eqn:E; [|done].
  apply lower_includes_Some in E as (n & Hname & _). destruct Hn. by exists n.
Qed.

Lemma category_is_throws c p :
  ToBoolean (p_category p) = true -> ~ is_string (p_category p) ->
  category_is c p = None.
Proof.
  intros Ht Hn. unfold category_is, js_or. rewrite Ht.
  destruct (p_category p) as [| |b|n|s]; try done. destruct Hn. by exists s.
Qed.

(** C7, as the code has it.  Without [q], or with an empty [q], the
    answer is the empty array, not an object.  With any other [q] the
    handler answers on every document whose product names are strings and
    whose categories, customer names and serial numbers are strings or
    falsy, and it ends in an exception, without a result, on every document
    that holds a product whose name is not a string or an order whose
    customer name is there and is not a string.  Whenever it answers, the
    text being within ASCII, the answer is the object [{products, orders}]
    where [products] lists, in document order, exactly the products whose
    name or category contains [q] ignoring case, and [orders] exactly the
    orders whose customer name or serial number does. *)
Theorem search_results db q :
  ((q = None \/ q = Some "") ->
   search db q = Reply OK Json_empty_array /\
   forall ps os, search db q <> Reply OK (Json_search ps os))
  /\
  (forall s,
     q = Some s -> s <> "" ->
     (products_typed db -> orders_typed db ->
      exists ps os, search db q = Reply OK (Json_search ps os)) /\
     (forall status body,
        search db q = Reply status body ->
        ascii_text s -> ascii_fields db ->
        exists ps os,
          status = OK /\ body = Json_search ps os /\
          exactly_those (product_hit s) (products db) ps /\
          exactly_those (order_hit s) (orders db) os /\
          ps `sublist_of` products db /\
          os `sublist_of` orders db) /\
     ((exists p, p ∈ products db /\ ~ is_string (p_name p)) \/
      (exists o, o ∈ orders db /\ ToBoolean (o_name o) = true /\
                 ~ is_string (o_name o)) ->
      search db q = Threw)).
Proof.
  split.
  - intros [->| ->]; simpl; split; try done.
  - intros s -> Hs. unfold search. rewrite (proj2 (truthy_string s) Hs).
    split; [|split].
    + intros Hp Ho.
      destruct (filter_js_exactly (product_matches (toLowerCase s)) (product_hit s)
                  (products db)) as (ps & -> & Hps).
      { eapply Forall_impl; [exact Hp|]. intros p [? ?]. by apply product_matches_hit. }
      destruct (filter_js_exactly (order_matches (toLowerCase s)) (order_hit s)
                  (orders db)) as (os & -> & Hos).
      { eapply Forall_impl; [exact Ho|]. intros o [? ?]. by apply order_matches_hit. }
      eauto.
    + intros status body.
      destruct (filter_js (product_matches _) _) as [ps|] eqn:Eps; [|discriminate].
      destruct (filter_js (order_matches _) _) as [os|] eqn:Eos; [|discriminate].
      intros [= <- <-] _ _. exists ps, os.
      assert (Hps : exactly_those (product_hit s) (products db) ps).
      { eapply filter_js_sound; [|exact Eps]. intros p v. apply product_matches_sound. }
      assert (Hos : exactly_those (order_hit s) (orders db) os).
      { eapply filter_js_sound; [|exact Eos]. intros o v. by apply order_matches_sound. }
      split_and!; try done; by eapply exactly_those_sublist.
    + intros [(p & Hin & Hn)|(o & Hin & Ht & Hn)].
      * by rewrite (filter_js_throws _ _ p Hin (product_matches_throws _ p Hn)).
      * destruct (filter_js (product_matches _) _); [|done].
        by rewrite (filter_js_throws _ _ o Hin (order_matches_throws _ o Ht Hn)).
Qed.

(** C8, as the code has it.  The product list answers on every document
    whose product names are strings and whose categories are strings or
    falsy.  It ends in an exception, without a result, when [q] is not
    empty and the document holds a product whose name is not a string, and
    when [category] alone is given and the document holds a product whose
    category is there and is not a string.  Whenever it answers, the text
    being within ASCII, the answer is the array of exactly the products
    that pass both filters, in document order.  The [q] filter keeps a product when its name or its
    category contains [q] ignoring case; the [category] filter keeps it when
    its category equals [category] ignoring case; a filter whose parameter
    is absent or empty keeps every product. *)
Theorem list_products_filters db q category :
  (products_typed db ->
   exists items, list_products db q category = Reply OK (Json_products items))
  /\
  (forall status body,
     list_products db q category = Reply status body ->
     ascii_value (param q) -> ascii_value (param category) ->
     ascii_fields db ->
     exists items,
       status = OK /\ body = Json_products items /\
       exactly_those (fun p => passes_q q p /\ passes_category category p)
                     (products db) items /\
       items `sublist_of` products db /\
       (forall p, p ∈ items <->
                  p ∈ products db /\ passes_q q p /\ passes_category category p))
  /\
  (forall s,
     q = Some s -> s <> "" ->
     (exists p, p ∈ products db /\ ~ is_string (p_name p)) ->
     list_products db q category = Threw)
  /\
  (forall c,
     q = None \/ q = Some "" -> category = Some c -> c <> "" ->
     (exists p, p ∈ products db /\ ToBoolean (p_category p) = true /\
                ~ is_string (p_category p)) ->
     list_products db q category = Threw).
Proof.
  unfold list_products. split; [|split; [|split]].
  - intros Hp.
    assert (H1 : exists r,
      match q with
      | Some s => if ToBoolean (VStr s)
                  then filter_js (product_matches (toLowerCase s)) (products db)
                  else Some (products db)
      | None => Some (products db)
      end = Some r /\ r `sublist_of` products db).
    { destruct q as [s|]; [|by eexists].
      destruct (ToBoolean (VStr s)); [|by eexists].
      destruct (filter_js_exactly (product_matches (toLowerCase s)) (product_hit s)
                  (products db)) as (r & -> & Hr).
      { eapply Forall_impl; [exact Hp|]. intros p [? ?]. by apply product_matches_hit. }
      exists r. split; [done|]. by eapply exactly_those_sublist. }
    destruct H1 as (r & -> & Hr).
    assert (Hpr : Forall (fun p => is_string (p_name p) /\
                                   string_or_falsy (p_category p)) r).
    { apply Forall_forall. intros p Hin.
      apply (proj1 (Forall_forall _ _) Hp). by eapply sublist_subseteq. }
    destruct category as [c|]; [|by eexists].
    destruct (ToBoolean (VStr c)); [|by eexists].
    destruct (filter_js_exactly (category_is c)
                (fun p => equal_ci (text_of (p_category p)) c) r) as (r' & -> & _).
    { eapply Forall_impl; [exact Hpr|]. intros p [? ?]. by apply category_is_equal. }
    by eexists.
  - intros status body.
    destruct (match q with Some _ => _ | None => _ end) as [r|] eqn:E1; [|discriminate].
    destruct (match category with Some _ => _ | None => _ end) as [r'|] eqn:E2;
      [|discriminate].
    intros [= <- <-] _ _ _. exists r'.
    assert (Hr : exactly_those (passes_q q) (products db) r).
    { destruct q as [s|]; [|injection E1 as <-; by apply exactly_those_all].
      destruct (ToBoolean (VStr s)) eqn:Hb.
      - pose proof (filter_js_sound _ (product_hit s) _
                      (fun p v => product_matches_sound s p v) _ E1) as H.
        eapply exactly_those_iff; [|exact H].
        intros p. simpl. apply truthy_string in Hb. tauto.
      - injection E1 as <-. apply exactly_those_all. intros p. left.
        destruct s; [done|discriminate]. }
    assert (Hr' : exactly_those (passes_category category) r r').
    { destruct category as [c|]; [|injection E2 as <-; by apply exactly_those_all].
      destruct (ToBoolean (VStr c)) eqn:Hb.
      - pose proof (filter_js_sound _ (fun p => equal_ci (text_of (p_category p)) c) _
                      (fun p v => category_is_sound c p v) _ E2) as H.
        eapply exactly_those_iff; [|exact H].
        intros p. simpl. apply truthy_string in Hb. tauto.
      - injection E2 as <-. apply exactly_those_all. intros p. left.
        destruct c; [done|discriminate]. }
    pose proof (exactly_those_then _ _ _ _ _ Hr Hr') as Hboth.
    split_and!; try done.
    + by eapply exactly_those_sublist.
    + by apply exactly_those_elem_of.
  - intros s -> Hs (p & Hin & Hn). rewrite (proj2 (truthy_string s) Hs).
    by rewrite (filter_js_throws _ _ p Hin (product_matches_throws _ p Hn)).
  - intros c Hq -> Hc (p & Hin & Ht & Hn).
    rewrite (proj2 (truthy_string c) Hc).
    destruct Hq as [->| ->]; simpl;
      by rewrite (filter_js_throws _ _ p Hin (category_is_throws c p Ht Hn)).
Qed.

(** C7 as stated fails: placing an order under the name 7, a number, is
    accepted, and on the document reached every search with a non-empty [q]
    ends in an exception; there is no result [{products, orders}]. *)
Lemma search_can_throw :
  reachable db_numbered /\
  (exists o, orders db_numbered = [o] /\ o_name o = VNum (Fin 7)) /\
  search db_numbered (Some "a") = Threw /\
  (forall status body, search db_numbered (Some "a") <> Reply status body).
Proof.
  assert (E : search db_numbered (Some "a") = Threw) by (vm_compute; reflexivity).
  split_and!.
  - exact (reachable_step env0 _ (POST_orders numbered_order)
             (reachable_step env0 _ (POST_admin_product widget_form)
                reachable_init)).
  - eexists. split; vm_compute; reflexivity.
  - exact E.
  - intros status body. rewrite E. discriminate.
Qed.

(** C8 as stated fails: a product sent as JSON under the name 7 is stored,
    and on the document reached the product list with a [q] ends in an
    exception; there is no result. *)
Lemma product_list_can_throw :
  reachable db_seven /\
  (exists p, products db_seven = [p] /\ p_name p = VNum (Fin 7)) /\
  list_products db_seven (Some "a") None = Threw /\
  (forall status body,
     list_products db_seven (Some "a") None <> Reply status body).
Proof.
  assert (E : list_products db_seven (Some "a") None = Threw)
    by (vm_compute; reflexivity).
  split_and!.
  - exact (reachable_step env0 _ (POST_admin_product_json seven_body)
             reachable_init).
  - eexists. split; vm_compute; reflexivity.
  - exact E.
  - intros status body. rewrite E. discriminate.
Qed.

(* ------------------------------------------------------------------ *)
(** ** The calendar: reading a time value back as a date                *)
(* ------------------------------------------------------------------ *)

Lemma DayFromYear_succ y : DayFromYear (y + 1) = DayFromYear y + DaysInYear y.
Proof.
  unfold DayFromYear, DaysInYear.
  repeat match goal with |- context [?a =? ?b] => destruct (Z.eqb_spec a b) end;
    simpl negb; cbv iota; Z.div_mod_to_equations; lia.
Qed.

Lemma DaysInYear_cases y : DaysInYear y = 365 \/ DaysInYear y = 366.
Proof. unfold DaysInYear. repeat case_match; auto. Qed.

Lemma YearFromDay_spec d :
  let y := 1970 + (400 * d) / 146097 in
  let r := if d <? DayFromYear y then y - 1
           else if DayFromYear (y + 1) <=? d then y + 1 else y in
  DayFromYear r <= d < DayFromYear (r + 1).
Proof.
  intros y r. subst r.
  pose proof (DayFromYear_succ (y - 1)) as H1.
  pose proof (DayFromYear_succ y) as H2.
  pose proof (DayFromYear_succ (y + 1)) as H3.
  replace (y - 1 + 1) with y in * by lia.
  replace (y + 1 + 1) with (y + 2) in * by lia.
  pose proof (DaysInYear_cases (y - 1)).
  pose proof (DaysInYear_cases y).
  pose proof (DaysInYear_cases (y + 1)).
  assert (Hlo : 400 * DayFromYear y <= 146097 * (y - 1970) + 589).
  { unfold DayFromYear. Z.div_mod_to_equations. lia. }
  assert (Hhi : 146097 * (y - 1970) - 506 <= 400 * DayFromYear y).
  { unfold DayFromYear. Z.div_mod_to_equations. lia. }
  assert (Hy : 146097 * (y - 1970) <= 400 * d < 146097 * (y - 1970) + 146097).
  { subst y. Z.div_mod_to_equations. lia. }
  destruct (Z.ltb_spec d (DayFromYear y)).
  - replace (y - 1 + 1) with y by lia. lia.
  - destruct (Z.leb_spec (DayFromYear (y + 1)) d).
    + replace (y + 1 + 1) with (y + 2) by lia. lia.
    + lia.
Qed.

Lemma YearFromTime_spec t :
  DayFromYear (YearFromTime t) <= Day t < DayFromYear (YearFromTime t + 1).
Proof. apply YearFromDay_spec. Qed.

Lemma DayFromYear_mono y1 y2 : y1 <= y2 -> DayFromYear y1 <= DayFromYear y2.
Proof. intros H. unfold DayFromYear. Z.div_mod_to_equations. lia. Qed.

Lemma YearFromTime_unique t y :
  DayFromYear y <= Day t < DayFromYear (y + 1) -> YearFromTime t = y.
Proof.
  intros H. pose proof (YearFromTime_spec t) as H'.
  destruct (Z.lt_trichotomy (YearFromTime t) y) as [Hlt|[Heq|Hgt]]; [|done|].
  - pose proof (DayFromYear_mono (YearFromTime t + 1) y). lia.
  - pose proof (DayFromYear_mono (y + 1) (YearFromTime t)). lia.
Qed.

Lemma DaysInYear_leap y : DaysInYear y = 365 + leap_of_year y.
Proof.
  unfold leap_of_year. destruct (DaysInYear_cases y) as [-> | ->]; reflexivity.
Qed.

Lemma leap_of_year_cases y : leap_of_year y = 0 \/ leap_of_year y = 1.
Proof. unfold leap_of_year. case_match; auto. Qed.

Lemma Day_MakeDate day time :
  0 <= time < msPerDay ->
  Day (MakeDate day time) = day /\ TimeWithinDay (MakeDate day time) = time.
Proof.
  intros H. unfold Day, TimeWithinDay, MakeDate, msPerDay in *.
  Z.div_mod_to_equations. lia.
Qed.

Lemma TimeWithinDay_range t : 0 <= TimeWithinDay t < msPerDay.
Proof. unfold TimeWithinDay, msPerDay. Z.div_mod_to_equations. lia. Qed.

Lemma MakeDate_Day t : MakeDate (Day t) (TimeWithinDay t) = t.
Proof.
  unfold MakeDate, Day, TimeWithinDay, msPerDay. Z.div_mod_to_equations. lia.
Qed.

Lemma DayWithinYear_range t :
  0 <= DayWithinYear t < 365 + InLeapYear t.
Proof.
  unfold DayWithinYear, InLeapYear.
  pose proof (YearFromTime_spec t). rewrite DayFromYear_succ, DaysInYear_leap in H.
  lia.
Qed.

(** Months as a finite case analysis. *)
Ltac month_cases m :=
  let H := fresh in
  assert (H : m = 0 \/ m = 1 \/ m = 2 \/ m = 3 \/ m = 4 \/ m = 5 \/ m = 6 \/
              m = 7 \/ m = 8 \/ m = 9 \/ m = 10 \/ m = 11) by lia;
  repeat (destruct H as [H|H]); subst m.

Ltac ltb_cases :=
  repeat match goal with
         | |- context [?a <? ?b] => destruct (Z.ltb_spec a b)
         | H : context [?a <? ?b] |- _ => destruct (Z.ltb_spec a b)
         end.

Lemma month_of_day_range leap dwy :
  0 <= month_of_day leap dwy <= 11.
Proof. unfold month_of_day. repeat case_match; lia. Qed.

Lemma month_of_day_bounds leap dwy :
  (leap = 0 \/ leap = 1) -> 0 <= dwy < 365 + leap ->
  month_start leap (month_of_day leap dwy) <= dwy
    < month_start leap (month_of_day leap dwy + 1).
Proof.
  intros Hl H. unfold month_of_day. ltb_cases; simpl; lia.
Qed.

Lemma month_of_day_start leap m d :
  (leap = 0 \/ leap = 1) -> 0 <= m <= 11 ->
  1 <= d <= month_start leap (m + 1) - month_start leap m ->
  month_of_day leap (month_start leap m + d - 1) = m.
Proof.
  intros Hl Hm Hd. month_cases m; simpl in *; unfold month_of_day; ltb_cases; lia.
Qed.

Lemma month_start_range leap m :
  (leap = 0 \/ leap = 1) -> 0 <= m <= 11 ->
  0 <= month_start leap m /\ month_start leap (m + 1) <= 365 + leap /\
  28 <= month_start leap (m + 1) - month_start leap m <= 31.
Proof. intros Hl Hm. month_cases m; simpl; lia. Qed.

(** Reading back a date built by [MakeDay] from a year, a month in 0..11
    and a day that the month has. *)
Lemma civil_MakeDay y m d tod :
  0 <= m <= 11 -> 1 <= d <= DaysInMonth y m -> 0 <= tod < msPerDay ->
  civil (MakeDate (MakeDay y m d) tod) = mkCivil y m d tod.
Proof.
  intros Hm Hd Htod. unfold DaysInMonth in Hd.
  pose proof (leap_of_year_cases y) as Hl.
  pose proof (month_start_range _ m Hl Hm) as (Hs0 & Hs1 & Hs2).
  set (t := MakeDate (MakeDay y m d) tod).
  destruct (Day_MakeDate (MakeDay y m d) tod Htod) as [HD HT]. fold t in HD, HT.
  assert (Hmk : MakeDay y m d = DayFromYear y + month_start (leap_of_year y) m + d - 1).
  { unfold MakeDay. replace (m / 12) with 0 by (Z.div_mod_to_equations; lia).
    replace (m mod 12) with m by (Z.div_mod_to_equations; lia).
    by rewrite Z.add_0_r. }
  assert (HY : YearFromTime t = y).
  { apply YearFromTime_unique. rewrite HD, Hmk, DayFromYear_succ, DaysInYear_leap. lia. }
  assert (HL : InLeapYear t = leap_of_year y) by (unfold InLeapYear; by rewrite HY).
  assert (HW : DayWithinYear t = month_start (leap_of_year y) m + d - 1).
  { unfold DayWithinYear. rewrite HY, HD, Hmk. lia. }
  assert (HM : MonthFromTime t = m).
  { unfold MonthFromTime. rewrite HL, HW. by apply month_of_day_start. }
  unfold civil. rewrite HY, HM, HT. f_equal.
  unfold DateFromTime. rewrite HM, HL, HW. lia.
Qed.

Lemma civil_fields t :
  0 <= MonthFromTime t <= 11 /\
  1 <= DateFromTime t <= DaysInMonth (YearFromTime t) (MonthFromTime t) /\
  DateFromTime t <= 31.
Proof.
  pose proof (DayWithinYear_range t) as Hw.
  assert (Hl : InLeapYear t = 0 \/ InLeapYear t = 1) by apply leap_of_year_cases.
  pose proof (month_of_day_bounds _ _ Hl Hw) as Hb.
  pose proof (month_of_day_range (InLeapYear t) (DayWithinYear t)) as Hm.
  pose proof (month_start_range _ _ Hl Hm) as (_ & _ & Hs).
  unfold DateFromTime, MonthFromTime, DaysInMonth. fold (InLeapYear t).
  split_and!; lia.
Qed.

Lemma MakeDay_carry y months d :
  MakeDay y months d =
  DayFromYear (y + months / 12)
  + month_start (leap_of_year (y + months / 12)) (months mod 12) + d - 1.
Proof. reflexivity. Qed.

(** [MakeDay] with a day beyond the end of the month lands in the next
    month. *)
Lemma civil_MakeDay_overflow y m d tod :
  0 <= m <= 11 -> DaysInMonth y m < d <= 31 -> 0 <= tod < msPerDay ->
  civil (MakeDate (MakeDay y m d) tod) =
  mkCivil y (m + 1) (d - DaysInMonth y m) tod.
Proof.
  intros Hm Hd Htod.
  pose proof (leap_of_year_cases y) as Hl.
  assert (Hm' : 0 <= m <= 10).
  { unfold DaysInMonth in Hd. month_cases m; simpl in Hd; lia. }
  rewrite <- (civil_MakeDay y (m + 1) (d - DaysInMonth y m) tod); try lia.
  - f_equal. f_equal. rewrite !MakeDay_carry.
    replace (m / 12) with 0 by (Z.div_mod_to_equations; lia).
    replace ((m + 1) / 12) with 0 by (Z.div_mod_to_equations; lia).
    replace (m mod 12) with m by (Z.div_mod_to_equations; lia).
    replace ((m + 1) mod 12) with (m + 1) by (Z.div_mod_to_equations; lia).
    rewrite !Z.add_0_r. unfold DaysInMonth. lia.
  - pose proof (month_start_range _ m Hl ltac:(lia)) as (_ & _ & Hs).
    pose proof (month_start_range _ (m + 1) Hl ltac:(lia)) as (_ & _ & Hs').
    unfold DaysInMonth in *. lia.
Qed.

Lemma MakeDay_normal y months d :
  MakeDay y months d = MakeDay (y + months / 12) (months mod 12) d.
Proof.
  rewrite !MakeDay_carry.
  assert (H : 0 <= months mod 12 < 12) by (apply Z.mod_pos_bound; lia).
  replace (months mod 12 / 12) with 0 by (Z.div_mod_to_equations; lia).
  replace (months mod 12 mod 12) with (months mod 12) by (Z.div_mod_to_equations; lia).
  by rewrite Z.add_0_r.
Qed.

(** [setMonth(getMonth() + n)] advances the local calendar date by [n]
    months with roll-over: the result is the instant of that local time. *)
Lemma setMonth_local tza t n t' :
  setMonth tza (Fin t) (num_add (getMonth tza (Fin t)) (Fin n)) = Fin t' ->
  exists tl,
    t' = UTC tza tl /\
    civil tl = add_months_rollover (civil (LocalTime tza t)) n.
Proof.
  unfold setMonth, getMonth, num_add, TimeClip. case_match; [discriminate|].
  intros [= <-]. eexists. split; [reflexivity|].
  set (lt := LocalTime tza t).
  pose proof (civil_fields lt) as (HM & HD & HD31).
  pose proof (TimeWithinDay_range lt) as HT.
  unfold add_months_rollover. cbn [civil c_year c_month c_date c_time].
  set (months := MonthFromTime lt + n).
  assert (Hmod : 0 <= months mod 12 <= 11).
  { pose proof (Z.mod_pos_bound months 12). lia. }
  rewrite MakeDay_normal.
  destruct (Z.leb_spec (DateFromTime lt)
              (DaysInMonth (YearFromTime lt + months / 12) (months mod 12))).
  - apply civil_MakeDay; lia.
  - apply civil_MakeDay_overflow; lia.
Qed.

(** Read in the server's zone again, the result has that calendar date,
    provided the local time exists there. *)
Lemma setMonth_rollover tza t n t' :
  setMonth tza (Fin t) (num_add (getMonth tza (Fin t)) (Fin n)) = Fin t' ->
  (forall tl, civil tl = add_months_rollover (civil (LocalTime tza t)) n ->
              local_time_exists tza tl) ->
  civil (LocalTime tza t') = add_months_rollover (civil (LocalTime tza t)) n.
Proof.
  intros Hset Hexists. apply setMonth_local in Hset as (tl & -> & Hc).
  by rewrite (Hexists tl Hc).
Qed.

(** In a zone without changes of offset every local time exists. *)
Lemma fixed_zone_exists offset t : local_time_exists (fixed_zone offset) t.
Proof. unfold local_time_exists, LocalTime, UTC. simpl. lia. Qed.

Lemma civil_inj a b : civil a = civil b -> a = b.
Proof.
  unfold civil. intros [= HY HM HD HT].
  rewrite <- (MakeDate_Day a), <- (MakeDate_Day b). rewrite HT. f_equal.
  unfold DateFromTime, DayWithinYear, InLeapYear in HD. rewrite HM, HY in HD. lia.
Qed.

(* ------------------------------------------------------------------ *)
(** ** Warranty expiry                                                  *)
(* ------------------------------------------------------------------ *)

Lemma warranty_expiry_months tza t n w :
  0 < n ->
  warranty_expiry tza (Fin t) (VNum (Fin n)) = Some w ->
  exists t',
    setMonth tza (Fin t) (num_add (getMonth tza (Fin t)) (Fin n)) = Fin t' /\
    w = VStr (iso_format t').
Proof.
  intros Hn. unfold warranty_expiry, js_and, js_gt.
  cbn [ToBoolean js_lt ToNumber num_lt].
  replace (n =? 0) with false by (symmetry; apply Z.eqb_neq; lia).
  replace (0 <? n) with true by (symmetry; by apply Z.ltb_lt).
  cbn [negb].
  destruct (setMonth _ _ _) as [|t'] eqn:E; simpl; [discriminate|].
  intros [= <-]. eauto.
Qed.

Lemma warranty_expiry_none tza d wm :
  wm = VNum (Fin 0) \/ wm = VUndefined \/ wm = VNull ->
  warranty_expiry tza d wm = Some VNull.
Proof. intros [->|[->| ->]]; reflexivity. Qed.

Lemma warranty_expiry_negative tza d n :
  n < 0 -> warranty_expiry tza d (VNum (Fin n)) = Some VNull.
Proof.
  intros Hn. unfold warranty_expiry, js_and, js_gt.
  cbn [ToBoolean js_lt ToNumber num_lt].
  replace (n =? 0) with false by (symmetry; apply Z.eqb_neq; lia).
  replace (0 <? n) with false by (symmetry; apply Z.ltb_ge; lia).
  reflexivity.
Qed.

(** C5. After a successful approval the designated order carries
    approvedAt = the current time and, for a product with a warranty of
    [n > 0] months, warrantyExpiry = the ISO text of the instant [t'] as
    which the server's zone reads the local time [tl] that is approvedAt's
    local date advanced by [n] calendar months with roll-over, at the same
    time of day.  Whenever that local time exists in the zone (it always
    does, except in the hour that a change to summer time skips), the
    calendar date of [t'] in the server's zone is that advanced date.  For
    a product whose warrantyMonths is 0 or unset, warrantyExpiry is null
    (as it is for a negative warrantyMonths, which the data model does not
    have). *)
Theorem warranty_expiry_rollover env db orderId body db' :
  approve env db orderId = (Reply OK body, db') ->
  exists i order j product order',
    the_order db orderId i order /\
    the_product db (o_productId order) j product /\
    orders db' !! i = Some order' /\
    o_approvedAt order' = VStr (iso_format (clock env)) /\
    (forall n,
       p_warrantyMonths product = VNum (Fin n) -> 0 < n ->
       exists tl t',
         o_warrantyExpiry order' = VStr (iso_format t') /\
         t' = UTC (tza env) tl /\
         civil tl =
           add_months_rollover (civil (LocalTime (tza env) (clock env))) n /\
         (local_time_exists (tza env) tl ->
          civil (LocalTime (tza env) t') =
          add_months_rollover (civil (LocalTime (tza env) (clock env))) n)) /\
    (p_warrantyMonths product = VNum (Fin 0) \/
     p_warrantyMonths product = VUndefined \/
     p_warrantyMonths product = VNull ->
     o_warrantyExpiry order' = VNull) /\
    (forall n,
       p_warrantyMonths product = VNum (Fin n) -> n < 0 ->
       o_warrantyExpiry order' = VNull).
Proof.
  intros Hok.
  apply approve_ok_inv in Hok
    as (i & order & j & product & w & Ho & Hst & Hp & Hlt & Hw & -> & ->).
  exists i, order, j, product, (json_order (approved_order env w order)).
  split_and!; try done.
  - apply approved_db_order. by eapply the_order_lt.
  - intros n Hn Hpos. rewrite Hn in Hw.
    apply warranty_expiry_months in Hw as (t' & Hset & ->); [|done].
    apply setMonth_local in Hset as (tl & -> & Hc).
    exists tl, (UTC (tza env) tl). split_and!; try done.
    intros Hex. by rewrite Hex.
  - intros Hnone. rewrite (warranty_expiry_none _ _ _ Hnone) in Hw.
    by injection Hw as <-.
  - intros n Hn Hneg. rewrite Hn, (warranty_expiry_negative _ _ _ Hneg) in Hw.
    by injection Hw as <-.
Qed.

(** The example of the specification: three months from 31 January 2024
    is 1 May 2024, since April has 30 days; nothing is clamped to 30 April. *)
Example warranty_jan31_plus_3 :
  warranty_expiry (fixed_zone 0) (Fin 1706659200000) (VNum (Fin 3))
  = Some (VStr "2024-05-01T00:00:00.000Z") /\
  iso_format 1706659200000 = "2024-01-31T00:00:00.000Z" /\
  add_months_rollover (mkCivil 2024 0 31 0) 3 = mkCivil 2024 4 1 0.
Proof. vm_compute. done. Qed.

(* ------------------------------------------------------------------ *)
(** ** Typing invariants of reachable documents                         *)
(* ------------------------------------------------------------------ *)

Lemma json_number_mem v : json_number v -> v = VNull \/ exists n, v = VNum n.
Proof. intros [->|[z ->]]; eauto. Qed.

Lemma json_number_json v :
  v = VNull \/ (exists n, v = VNum n) -> json_number (json_value v).
Proof. intros [->|[[|z] ->]]; simpl; [by left|by left|right; eauto]. Qed.

Lemma numeric_fields_mem_of db : numeric_fields db -> numeric_fields_mem db.
Proof.
  intros [Hp Ho]. split; (eapply Forall_impl; [eassumption|]);
    intros ?; apply json_number_mem.
Qed.

Lemma numeric_fields_writeDB db : numeric_fields_mem db -> numeric_fields (writeDB db).
Proof.
  intros [Hp Ho]. unfold numeric_fields, writeDB. simpl. split; apply Forall_fmap.
  - eapply Forall_impl; [exact Hp|]. intros p H. by apply json_number_json.
  - eapply Forall_impl; [exact Ho|]. intros o H. by apply json_number_json.
Qed.

Lemma add_product_body_numeric env db body :
  numeric_fields db -> numeric_fields (snd (add_product_body env db body)).
Proof.
  intros Hnum. pose proof (numeric_fields_mem_of _ Hnum) as [Hp Ho].
  unfold add_product_body. destruct (negb _); [done|]. cbn [snd].
  apply numeric_fields_writeDB. split; [|done]. cbn [products].
  apply Forall_app. split; [done|]. apply Forall_singleton.
  right. cbn [p_stock]. unfold js_or, Number. case_match; eauto.
Qed.

Lemma handle_numeric env db req :
  numeric_fields db -> numeric_fields (snd (handle env db req)).
Proof.
  intros Hnum. pose proof (numeric_fields_mem_of _ Hnum) as [Hp Ho].
  destruct req as [ | | |body|body|body|body| |id|id| ]; simpl; try done;
    try rewrite add_product_form.
  - by apply add_product_body_numeric.
  - by apply add_product_body_numeric.
  - unfold update_stock.
    destruct (find _ _) as [[j p]|] eqn:Hf; [|done]. cbn [snd].
    apply numeric_fields_writeDB. split; [|done]. cbn [products].
    apply Forall_insert; [done|]. cbn [p_stock set_stock].
    apply find_Some in Hf as (Hj & _).
    pose proof (proj1 (Forall_lookup _ _) Hp j p Hj) as [E|[n E]]; rewrite E;
      unfold js_or, Number.
    + simpl. right. eauto.
    + destruct (ToBoolean (VNum n)); simpl; right; eauto.
  - unfold place_order. destruct (_ || _); [done|].
    destruct (find _ _) as [[j product]|]; [|done].
    destruct (js_lt _ _); [done|]. cbn [snd].
    apply numeric_fields_writeDB. split; [done|]. cbn [orders].
    apply Forall_app. split; [done|]. apply Forall_singleton.
    right. unfold Number. simpl. eauto.
  - destruct (approve env db id) as [out db'] eqn:E.
    assert (Hcases : db' = db \/ exists body, out = Reply OK body).
    { revert E. unfold approve.
      repeat (case_match; try (intros [= <- <-]; by left)).
      intros [= <- <-]. right. eauto. }
    destruct Hcases as [->|[body ->]]; [done|]. cbn [snd].
    apply approve_ok_inv in E
      as (i & order & j & product & w & Hor & Hst & Hpr & Hlt & Hw & -> & ->).
    unfold approved_db. apply numeric_fields_writeDB. split.
    + cbn [products]. apply Forall_insert; [done|]. right.
      cbn [p_stock set_stock]. unfold js_sub. eauto.
    + cbn [orders]. apply Forall_insert; [done|].
      destruct Hor as (Hi & _).
      apply (proj1 (Forall_lookup _ _) Ho i order Hi).
  - unfold reject. destruct (find _ _) as [[i order]|] eqn:Hf; [|done]. cbn [snd].
    apply numeric_fields_writeDB. split; [done|]. cbn [orders].
    apply Forall_insert; [done|].
    apply find_Some in Hf as (Hi & _).
    apply (proj1 (Forall_lookup _ _) Ho i order Hi).
Qed.

(** Stock and quantity are numeric fields in every reachable document. *)
Lemma reachable_numeric db : reachable db -> numeric_fields db.
Proof.
  induction 1 as [|env db req _ IH].
  - split; constructor.
  - by apply handle_numeric.
Qed.

Lemma is_string_json v : is_string v -> is_string (json_value v).
Proof. intros [s ->]. by exists s. Qed.

Lemma string_or_falsy_json v : string_or_falsy v -> string_or_falsy (json_value v).
Proof.
  intros [H|H]; [left; by apply is_string_json|].
  right. destruct v as [| |b|[|z]|s]; done.
Qed.

Lemma truthy_is_string q : ToBoolean (param q) = true -> is_string (param q).
Proof. destruct q as [s|]; [by exists s|discriminate]. Qed.

Lemma handle_products_typed env db req :
  products_typed db -> typed_request req ->
  products_typed (snd (handle env db req)).
Proof.
  intros Hp Hreq. assert (Hw : forall l, products_typed (mkDB l []) ->
                            forall os, products_typed (writeDB (mkDB l os))).
  { intros l Hl os. unfold products_typed, writeDB in *. simpl in *.
    apply Forall_fmap. eapply Forall_impl; [exact Hl|]. intros p [? ?]. simpl.
    split; [by apply is_string_json | by apply string_or_falsy_json]. }
  destruct req as [ | | |body|body|body|body| |id|id| ]; simpl; try done;
    try rewrite add_product_form.
  - unfold add_product_body. destruct (negb _) eqn:En; [done|]. cbn [snd].
    apply Hw. unfold products_typed. cbn [products].
    apply Forall_app. split; [done|]. apply Forall_singleton.
    cbn [p_name p_category form_body pb_name pb_category]. split.
    + apply truthy_is_string. by apply negb_false_iff.
    + left. destruct (f_category body) as [c|]; simpl; [by exists c|by exists "General"].
  - unfold add_product_body. destruct (negb _) eqn:En; [done|]. cbn [snd].
    apply Hw. unfold products_typed. cbn [products].
    apply Forall_app. split; [done|]. apply Forall_singleton.
    cbn [p_name p_category]. destruct Hreq as [Hn Hc]. split; [done|].
    destruct (pb_category body) as [| |b|n|c] eqn:Ec; simpl;
      [left; by exists "General"|done..].
  - unfold update_stock.
    destruct (find _ _) as [[j p]|] eqn:Hf; [|done]. cbn [snd].
    apply Hw. unfold products_typed. cbn [products].
    apply Forall_insert; [done|].
    apply find_Some in Hf as (Hj & _).
    apply (proj1 (Forall_lookup _ _) Hp j p Hj).
  - unfold place_order. destruct (_ || _); [done|].
    destruct (find _ _) as [[j product]|]; [|done].
    destruct (js_lt _ _); [done|]. cbn [snd]. by apply Hw.
  - destruct (approve env db id) as [out db'] eqn:E.
    assert (Hcases : db' = db \/ exists body, out = Reply OK body).
    { revert E. unfold approve.
      repeat (case_match; try (intros [= <- <-]; by left)).
      intros [= <- <-]. right. eauto. }
    destruct Hcases as [->|[body ->]]; [done|]. cbn [snd].
    apply approve_ok_inv in E
      as (i & order & j & product & w & Hor & Hst & Hpr & Hlt & Hw' & -> & ->).
    unfold approved_db. apply Hw.
    unfold products_typed. cbn [products]. apply Forall_insert; [done|].
    destruct Hpr as (Hj & _).
    apply (proj1 (Forall_lookup _ _) Hp j product Hj).
  - unfold reject. destruct (find _ _) as [[i order]|] eqn:Hf; [|done]. cbn [snd].
    by apply Hw.
Qed.

Lemma handle_orders_typed env db req :
  orders_typed db -> typed_request req -> orders_typed (snd (handle env db req)).
Proof.
  intros Ho Hreq. assert (Hw : forall l, orders_typed (mkDB [] l) ->
                            forall ps, orders_typed (writeDB (mkDB ps l))).
  { intros l Hl ps. unfold orders_typed, writeDB in *. simpl in *.
    apply Forall_fmap. eapply Forall_impl; [exact Hl|]. intros o [? ?]. simpl.
    split; by apply string_or_falsy_json. }
  destruct req as [ | | |body|body|body|body| |id|id| ]; simpl; try done;
    try rewrite add_product_form.
  - unfold add_product_body. destruct (negb _); [done|]. cbn [snd]. by apply Hw.
  - unfold add_product_body. destruct (negb _); [done|]. cbn [snd]. by apply Hw.
  - unfold update_stock.
    destruct (find _ _) as [[j p]|] eqn:Hf; [|done]. cbn [snd]. by apply Hw.
  - unfold place_order. destruct (_ || _); [done|].
    destruct (find _ _) as [[j product]|]; [|done].
    destruct (js_lt _ _); [done|]. cbn [snd].
    apply Hw. unfold orders_typed. cbn [orders].
    apply Forall_app. split; [done|]. apply Forall_singleton.
    destruct Hreq as [Hn Hs]. cbn [o_name o_serialNumber].
    split; [by left|]. unfold js_or.
    destruct (ToBoolean (b_serialNumber body)) eqn:E; [done|by right].
  - destruct (approve env db id) as [out db'] eqn:E.
    assert (Hcases : db' = db \/ exists body, out = Reply OK body).
    { revert E. unfold approve.
      repeat (case_match; try (intros [= <- <-]; by left)).
      intros [= <- <-]. right. eauto. }
    destruct Hcases as [->|[body ->]]; [done|]. cbn [snd].
    apply approve_ok_inv in E
      as (i & order & j & product & w & Hor & Hst & Hpr & Hlt & Hw' & -> & ->).
    unfold approved_db. apply Hw.
    unfold orders_typed. cbn [orders]. apply Forall_insert; [done|].
    destruct Hor as (Hi & _).
    apply (proj1 (Forall_lookup _ _) Ho i order Hi).
  - unfold reject. destruct (find _ _) as [[i order]|] eqn:Hf; [|done]. cbn [snd].
    apply Hw. unfold orders_typed. cbn [orders].
    apply Forall_insert; [done|].
    apply find_Some in Hf as (Hi & _).
    apply (proj1 (Forall_lookup _ _) Ho i order Hi).
Qed.

(** Names, categories and serial numbers are strings (or absent) in every
    document reached through requests whose text fields are strings. *)
Lemma run_typed reqs : forall db,
  db_typed db -> Forall (fun er => typed_request (snd er)) reqs ->
  db_typed (run db reqs).
Proof.
  induction reqs as [|[env req] reqs IH]; intros db Hdb Hreqs; simpl; [done|].
  apply Forall_cons in Hreqs as [Hreq Hrest]. apply IH; [|done].
  destruct Hdb as [Hp Ho]. split.
  - by apply handle_products_typed.
  - by apply handle_orders_typed.
Qed.

(** A request either leaves the document alone or ends in [writeDB]. *)
Lemma handle_writes env db req :
  snd (handle env db req) = db \/ exists d, snd (handle env db req) = writeDB d.
Proof.
  destruct req as [ | | |body|body|body|body| |id|id| ]; simpl; auto;
    try rewrite add_product_form.
  - unfold add_product_body. case_match; simpl; eauto.
  - unfold add_product_body. case_match; simpl; eauto.
  - unfold update_stock. repeat case_match; simpl; eauto.
  - unfold place_order. repeat case_match; simpl; eauto.
  - unfold approve. repeat case_match; simpl; eauto.
  - unfold reject. repeat case_match; simpl; eauto.
Qed.

(** Every reachable document is one that [readDB] returns unchanged. *)
Lemma reachable_json_db db : reachable db -> json_db db.
Proof.
  induction 1 as [|env db req _ IH].
  - reflexivity.
  - destruct (handle_writes env db req) as [-> | [d ->]]; [done|].
    apply writeDB_json.
Qed.

(** The scenario, value by value: the widget is left with stock 3 and Ann's
    order is approved with a warranty to 1 May 2024. *)
Example scenario_approved :
  run empty_db scenario = db_approved /\
  db_approved =
  mkDB [mkProduct (VStr "prod_ls10tmo02n9c") (VStr "Widget") (VNum (Fin 10))
                  (VNum (Fin 3)) (VStr "General") (VNum (Fin 3)) VNull
                  (VStr "2024-01-31T00:00:00.000Z")]
       [mkOrder (VStr "ord_ls10tmo02n9c") (VStr "Ann") (VStr "555-0100")
                (VStr "prod_ls10tmo02n9c") (VNum (Fin 2)) VNull
                (VStr "APPROVED") (VStr "2024-01-31T00:00:00.000Z")
                (VStr "2024-01-31T00:00:00.000Z")
                (VStr "2024-05-01T00:00:00.000Z") VUndefined].
Proof. split; vm_compute; reflexivity. Qed.

(* ------------------------------------------------------------------ *)
(** ** The theorems on the sample scenario                              *)
(* ------------------------------------------------------------------ *)

(** An object found at position 0. *)
Ltac first_at_0 :=
  split; [vm_compute; reflexivity
         | split; [vm_compute; reflexivity | intros ? ? _ ?; lia]].

(** A property of every element of an explicit list. *)
Ltac each_element tac :=
  vm_compute; repeat (apply List.Forall_cons; [tac|]); apply List.Forall_nil.

Ltac numeric_by_computation :=
  split; each_element ltac:(right; eexists; reflexivity).



(** A rejected order cannot be approved, and neither can Ann's order a
    second time. *)
Lemma approve_requires_pending_witness :
  approve env0 db_rejected ann_id =
    (Reply BadRequest (Json_error "Order not pending"), db_rejected) /\
  approve env0 db_approved ann_id =
    (Reply BadRequest (Json_error "Order not pending"), db_approved).
Proof.
  split.
  - eapply (proj1 (approve_requires_pending env0 db_rejected ann_id) 0%nat).
    + first_at_0.
    + vm_compute. discriminate.
  - eapply (proj2 (approve_requires_pending env0 db_pending ann_id)).
    vm_compute. reflexivity.
Defined.

(** Rejecting Ann's approved order succeeds. *)
Lemma reject_any_status_witness :
  order_exists db_approved ann_id /\
  exists i order order' stored,
    the_order db_approved ann_id i order /\
    reject env0 db_approved ann_id =
      (Reply OK (Json_message_order "Order rejected" order'),
       writeDB (mkDB (products db_approved) (<[i := order']> (orders db_approved)))) /\
    o_status order' = VStr "REJECTED" /\
    o_rejectedAt order' = VStr (now_iso env0) /\
    orders (snd (reject env0 db_approved ann_id)) !! i = Some stored /\
    o_status stored = VStr "REJECTED" /\
    o_rejectedAt stored = VStr (now_iso env0) /\
    order_exists (snd (reject env0 db_approved ann_id)) ann_id.
Proof.
  assert (Hex : order_exists db_approved ann_id).
  { eexists. split; [vm_compute; apply list_elem_of_here | vm_compute; reflexivity]. }
  split; [exact Hex|].
  exact (proj1 (reject_any_status env0 db_approved ann_id) Hex).
Defined.

(** The widget has a warranty of 3 months; approved on 31 January 2024 the
    order's warranty runs to 1 May 2024. *)
Lemma warranty_expiry_rollover_witness :
  (exists body, approve env0 db_pending ann_id = (Reply OK body, db_approved)) /\
  exists i order j product order',
    the_order db_pending ann_id i order /\
    the_product db_pending (o_productId order) j product /\
    orders db_approved !! i = Some order' /\
    o_approvedAt order' = VStr (iso_format (clock env0)) /\
    (forall n,
       p_warrantyMonths product = VNum (Fin n) -> 0 < n ->
       exists tl t',
         o_warrantyExpiry order' = VStr (iso_format t') /\
         t' = UTC (tza env0) tl /\
         civil tl =
           add_months_rollover (civil (LocalTime (tza env0) (clock env0))) n /\
         (local_time_exists (tza env0) tl ->
          civil (LocalTime (tza env0) t') =
          add_months_rollover (civil (LocalTime (tza env0) (clock env0))) n)) /\
    (p_warrantyMonths product = VNum (Fin 0) \/
     p_warrantyMonths product = VUndefined \/
     p_warrantyMonths product = VNull ->
     o_warrantyExpiry order' = VNull) /\
    (forall n,
       p_warrantyMonths product = VNum (Fin n) -> n < 0 ->
       o_warrantyExpiry order' = VNull).
Proof.
  split.
  - eexists. vm_compute. reflexivity.
  - eapply (warranty_expiry_rollover env0 db_pending ann_id).
    vm_compute. reflexivity.
Defined.

(** The four outcomes of placing an order. *)
Lemma place_order_cases_witness :
  place_order env0 db_widget (ann_order VUndefined) =
    (Reply BadRequest (Json_error "Missing fields"), db_widget) /\
  place_order env0 empty_db (ann_order (VNum (Fin 2))) =
    (Reply NotFound (Json_error "Product not found"), empty_db) /\
  place_order env0 db_widget (ann_order (VNum (Fin 9))) =
    (Reply BadRequest (Json_error "Not enough stock"), db_widget) /\
  exists order,
    place_order env0 db_widget (ann_order (VNum (Fin 2))) =
      (Reply OK (Json_message_order "Order placed (pending admin approval)" order),
       writeDB (mkDB (products db_widget) (orders db_widget ++ [order]))) /\
    o_status order = VStr "PENDING" /\
    o_quantity order = Number (VNum (Fin 2)) /\
    o_productId order = VStr widget_id /\
    (json_db db_widget ->
     products (snd (place_order env0 db_widget (ann_order (VNum (Fin 2)))))
       = products db_widget /\
     orders (snd (place_order env0 db_widget (ann_order (VNum (Fin 2)))))
       = orders db_widget ++ [json_order order]).
Proof.
  assert (Hc : forall v, ToBoolean v = true -> complete (ann_order v)).
  { intros v Hv. unfold complete. rewrite !not_missing. by split_and!. }
  split_and!.
  - apply (proj1 (place_order_cases env0 db_widget (ann_order VUndefined))).
    intros (_ & _ & _ & H). by apply H.
  - apply (proj1 (proj2 (place_order_cases env0 empty_db (ann_order (VNum (Fin 2)))))).
    + by apply Hc.
    + intros (p & Hin & _). by apply elem_of_nil in Hin.
  - apply (proj1 (proj2 (proj2
        (place_order_cases env0 db_widget (ann_order (VNum (Fin 9))))))
        0%nat (mkProduct (VStr widget_id) (VStr "Widget") (VNum (Fin 10))
                 (VNum (Fin 3)) (VStr "General") (VNum (Fin 5)) VNull
                 (VStr (now_iso env0)))).
    + by apply Hc.
    + first_at_0.
    + vm_compute. reflexivity.
    + vm_compute. reflexivity.
    + exists 5, 9. by split_and!.
  - apply (proj2 (proj2 (proj2
        (place_order_cases env0 db_widget (ann_order (VNum (Fin 2))))))
        0%nat (mkProduct (VStr widget_id) (VStr "Widget") (VNum (Fin 10))
                 (VNum (Fin 3)) (VStr "General") (VNum (Fin 5)) VNull
                 (VStr (now_iso env0)))).
    + by apply Hc.
    + first_at_0.
    + vm_compute. reflexivity.
    + vm_compute. reflexivity.
    + intros (x & y & [= <-] & [= <-] & Hlt). lia.
Defined.

(** Searching "wID" in the document with Ann's pending order. *)
Lemma search_results_witness :
  search db_pending None = Reply OK Json_empty_array /\
  products_typed db_pending /\ orders_typed db_pending /\
  ascii_text "wID" /\ ascii_fields db_pending /\
  exists ps os,
    search db_pending (Some "wID") = Reply OK (Json_search ps os) /\
    exactly_those (product_hit "wID") (products db_pending) ps /\
    exactly_those (order_hit "wID") (orders db_pending) os /\
    ps `sublist_of` products db_pending /\
    os `sublist_of` orders db_pending.
Proof.
  assert (Hp : products_typed db_pending).
  { each_element ltac:(split; [by eexists | left; by eexists]). }
  assert (Ho : orders_typed db_pending).
  { each_element ltac:(split; [left; by eexists | by right]). }
  split; [|split; [exact Hp|split; [exact Ho|]]];
    [|split; [vm_compute; reflexivity|split; [vm_compute; reflexivity|]]].
  - apply (proj1 (search_results db_pending None)). by left.
  - destruct (proj2 (search_results db_pending (Some "wID")) "wID" eq_refl
                ltac:(discriminate)) as (Hanswers & Hright & _).
    destruct (Hanswers Hp Ho) as (ps & os & Hs).
    destruct (Hright _ _ Hs ltac:(vm_compute; reflexivity)
                ltac:(vm_compute; reflexivity))
      as (ps' & os' & _ & [= <- <-] & H).
    exists ps, os. split; [exact Hs|exact H].
Defined.

(** Listing the products matching "wid" in category "GENERAL". *)
Lemma list_products_filters_witness :
  products_typed db_widget /\ ascii_fields db_widget /\
  exists items,
    list_products db_widget (Some "wid") (Some "GENERAL")
      = Reply OK (Json_products items) /\
    exactly_those
      (fun p => passes_q (Some "wid") p /\ passes_category (Some "GENERAL") p)
      (products db_widget) items /\
    items `sublist_of` products db_widget /\
    (forall p, p ∈ items <->
               p ∈ products db_widget /\ passes_q (Some "wid") p /\
               passes_category (Some "GENERAL") p).
Proof.
  assert (Hp : products_typed db_widget).
  { each_element ltac:(split; [by eexists | left; by eexists]). }
  split; [exact Hp|]. split; [vm_compute; reflexivity|].
  destruct (list_products_filters db_widget (Some "wid") (Some "GENERAL"))
    as (Hanswers & Hright & _).
  destruct (Hanswers Hp) as (items & Hl).
  destruct (Hright _ _ Hl ltac:(vm_compute; reflexivity)
              ltac:(vm_compute; reflexivity) ltac:(vm_compute; reflexivity))
    as (items' & _ & [= <-] & H).
  exists items. split; [exact Hl|exact H].
Defined.


(** Rejecting Ann's approved order keeps the widget at stock 3 and keeps
    the order's approvedAt and warrantyExpiry. *)
Lemma reject_frame_witness :
  json_db db_approved /\
  exists order,
    the_order db_approved ann_id 0%nat order /\
    products (snd (reject env0 db_approved ann_id)) = products db_approved /\
    length (orders (snd (reject env0 db_approved ann_id)))
      = length (orders db_approved) /\
    (forall k, k <> 0%nat ->
       orders (snd (reject env0 db_approved ann_id)) !! k
         = orders db_approved !! k) /\
    exists order',
      orders (snd (reject env0 db_approved ann_id)) !! 0%nat = Some order' /\
      same_but_rejection order order'.
Proof.
  assert (Hj : json_db db_approved) by (vm_compute; reflexivity).
  split; [exact Hj|]. eexists. split.
  - first_at_0.
  - apply (reject_frame env0 db_approved ann_id 0%nat _ Hj). first_at_0.
Defined.

(* ===================================================================== *)
(** * Further properties of the service                                  *)
(* ===================================================================== *)

(* ------------------------------------------------------------------ *)
(** ** Products: creation and lookup                                    *)
(* ------------------------------------------------------------------ *)

Lemma find_app {A} (pred : A -> bool) l1 l2 :
  find pred (l1 ++ l2) =
  match find pred l1 with
  | Some r => Some r
  | None => prod_map (fun n => (n + length l1)%nat) id <$> find pred l2
  end.
Proof.
  unfold find. destruct (list_find _ l1) as [[i x]|] eqn:E.
  - by apply list_find_app_l.
  - by apply list_find_app_r.
Qed.

Lemma number_or_zero v :
  js_or (Number v) (VNum (Fin 0)) = VNum (Fin (num_or_zero (ToNumber v))).
Proof.
  unfold js_or, Number. destruct (ToNumber v) as [|z]; simpl; [done|].
  destruct (Z.eqb_spec z 0) as [->|]; done.
Qed.

Lemma json_value_param q : json_value (param q) = param q.
Proof. by destruct q. Qed.

Lemma add_product_ok env db body :
  ~ missing (param (f_name body)) ->
  add_product env db body =
    (Reply OK (Json_message_product "Product added" (new_product env body)),
     writeDB (mkDB (products db ++ [new_product env body]) (orders db))).
Proof.
  intros Hn. apply not_missing in Hn. unfold add_product. rewrite Hn. simpl negb.
  cbv iota. by rewrite !number_or_zero.
Qed.

Lemma new_product_json env body :
  json_product (new_product env body) = new_product env body.
Proof.
  unfold json_product, new_product. cbn [p_id p_name p_price p_warrantyMonths
    p_category p_stock p_image p_createdAt]. rewrite json_value_param.
  f_equal.
  - by destruct (f_category body).
  - by destruct (f_file body).
Qed.

Lemma add_product_stored env db body :
  json_db db -> ~ missing (param (f_name body)) ->
  products (snd (add_product env db body))
    = products db ++ [new_product env body] /\
  orders (snd (add_product env db body)) = orders db.
Proof.
  intros Hjson Hn. rewrite (add_product_ok env db body Hn).
  cbn [snd]. unfold writeDB. cbn [products orders]. split.
  - change (map json_product) with (fmap (M:=list) json_product).
    rewrite fmap_app. f_equal; [by apply json_db_products|].
    simpl. by rewrite new_product_json.
  - by apply json_db_orders.
Qed.

Lemma add_product_body_ok env db body :
  ~ missing (pb_name body) ->
  add_product_body env db body =
    (Reply OK (Json_message_product "Product added" (new_product_body env body)),
     writeDB (mkDB (products db ++ [new_product_body env body]) (orders db))).
Proof.
  intros Hn. apply not_missing in Hn. unfold add_product_body.
  rewrite Hn. simpl negb. cbv iota. by rewrite !number_or_zero.
Qed.

Lemma new_product_form env form :
  new_product env form = new_product_body env (form_body form).
Proof. reflexivity. Qed.

(** X1. Creating a product, from a multipart form or from a JSON body: a
    request without a name (absent, empty or otherwise falsy) is answered
    BadRequest and nothing is written.  Any other request whose numeric
    fields the model reads as JavaScript does is answered 200 and adds one
    product at the end of the list: its name is the name sent, of whatever
    type; its price, warranty months and stock are the integers sent, 0
    where the field is absent, null or a word; its category is "General"
    when none was sent and the one sent otherwise; its image is null
    without a file and the path under /uploads/ with one.  On a stored
    document the earlier products and the orders stay as they were.  A
    multipart form is handled as the body of its text fields. *)
Theorem add_product_cases env db body :
  (missing (pb_name body) ->
   add_product_body env db body =
     (Reply BadRequest (Json_error "Product name required"), db))
  /\
  (~ missing (pb_name body) -> exact_product body ->
   exists p,
     add_product_body env db body =
       (Reply OK (Json_message_product "Product added" p),
        writeDB (mkDB (products db ++ [p]) (orders db))) /\
     p_id p = VStr (makeId env "prod_") /\
     p_name p = pb_name body /\
     p_price p = VNum (Fin (num_or_zero (ToNumber (pb_price body)))) /\
     p_warrantyMonths p =
       VNum (Fin (num_or_zero
                    (ToNumber (default_to (VNum (Fin 0))
                                          (pb_warrantyMonths body))))) /\
     p_stock p =
       VNum (Fin (num_or_zero
                    (ToNumber (default_to (VNum (Fin 0))
                                          (pb_initialStock body))))) /\
     (pb_category body = VUndefined -> p_category p = VStr "General") /\
     (pb_category body <> VUndefined -> p_category p = pb_category body) /\
     (pb_file body = None -> p_image p = VNull) /\
     (forall filename, pb_file body = Some filename ->
                       p_image p = VStr ("/uploads/" +:+ filename)) /\
     p_createdAt p = VStr (now_iso env) /\
     (json_db db ->
      products (snd (add_product_body env db body))
        = products db ++ [json_product p] /\
      orders (snd (add_product_body env db body)) = orders db))
  /\
  (forall form,
     add_product env db form = add_product_body env db (form_body form)).
Proof.
  split_and!.
  - unfold missing. intros Hm. unfold add_product_body. by rewrite Hm.
  - intros Hn _. exists (new_product_body env body).
    rewrite (add_product_body_ok env db body Hn).
    unfold new_product_body.
    cbn [p_id p_name p_price p_warrantyMonths p_category p_stock p_image
         p_createdAt].
    split_and!; try done.
    + by intros ->.
    + intros Hc. by destruct (pb_category body).
    + by intros ->.
    + by intros filename ->.
    + intros Hjson. cbn [snd]. unfold writeDB. cbn [products orders]. split.
      * change (map json_product) with (fmap (M:=list) json_product).
        rewrite fmap_app. f_equal. by apply json_db_products.
      * by apply json_db_orders.
  - intros form. reflexivity.
Qed.

Lemma get_product_found db id j p :
  the_product db (VStr id) j p -> get_product db id = Reply OK (Json_product p).
Proof. intros H. apply find_first_with in H. unfold get_product. by rewrite H. Qed.

(** X2. Looking a product up by id: the answer is NotFound exactly when no
    product has the id, and otherwise the first product of the list that
    has it. *)
Theorem get_product_first db id :
  (product_exists db (VStr id) ->
   exists j p,
     the_product db (VStr id) j p /\
     get_product db id = Reply OK (Json_product p))
  /\
  (~ product_exists db (VStr id) ->
   get_product db id = Reply NotFound (Json_error "Product not found"))
  /\
  (forall body, get_product db id = Reply NotFound body ->
                ~ product_exists db (VStr id)).
Proof.
  assert (Hiff : product_exists db (VStr id) <->
                 exists j p, the_product db (VStr id) j p).
  { split.
    - intros (p & Hin & Hid).
      destruct (find_exists (fun p => strict_eq (p_id p) (VStr id)) (products db) p)
        as (j & y & Hf); [done | by apply strict_eq_VStr |].
      exists j, y. by apply find_first_with.
    - intros (j & p & Hj & Hp & _).
      exists p. split; [by eapply list_elem_of_lookup_2 | by apply strict_eq_VStr]. }
  split_and!.
  - intros Hex. apply Hiff in Hex as (j & p & Hthe).
    exists j, p. split; [done|]. by apply (get_product_found db id j).
  - intros Hno. unfold get_product.
    destruct (find _ _) as [[j p]|] eqn:E; [|done].
    destruct Hno. apply Hiff. exists j, p. by apply find_first_with.
  - intros body Hnf Hex. apply Hiff in Hex as (j & p & Hthe).
    rewrite (get_product_found db id j p Hthe) in Hnf. discriminate.
Qed.

Lemma get_product_app db id p os :
  get_product (mkDB (products db ++ [p]) os) id =
  match find (fun x => strict_eq (p_id x) (VStr id)) (products db) with
  | Some (_, q) => Reply OK (Json_product q)
  | None => if strict_eq (p_id p) (VStr id)
            then Reply OK (Json_product p)
            else Reply NotFound (Json_error "Product not found")
  end.
Proof.
  unfold get_product. cbn [products]. rewrite find_app.
  destruct (find _ (products db)) as [[j q]|]; [done|].
  unfold find. cbn [list_find].
  destruct (decide (strict_eq (p_id p) (VStr id) = true)) as [E|E].
  - by rewrite E.
  - by destruct (strict_eq (p_id p) (VStr id)).
Qed.


(* ------------------------------------------------------------------ *)
(** ** The order list of the administrator                              *)
(* ------------------------------------------------------------------ *)

Lemma filter_exactly {A} (f : A -> bool) l :
  exactly_those (fun x => f x = true) l (List.filter f l).
Proof.
  induction l as [|x l IH]; simpl; [constructor|].
  destruct (f x) eqn:E.
  - by constructor.
  - apply exactly_skip; [congruence|done].
Qed.

Lemma joined_find db o :
  joined db (o, snd <$> find (fun p => strict_eq (p_id p) (o_productId o))
                             (products db)).
Proof.
  unfold joined. cbn [fst snd].
  destruct (find _ _) as [[j p]|] eqn:E; simpl.
  - exists j. by apply find_first_with.
  - apply find_None in E. rewrite Forall_forall in E. intros p Hin.
    specialize (E p Hin). cbv beta in E. by destruct (strict_eq _ _).
Qed.

(** X4. The order list: the answer holds, in document order, exactly the
    orders whose status equals the [status] parameter (every order when the
    parameter is absent or empty), each joined with the first product that
    has the order's productId, or with no product when none has it. *)
Theorem list_orders_joined db status :
  exists items,
    list_orders db status = Reply OK (Json_orders items) /\
    exactly_those (passes_status status) (orders db) (map fst items) /\
    Forall (joined db) items.
Proof.
  unfold list_orders. eexists. split; [reflexivity|]. split.
  - rewrite map_map. cbn [fst]. rewrite map_id.
    destruct status as [s|]; cbn [param]; [|by apply exactly_those_all].
    destruct (ToBoolean (VStr s)) eqn:Hb.
    + eapply exactly_those_iff; [|apply filter_exactly].
      intros o. cbn [passes_status]. rewrite strict_eq_VStr.
      apply truthy_string in Hb. tauto.
    + apply exactly_those_all. intros o. left. destruct s; [done|discriminate].
  - apply Forall_forall. intros item Hin.
    apply list_elem_of_In, in_map_iff in Hin as (o & <- & _).
    apply joined_find.
Qed.

(* ------------------------------------------------------------------ *)
(** ** What a request can do to the document                            *)
(* ------------------------------------------------------------------ *)

Lemma update_stock_found db body j p :
  the_product db (s_productId body) j p ->
  update_stock db body =
    (Reply OK (Json_message_product "Stock updated"
                 (set_stock (js_add (js_or (p_stock p) (VNum (Fin 0)))
                                    (Number (js_or (s_addQuantity body)
                                                   (VNum (Fin 0))))) p)),
     writeDB
       (mkDB (<[j := set_stock
                       (js_add (js_or (p_stock p) (VNum (Fin 0)))
                               (Number (js_or (s_addQuantity body)
                                              (VNum (Fin 0))))) p]>
                (products db))
             (orders db))).
Proof. intros H. apply find_first_with in H. unfold update_stock. by rewrite H. Qed.

(** Each request either leaves the document as it is or is answered 200 and
    rewrites it in one of the five ways. *)
Lemma handle_rewrites env db req out db' :
  handle env db req = (out, db') ->
  db' = db \/ ((exists body, out = Reply OK body) /\ rewrites db db').
Proof.
  assert (Hadd : forall body,
    add_product_body env db body = (out, db') ->
    db' = db \/ ((exists rbody, out = Reply OK rbody) /\ rewrites db db')).
  { intros body. destruct (ToBoolean (pb_name body)) eqn:Hn.
    - rewrite add_product_body_ok by (by apply not_missing).
      intros [= <- <-]. right. split; [eauto|].
      constructor. by apply not_missing.
    - unfold add_product_body. rewrite Hn. intros [= <- <-]. by left. }
  destruct req as [ | | |body|body|body|body| |id|id| ]; simpl;
    try (intros [= <- <-]; by left).
  - rewrite add_product_form. apply Hadd.
  - apply Hadd.
  - destruct (find (fun x => strict_eq (p_id x) (s_productId body)) (products db))
      as [[j p]|] eqn:Hf.
    + apply find_first_with in Hf. rewrite (update_stock_found db body j p Hf).
      intros [= <- <-]. right. split; [eauto|]. by constructor.
    + unfold update_stock. rewrite Hf. intros [= <- <-]. by left.
  - destruct (ToBoolean (b_name body) && ToBoolean (b_phone body)
              && ToBoolean (b_productId body) && ToBoolean (b_quantity body))
      eqn:Hc.
    + assert (Hcomplete : complete body).
      { unfold complete. rewrite !not_missing.
        apply andb_prop in Hc as [Hc ?]. apply andb_prop in Hc as [Hc ?].
        apply andb_prop in Hc as [? ?]. done. }
      rewrite place_order_complete by done.
      destruct (find _ _) as [[j product]|] eqn:Hf;
        [|intros [= <- <-]; by left].
      destruct (num_lt _ _) eqn:Hlt; intros [= <- <-]; [by left|].
      right. split; [eauto|]. apply find_first_with in Hf.
      eapply rewrites_order; eauto.
      intros Hless. apply num_lt_less_than in Hless. congruence.
    + rewrite place_order_missing; [intros [= <- <-]; by left|].
      unfold complete. rewrite !not_missing. intros (H1 & H2 & H3 & H4).
      by rewrite H1, H2, H3, H4 in Hc.
  - intros Happ.
    assert (Hcases : db' = db \/ exists body, out = Reply OK body).
    { revert Happ. unfold approve.
      repeat (case_match; try (intros [= <- <-]; by left)).
      intros [= <- <-]. right. eauto. }
    destruct Hcases as [->|[body ->]]; [by left|]. right. split; [eauto|].
    apply approve_ok_inv in Happ
      as (i & order & j & product & w & Ho & Hst & Hp & Hlt & Hw & _ & ->).
    by eapply rewrites_approval.
  - destruct (find (fun o => strict_eq (o_id o) (VStr id)) (orders db))
      as [[i order]|] eqn:Hf.
    + apply find_first_with in Hf. rewrite (reject_found env db id i order Hf).
      intros [= <- <-]. right. split; [eauto|].
      by apply (rewrites_rejection db env id).
    + unfold reject. rewrite Hf. intros [= <- <-]. by left.
Qed.

(** X5. A request that is not answered 200, be it refused with 400 or 404
    or ended by an exception, leaves the document exactly as it was: no
    handler writes before its last check. *)
Theorem refused_request_writes_nothing env db req out db' :
  handle env db req = (out, db') ->
  (forall body, out <> Reply OK body) ->
  db' = db.
Proof.
  intros H Hno. apply handle_rewrites in H as [->|[[body ->] _]]; [done|].
  by destruct (Hno body).
Qed.

Lemma json_product_fix p :
  json_product p = p ->
  json_value (p_id p) = p_id p /\ json_value (p_name p) = p_name p /\
  json_value (p_price p) = p_price p /\
  json_value (p_warrantyMonths p) = p_warrantyMonths p /\
  json_value (p_category p) = p_category p /\
  json_value (p_stock p) = p_stock p /\
  json_value (p_image p) = p_image p /\
  json_value (p_createdAt p) = p_createdAt p.
Proof.
  destruct p. unfold json_product. simpl. intros [= ? ? ? ? ? ? ? ?].
  by split_and!.
Qed.

Lemma json_order_fix o :
  json_order o = o ->
  json_value (o_id o) = o_id o /\ json_value (o_name o) = o_name o /\
  json_value (o_phone o) = o_phone o /\
  json_value (o_productId o) = o_productId o /\
  json_value (o_quantity o) = o_quantity o /\
  json_value (o_serialNumber o) = o_serialNumber o /\
  json_value (o_status o) = o_status o /\
  json_value (o_createdAt o) = o_createdAt o /\
  json_value (o_approvedAt o) = o_approvedAt o /\
  json_value (o_warrantyExpiry o) = o_warrantyExpiry o /\
  json_value (o_rejectedAt o) = o_rejectedAt o.
Proof.
  destruct o. unfold json_order. simpl. intros [= ? ? ? ? ? ? ? ? ? ? ?].
  by split_and!.
Qed.

Lemma same_but_stock_json p p1 :
  json_product p = p -> same_but_stock p p1 -> same_but_stock p (json_product p1).
Proof.
  intros Hfix (H1 & H2 & H3 & H4 & H5 & H6 & H7).
  apply json_product_fix in Hfix as (F1 & F2 & F3 & F4 & F5 & _ & F7 & F8).
  unfold same_but_stock. simpl. rewrite H1, H2, H3, H4, H5, H6, H7.
  by split_and!.
Qed.

Lemma same_request_json o o1 :
  json_order o = o -> same_request o o1 -> same_request o (json_order o1).
Proof.
  intros Hfix (H1 & H2 & H3 & H4 & H5 & H6 & H7).
  apply json_order_fix in Hfix as (F1 & F2 & F3 & F4 & F5 & F6 & _ & F8 & _).
  unfold same_request. simpl. rewrite H1, H2, H3, H4, H5, H6, H7.
  by split_and!.
Qed.

Lemma same_but_stock_refl p : same_but_stock p p.
Proof. by repeat split. Qed.

Lemma same_request_refl o : same_request o o.
Proof. by repeat split. Qed.

Section Frame.
Context (db : DB) (Hjson : json_db db).

Lemma json_db_product k p : products db !! k = Some p -> json_product p = p.
Proof. apply map_id_lookup. by apply json_db_products. Qed.

Lemma json_db_order k o : orders db !! k = Some o -> json_order o = o.
Proof. apply map_id_lookup. by apply json_db_orders. Qed.

(** Products after a write that replaced the product at [j]. *)
Lemma products_after_insert j p1 os k p :
  products db !! j = Some p1 ->
  products db !! k = Some p ->
  forall p1', same_but_stock p1 p1' ->
  exists p',
    products (writeDB (mkDB (<[j := p1']> (products db)) os)) !! k = Some p' /\
    same_but_stock p p' /\ (k <> j -> p' = p).
Proof.
  intros Hj Hk p1' Hsame. rewrite writeDB_products_lookup. cbn [products].
  destruct (decide (k = j)) as [->|Hne].
  - rewrite list_lookup_insert_eq by (by eapply lookup_lt_Some).
    rewrite Hj in Hk. injection Hk as <-.
    eexists. split; [reflexivity|]. split; [|done].
    apply same_but_stock_json; [by eapply json_db_product|done].
  - rewrite list_lookup_insert_ne by done. rewrite Hk. simpl.
    rewrite (json_db_product k p Hk). eauto using same_but_stock_refl.
Qed.

Lemma orders_after_insert i o1 ps k o :
  orders db !! i = Some o1 ->
  orders db !! k = Some o ->
  forall o1', same_request o1 o1' ->
  exists o',
    orders (writeDB (mkDB ps (<[i := o1']> (orders db)))) !! k = Some o' /\
    same_request o o' /\ (k <> i -> o' = o).
Proof.
  intros Hi Hk o1' Hsame. rewrite writeDB_orders_lookup. cbn [orders].
  destruct (decide (k = i)) as [->|Hne].
  - rewrite list_lookup_insert_eq by (by eapply lookup_lt_Some).
    rewrite Hi in Hk. injection Hk as <-.
    eexists. split; [reflexivity|]. split; [|done].
    apply same_request_json; [by eapply json_db_order|done].
  - rewrite list_lookup_insert_ne by done. rewrite Hk. simpl.
    rewrite (json_db_order k o Hk). eauto using same_request_refl.
Qed.

Lemma products_after_keep ps' os k p :
  products db !! k = Some p ->
  products (writeDB (mkDB (products db ++ ps') os)) !! k = Some p.
Proof.
  intros Hk. rewrite writeDB_products_lookup. cbn [products].
  rewrite lookup_app_l by (by eapply lookup_lt_Some). rewrite Hk. simpl.
  by rewrite (json_db_product k p Hk).
Qed.

Lemma orders_after_keep ps os' k o :
  orders db !! k = Some o ->
  orders (writeDB (mkDB ps (orders db ++ os'))) !! k = Some o.
Proof.
  intros Hk. rewrite writeDB_orders_lookup. cbn [orders].
  rewrite lookup_app_l by (by eapply lookup_lt_Some). rewrite Hk. simpl.
  by rewrite (json_db_order k o Hk).
Qed.

Lemma products_after_same os k p :
  products db !! k = Some p ->
  products (writeDB (mkDB (products db) os)) !! k = Some p.
Proof.
  intros Hk. rewrite <- (app_nil_r (products db)). by apply products_after_keep.
Qed.

Lemma orders_after_same ps k o :
  orders db !! k = Some o ->
  orders (writeDB (mkDB ps (orders db))) !! k = Some o.
Proof.
  intros Hk. rewrite <- (app_nil_r (orders db)). by apply orders_after_keep.
Qed.

(** The frame of a write: there are positions [j] and [i] such that every
    product but the one at [j] and every order but the one at [i] is stored
    again as it was; the product at [j] keeps all but its stock, the order
    at [i] keeps what the customer sent. *)
Lemma rewrites_frame db' :
  rewrites db db' ->
  exists j i,
    (forall k p, products db !! k = Some p ->
       exists p', products db' !! k = Some p' /\ same_but_stock p p' /\
                  (k <> j -> p' = p)) /\
    (forall k o, orders db !! k = Some o ->
       exists o', orders db' !! k = Some o' /\ same_request o o' /\
                  (k <> i -> o' = o)).
Proof.
  intros [env body Hn | body j p Hp | env body j product Hc Hp Hge
          | env orderId i order j product w Ho Hst Hp Hlt Hw
          | env orderId i order Ho].
  - exists 0%nat, 0%nat. split; intros k x Hk.
    + exists x. split; [by apply products_after_keep|].
      split; [apply same_but_stock_refl|done].
    + exists x. split; [by apply orders_after_same|].
      split; [apply same_request_refl|done].
  - exists j, 0%nat. split; intros k x Hk.
    + destruct Hp as (Hj & _).
      eapply products_after_insert; eauto. by repeat split.
    + exists x. split; [by apply orders_after_same|].
      split; [apply same_request_refl|done].
  - exists 0%nat, 0%nat. split; intros k x Hk.
    + exists x. split; [by apply products_after_same|].
      split; [apply same_but_stock_refl|done].
    + exists x. split; [by apply orders_after_keep|].
      split; [apply same_request_refl|done].
  - exists j, i. unfold approved_db. split; intros k x Hk.
    + destruct Hp as (Hj & _).
      eapply products_after_insert; eauto. by repeat split.
    + destruct Ho as (Hi & _).
      eapply orders_after_insert; eauto. by repeat split.
  - exists 0%nat, i. split; intros k x Hk.
    + exists x. split; [by apply products_after_same|].
      split; [apply same_but_stock_refl|done].
    + destruct Ho as (Hi & _).
      eapply orders_after_insert; eauto. by repeat split.
Qed.

End Frame.

(** X6. Nothing is ever deleted or moved, and little is changed: serving
    any request on a stored document keeps every product at its position
    with all its fields but the stock, keeps every order at its position
    with the fields the customer sent, and stores all products but at most
    one, and all orders but at most one, exactly as they were. *)
Theorem request_frame env db req :
  json_db db ->
  exists j i,
    (forall k p, products db !! k = Some p ->
       exists p', products (snd (handle env db req)) !! k = Some p' /\
                  same_but_stock p p' /\ (k <> j -> p' = p)) /\
    (forall k o, orders db !! k = Some o ->
       exists o', orders (snd (handle env db req)) !! k = Some o' /\
                  same_request o o' /\ (k <> i -> o' = o)).
Proof.
  intros Hjson.
  destruct (handle env db req) as [out db'] eqn:E. cbn [snd].
  apply handle_rewrites in E as [->|[_ Hw]].
  - exists 0%nat, 0%nat.
    split; intros k x Hk; exists x;
      eauto using same_but_stock_refl, same_request_refl.
  - by apply rewrites_frame.
Qed.

(* ------------------------------------------------------------------ *)
(** ** The life of an order                                             *)
(* ------------------------------------------------------------------ *)

Lemma warranty_expiry_json tza d wm w :
  warranty_expiry tza d wm = Some w -> w = VNull \/ is_string w.
Proof.
  unfold warranty_expiry. destruct (ToBoolean _).
  - destruct (toISOString _) as [s|]; [|done]. intros [= <-]. right. by exists s.
  - intros [= <-]. by left.
Qed.

Lemma json_value_stamp w : w = VNull \/ is_string w -> json_value w = w.
Proof. by intros [->|[s ->]]. Qed.

Lemma approved_order_json env w o :
  json_order o = o -> w = VNull \/ is_string w ->
  json_order (approved_order env w o) = approved_order env w o.
Proof.
  intros Hfix Hw. apply json_order_fix in Hfix
    as (F1 & F2 & F3 & F4 & F5 & F6 & F7 & F8 & F9 & F10 & F11).
  destruct o. simpl in *.
  unfold json_order, approved_order, set_warrantyExpiry, set_approvedAt,
    set_status. simpl.
  rewrite (json_value_stamp w Hw). congruence.
Qed.

Lemma rejected_order_json env o :
  json_order o = o ->
  json_order (set_rejectedAt (VStr (now_iso env)) (set_status (VStr "REJECTED") o))
  = set_rejectedAt (VStr (now_iso env)) (set_status (VStr "REJECTED") o).
Proof.
  intros Hfix. apply json_order_fix in Hfix
    as (F1 & F2 & F3 & F4 & F5 & F6 & F7 & F8 & F9 & F10 & F11).
  destruct o. simpl in *.
  unfold json_order, set_rejectedAt, set_status. simpl. congruence.
Qed.

Lemma rewrites_order_step db db' k o :
  json_db db -> rewrites db db' -> orders db !! k = Some o ->
  exists o', orders db' !! k = Some o' /\ order_step o o'.
Proof.
  intros Hjson Hw Hk.
  pose proof (json_db_order db Hjson k o Hk) as Hfix.
  destruct Hw as [env body Hn | body j p Hp | env body j product Hc Hp Hge
          | env orderId i order j product w Ho Hst Hp Hlt Hw
          | env orderId i order Ho].
  - exists o. split; [by apply orders_after_same|constructor].
  - exists o. split; [by apply orders_after_same|constructor].
  - exists o. split; [by apply orders_after_keep|constructor].
  - unfold approved_db. rewrite writeDB_orders_lookup. cbn [orders].
    destruct Ho as (Hi & _). destruct (decide (k = i)) as [->|Hne].
    + rewrite list_lookup_insert_eq by (by eapply lookup_lt_Some).
      rewrite Hi in Hk. injection Hk as <-. simpl.
      apply warranty_expiry_json in Hw.
      rewrite approved_order_json by done.
      eexists. split; [done|]. by constructor.
    + rewrite list_lookup_insert_ne by done. rewrite Hk. simpl. rewrite Hfix.
      eexists. split; [done|]. constructor.
  - rewrite writeDB_orders_lookup. cbn [orders].
    destruct Ho as (Hi & _). destruct (decide (k = i)) as [->|Hne].
    + rewrite list_lookup_insert_eq by (by eapply lookup_lt_Some).
      rewrite Hi in Hk. injection Hk as <-. simpl.
      rewrite rejected_order_json by done.
      eexists. split; [done|]. constructor.
    + rewrite list_lookup_insert_ne by done. rewrite Hk. simpl. rewrite Hfix.
      eexists. split; [done|]. constructor.
Qed.

Lemma handle_order_step env db req k o :
  json_db db -> orders db !! k = Some o ->
  exists o', orders (snd (handle env db req)) !! k = Some o' /\ order_step o o'.
Proof.
  intros Hjson Hk. destruct (handle env db req) as [out db'] eqn:E. cbn [snd].
  apply handle_rewrites in E as [->|[_ Hw]].
  - exists o. split; [done|constructor].
  - by eapply rewrites_order_step.
Qed.

Lemma handle_json env db req : json_db db -> json_db (snd (handle env db req)).
Proof.
  intros Hjson. destruct (handle env db req) as [out db'] eqn:E. cbn [snd].
  apply handle_rewrites in E as [->|[_ Hw]]; [done|].
  destruct Hw; apply writeDB_json.
Qed.

(** What one step does to the status. *)
Lemma order_step_status o o' :
  order_step o o' ->
  (o_status o = VStr "REJECTED" -> o_status o' = VStr "REJECTED") /\
  (o_status o = VStr "APPROVED" ->
     o_status o' = VStr "APPROVED" \/ o_status o' = VStr "REJECTED") /\
  (o_status o <> VStr "PENDING" -> o_status o' <> VStr "PENDING") /\
  (o_status o' = VStr "PENDING" -> o' = o).
Proof.
  intros [|env w Hst Hw|env]; simpl; split_and!; try done; try congruence; auto.
Qed.

(** X7. Statuses only move forward, whatever requests follow: an order
    that is rejected stays rejected, an approved order stays approved
    unless it is rejected later, no order that has left PENDING comes back
    to it, and an order that is still PENDING is still exactly as it was
    stored. *)
Theorem status_moves_forward reqs : forall db k o,
  json_db db -> orders db !! k = Some o ->
  exists o', orders (run db reqs) !! k = Some o' /\
    (o_status o = VStr "REJECTED" -> o_status o' = VStr "REJECTED") /\
    (o_status o = VStr "APPROVED" ->
       o_status o' = VStr "APPROVED" \/ o_status o' = VStr "REJECTED") /\
    (o_status o <> VStr "PENDING" -> o_status o' <> VStr "PENDING") /\
    (o_status o' = VStr "PENDING" -> o' = o).
Proof.
  induction reqs as [|[env req] reqs IH]; intros db k o Hjson Hk.
  - exists o. simpl. split_and!; auto.
  - destruct (handle_order_step env db req k o Hjson Hk) as (o1 & Hk1 & Hstep).
    apply order_step_status in Hstep as (S1 & S2 & S3 & S4).
    destruct (IH _ k o1 (handle_json env db req Hjson) Hk1)
      as (o' & Hk' & R1 & R2 & R3 & R4).
    exists o'. simpl. split; [done|]. split_and!.
    + auto.
    + intros Ha. destruct (S2 Ha) as [E|E]; [auto|]. right. auto.
    + auto.
    + intros Hp. pose proof (R4 Hp) as ->. auto.
Qed.

(* ------------------------------------------------------------------ *)
(** ** Identifiers that collide                                          *)
(* ------------------------------------------------------------------ *)

Lemma first_with_earlier {A} (pred : A -> bool) l i k x y :
  first_with pred l k y -> l !! i = Some x -> (i < k)%nat -> pred x = false.
Proof. intros (_ & _ & Hfirst) Hi Hlt. by eapply Hfirst. Qed.

(** An order that stands behind another one with the same id is stored
    again as it is by every write, and still stands behind one. *)
Lemma rewrites_shadowed_order db db' i k o1 o2 :
  json_db db -> rewrites db db' ->
  orders db !! i = Some o1 -> orders db !! k = Some o2 -> (i < k)%nat ->
  o_id o1 = o_id o2 ->
  orders db' !! k = Some o2 /\
  exists o1', orders db' !! i = Some o1' /\ o_id o1' = o_id o2.
Proof.
  intros Hjson Hw Hi Hk Hlt Hid.
  assert (Hnot : forall orderId i0 order,
             the_order db orderId i0 order -> k <> i0).
  { intros orderId i0 order Ho ->.
    pose proof (first_with_earlier _ _ _ _ _ _ Ho Hi Hlt) as Hfalse.
    destruct Ho as (Hk' & Hpred & _). rewrite Hk in Hk'. injection Hk' as <-.
    simpl in Hfalse. rewrite Hid in Hfalse. congruence. }
  split.
  - destruct Hw as [env body Hn | body j p Hp | env body j product Hc Hp Hge
          | env orderId i0 order j product w Ho Hst Hp Hlt' Hw
          | env orderId i0 order Ho].
    + by apply orders_after_same.
    + by apply orders_after_same.
    + by apply orders_after_keep.
    + unfold approved_db. rewrite writeDB_orders_lookup. cbn [orders].
      rewrite list_lookup_insert_ne by (intros E; eapply Hnot; [eassumption|by symmetry]).
      rewrite Hk. simpl. by rewrite (json_db_order db Hjson k o2 Hk).
    + rewrite writeDB_orders_lookup. cbn [orders].
      rewrite list_lookup_insert_ne by (intros E; eapply Hnot; [eassumption|by symmetry]).
      rewrite Hk. simpl. by rewrite (json_db_order db Hjson k o2 Hk).
  - destruct (rewrites_order_step db db' i o1 Hjson Hw Hi) as (o1' & Hi' & Hstep).
    exists o1'. split; [done|]. rewrite <- Hid. by destruct Hstep.
Qed.

Lemma run_shadowed_order reqs : forall db i k o1 o2,
  json_db db ->
  orders db !! i = Some o1 -> orders db !! k = Some o2 -> (i < k)%nat ->
  o_id o1 = o_id o2 ->
  orders (run db reqs) !! k = Some o2.
Proof.
  induction reqs as [|[env req] reqs IH]; intros db i k o1 o2 Hjson Hi Hk Hlt Hid;
    [done|].
  simpl. pose proof (handle_json env db req Hjson) as Hjson'.
  destruct (handle env db req) as [out db'] eqn:E. cbn [snd] in *.
  apply handle_rewrites in E as [->|[_ Hw]]; [by apply (IH db i k o1 o2)|].
  destruct (rewrites_shadowed_order db db' i k o1 o2 Hjson Hw Hi Hk Hlt Hid)
    as (Hk' & o1' & Hi' & Hid').
  by apply (IH db' i k o1' o2).
Qed.

(** The same for a product behind another one with the same id. *)
Lemma rewrites_shadowed_product db db' i k p1 p2 :
  json_db db -> rewrites db db' ->
  products db !! i = Some p1 -> products db !! k = Some p2 -> (i < k)%nat ->
  p_id p1 = p_id p2 ->
  products db' !! k = Some p2 /\
  exists p1', products db' !! i = Some p1' /\ p_id p1' = p_id p2.
Proof.
  intros Hjson Hw Hi Hk Hlt Hid.
  assert (Hnot : forall productId j product,
             the_product db productId j product -> k <> j).
  { intros productId j product Hp ->.
    pose proof (first_with_earlier _ _ _ _ _ _ Hp Hi Hlt) as Hfalse.
    destruct Hp as (Hk' & Hpred & _). rewrite Hk in Hk'. injection Hk' as <-.
    simpl in Hfalse. rewrite Hid in Hfalse. congruence. }
  split.
  - destruct Hw as [env body Hn | body j p Hp | env body j product Hc Hp Hge
          | env orderId i0 order j product w Ho Hst Hp Hlt' Hw
          | env orderId i0 order Ho].
    + by apply products_after_keep.
    + rewrite writeDB_products_lookup. cbn [products].
      rewrite list_lookup_insert_ne by (intros E; eapply Hnot; [eassumption|by symmetry]).
      rewrite Hk. simpl. by rewrite (json_db_product db Hjson k p2 Hk).
    + by apply products_after_same.
    + unfold approved_db. rewrite writeDB_products_lookup. cbn [products].
      rewrite list_lookup_insert_ne by (intros E; eapply Hnot; [eassumption|by symmetry]).
      rewrite Hk. simpl. by rewrite (json_db_product db Hjson k p2 Hk).
    + by apply products_after_same.
  - destruct (rewrites_frame db Hjson db' Hw) as (j & i0 & Hps & _).
    destruct (Hps i p1 Hi) as (p1' & Hi' & Hsame & _).
    exists p1'. split; [done|]. rewrite <- Hid. by destruct Hsame.
Qed.

Lemma run_shadowed_product reqs : forall db i k p1 p2,
  json_db db ->
  products db !! i = Some p1 -> products db !! k = Some p2 -> (i < k)%nat ->
  p_id p1 = p_id p2 ->
  products (run db reqs) !! k = Some p2.
Proof.
  induction reqs as [|[env req] reqs IH]; intros db i k p1 p2 Hjson Hi Hk Hlt Hid;
    [done|].
  simpl. pose proof (handle_json env db req Hjson) as Hjson'.
  destruct (handle env db req) as [out db'] eqn:E. cbn [snd] in *.
  apply handle_rewrites in E as [->|[_ Hw]]; [by apply (IH db i k p1 p2)|].
  destruct (rewrites_shadowed_product db db' i k p1 p2 Hjson Hw Hi Hk Hlt Hid)
    as (Hk' & p1' & Hi' & Hid').
  by apply (IH db' i k p1' p2).
Qed.

(** X8. Identifiers that collide are not harmless: when two stored orders
    have the same id, no sequence of requests ever changes the later one
    (it can be neither approved nor rejected), and when two stored products
    have the same id the later one is never changed either (its stock can
    be neither adjusted nor sold). *)
Theorem later_duplicate_is_frozen db reqs :
  json_db db ->
  (forall i k o1 o2,
     orders db !! i = Some o1 -> orders db !! k = Some o2 -> (i < k)%nat ->
     o_id o1 = o_id o2 ->
     orders (run db reqs) !! k = Some o2) /\
  (forall i k p1 p2,
     products db !! i = Some p1 -> products db !! k = Some p2 -> (i < k)%nat ->
     p_id p1 = p_id p2 ->
     products (run db reqs) !! k = Some p2).
Proof.
  intros Hjson. split.
  - intros i k o1 o2 Hi Hk Hlt Hid. by apply (run_shadowed_order reqs db i k o1 o2).
  - intros i k p1 p2 Hi Hk Hlt Hid. by apply (run_shadowed_product reqs db i k p1 p2).
Qed.

(* ------------------------------------------------------------------ *)
(** ** Where the stored objects come from                               *)
(* ------------------------------------------------------------------ *)

Section From.
Context (db db' : DB) (Hjson : json_db db) (Hw : rewrites db db').

(** Each order of the written document is an order of the old one, at the
    same position and one step further, or the order just placed. *)
Lemma rewrites_orders_from k o' :
  orders db' !! k = Some o' ->
  (exists o, orders db !! k = Some o /\ order_step o o') \/
  (exists env body j product,
      complete body /\ the_product db (b_productId body) j product /\
      o' = json_order (new_order env body)).
Proof.
  intros Hk'.
  assert (Hold : forall o, orders db !! k = Some o ->
            exists o, orders db !! k = Some o /\ order_step o o').
  { intros o Hk. destruct (rewrites_order_step db db' k o Hjson Hw Hk)
      as (o1 & Hk1 & Hstep). exists o. split; [done|]. congruence. }
  destruct (orders db !! k) as [o|] eqn:Hk; [left; eauto|]. right.
  apply lookup_ge_None in Hk.
  destruct Hw as [env body Hn | body j p Hp | env body j product Hc Hp Hge
          | env orderId i order j product w Ho Hst Hp Hlt Hw'
          | env orderId i order Ho];
    unfold approved_db in Hk';
    rewrite writeDB_orders_lookup in Hk'; cbn [orders] in Hk'.
  - rewrite (proj2 (lookup_ge_None _ _) Hk) in Hk'. done.
  - rewrite (proj2 (lookup_ge_None _ _) Hk) in Hk'. done.
  - exists env, body, j, product. split; [done|]. split; [done|].
    rewrite lookup_app_r in Hk' by done.
    destruct (k - length (orders db))%nat; simpl in Hk'; congruence.
  - rewrite (proj2 (lookup_ge_None _ _)) in Hk'; [done|].
    by rewrite length_insert.
  - rewrite (proj2 (lookup_ge_None _ _)) in Hk'; [done|].
    by rewrite length_insert.
Qed.

(** Each product of the written document is a product of the old one, at
    the same position and one step further, or the product just added. *)
Lemma rewrites_products_from k p' :
  products db' !! k = Some p' ->
  (exists p, products db !! k = Some p /\ product_step p p') \/
  (exists env body,
      ~ missing (pb_name body) /\
      p' = json_product (new_product_body env body)).
Proof.
  intros Hk'.
  destruct Hw as [env body Hn | body j p Hp | env body j product Hc Hp Hge
          | env orderId i order j product w Ho Hst Hp Hlt Hw'
          | env orderId i order Ho];
    unfold approved_db in Hk';
    rewrite writeDB_products_lookup in Hk'; cbn [products] in Hk'.
  - apply fmap_Some in Hk' as (p & Hk' & ->).
    apply lookup_app_Some in Hk' as [Hk|[_ Hk]].
    + left. exists p. split; [done|].
      rewrite (json_db_product db Hjson k p Hk). constructor.
    + right. exists env, body. split; [done|].
      destruct (k - length (products db))%nat; simpl in Hk; [|done].
      by injection Hk as <-.
  - left. apply fmap_Some in Hk' as (p1 & Hk' & ->).
    apply list_lookup_insert_Some in Hk' as [(<- & <- & _)|(_ & Hk)].
    + destruct Hp as (Hj & _). exists p. split; [done|]. constructor.
    + exists p1. split; [done|].
      rewrite (json_db_product db Hjson k p1 Hk). constructor.
  - left. apply fmap_Some in Hk' as (p & Hk & ->). exists p. split; [done|].
    rewrite (json_db_product db Hjson k p Hk). constructor.
  - left. apply fmap_Some in Hk' as (p1 & Hk' & ->).
    apply list_lookup_insert_Some in Hk' as [(<- & <- & _)|(_ & Hk)].
    + destruct Hp as (Hj & _). exists product. split; [done|]. constructor.
    + exists p1. split; [done|].
      rewrite (json_db_product db Hjson k p1 Hk). constructor.
  - left. apply fmap_Some in Hk' as (p & Hk & ->). exists p. split; [done|].
    rewrite (json_db_product db Hjson k p Hk). constructor.
Qed.

End From.

(* ------------------------------------------------------------------ *)
(** ** The shape of the documents the service writes                    *)
(* ------------------------------------------------------------------ *)

Lemma json_value_string v : is_string v -> json_value v = v.
Proof. by intros [s ->]. Qed.

Lemma json_value_truthy v : ToBoolean v = true -> json_value v = v.
Proof. by destruct v as [| | |[|z]|]. Qed.

Lemma json_number_fixed v : json_number v -> json_value v = v.
Proof. by intros [->|[z ->]]. Qed.

Lemma product_shape_set_stock p v :
  product_shape p -> v = VNull \/ (exists n, v = VNum n) ->
  product_shape (json_product (set_stock v p)).
Proof.
  intros (Hid & Hname & Hprice & Hwm & _ & Himg & Hcr) Hv.
  unfold product_shape, json_product, set_stock.
  cbn [p_id p_name p_price p_warrantyMonths p_category p_stock p_image
       p_createdAt].
  rewrite (json_value_string (p_id p)), (json_value_string (p_createdAt p)),
    (json_value_truthy (p_name p)), (json_number_fixed (p_price p)),
    (json_number_fixed (p_warrantyMonths p)) by done.
  split_and!; try done.
  - by apply json_number_json.
  - destruct Himg as [->|Hi]; [by left|right]. by rewrite json_value_string.
Qed.

Lemma new_product_body_shape env body :
  ~ missing (pb_name body) ->
  product_shape (json_product (new_product_body env body)).
Proof.
  intros Hn. apply not_missing in Hn.
  unfold product_shape, json_product, new_product_body.
  cbn [p_id p_name p_price p_warrantyMonths p_category p_stock p_image
       p_createdAt].
  rewrite (json_value_truthy (pb_name body)) by done.
  split_and!; try done; try (right; by eexists); try by eexists.
  destruct (pb_file body); [right; by eexists | by left].
Qed.

Lemma product_step_shape p p' :
  product_shape p -> product_step p p' -> product_shape p'.
Proof.
  intros Hp [|q|q]; [done| |]; apply product_shape_set_stock; try done.
  - destruct Hp as (_ & _ & _ & _ & Hst & _).
    destruct Hst as [->|[z ->]]; unfold js_or, Number; simpl.
    + right. eauto.
    + destruct (negb (z =? 0)); simpl; right; eauto.
  - right. unfold js_sub. eauto.
Qed.

Lemma pending_status o :
  order_shape o -> o_status o = VStr "PENDING" -> pending_order o.
Proof.
  intros (_ & _ & _ & _ & _ & _ & [H|[(H & _)|(H & _)]]) Hst; [done| |];
    congruence.
Qed.

Lemma order_step_shape o o' :
  order_shape o -> order_step o o' -> order_shape o'.
Proof.
  intros Ho [|env w Hst Hw|env]; [done| |].
  - pose proof (pending_status o Ho Hst) as (_ & _ & _ & Hrej).
    destruct Ho as (H1 & H2 & H3 & H4 & H5 & H6 & _).
    unfold order_shape, approved_order. destruct o. simpl in *.
    split_and!; try done. right. left. unfold approved_shape. simpl.
    split_and!; try done. by eexists.
  - destruct Ho as (H1 & H2 & H3 & H4 & H5 & H6 & _).
    unfold order_shape. destruct o. simpl in *.
    split_and!; try done. right. right. unfold rejected_order. simpl.
    split; [done|]. by eexists.
Qed.

Lemma new_order_shape env body :
  complete body -> order_shape (json_order (new_order env body)).
Proof.
  unfold complete. rewrite !not_missing. intros (Hn & Hp & Hi & Hq).
  unfold order_shape, json_order, new_order.
  cbn [o_id o_name o_phone o_productId o_quantity o_serialNumber o_status
       o_createdAt o_approvedAt o_warrantyExpiry o_rejectedAt].
  rewrite (json_value_truthy (b_name body)), (json_value_truthy (b_phone body)),
    (json_value_truthy (b_productId body)) by done.
  split_and!; try done; try by eexists.
  - apply json_number_json. right. unfold Number. eauto.
  - by left.
Qed.

(** An order resolves in a list of products when one of them has its
    productId. *)
Lemma resolves_step db db' o o' :
  json_db db -> rewrites db db' ->
  o_productId o' = o_productId o ->
  (exists p, p ∈ products db /\ strict_eq (p_id p) (o_productId o) = true) ->
  exists p, p ∈ products db' /\ strict_eq (p_id p) (o_productId o') = true.
Proof.
  intros Hjson Hw Hsame (p & Hin & Heq).
  apply list_elem_of_lookup in Hin as [k Hk].
  destruct (rewrites_frame db Hjson db' Hw) as (j & i & Hps & _).
  destruct (Hps k p Hk) as (p' & Hk' & (Hid & _) & _).
  exists p'. split; [by eapply list_elem_of_lookup_2|]. by rewrite Hid, Hsame.
Qed.

Lemma order_step_request o o' : order_step o o' -> same_request o o'.
Proof. intros [| |]; by repeat split. Qed.

(** One write keeps the three invariants. *)
Lemma rewrites_shape db db' :
  json_db db -> rewrites db db' ->
  Forall product_shape (products db) /\ Forall order_shape (orders db) /\
    references_resolve db ->
  Forall product_shape (products db') /\ Forall order_shape (orders db') /\
    references_resolve db'.
Proof.
  intros Hjson Hw (Hps & Hos & Href).
  rewrite Forall_lookup in Hps. rewrite Forall_lookup in Hos.
  unfold references_resolve in *. rewrite Forall_lookup in Href.
  split_and!; apply Forall_lookup; intros k x' Hk'.
  - apply (rewrites_products_from db db' Hjson Hw) in Hk'
      as [(p & Hk & Hstep)|(env & body & Hn & ->)].
    + eapply product_step_shape; eauto.
    + by apply new_product_body_shape.
  - apply (rewrites_orders_from db db' Hjson Hw) in Hk'
      as [(o & Hk & Hstep)|(env & body & j & product & Hc & Hp & ->)].
    + eapply order_step_shape; eauto.
    + by apply new_order_shape.
  - apply (rewrites_orders_from db db' Hjson Hw) in Hk'
      as [(o & Hk & Hstep)|(env & body & j & product & Hc & Hp & ->)].
    + apply (resolves_step db db' o x' Hjson Hw).
      * by destruct (order_step_request o x' Hstep) as (_ & _ & _ & -> & _).
      * eauto.
    + apply (resolves_step db db' (new_order env body) _ Hjson Hw).
      * cbn [json_order new_order o_productId]. apply json_value_truthy.
        destruct Hc as (_ & _ & Hc & _). by apply not_missing.
      * destruct Hp as (Hj & Hpred & _). exists product.
        split; [by eapply list_elem_of_lookup_2|done].
Qed.

Lemma reachable_shape db :
  reachable db ->
  Forall product_shape (products db) /\ Forall order_shape (orders db) /\
    references_resolve db.
Proof.
  induction 1 as [|env db req Hreach IH].
  - split_and!; constructor.
  - destruct (handle env db req) as [out db'] eqn:E. cbn [snd].
    apply handle_rewrites in E as [->|[_ Hw]]; [done|].
    apply (rewrites_shape db db'); [by apply reachable_json_db|done|done].
Qed.

(** X9. Every document the service reaches from the empty one is well
    formed.  Each product has a string id, a name that is there (a value
    that is not falsy, of whatever type the request had it), a price, a
    warranty and a stock that are a number or null, an image that is null or
    a path, and a creation stamp.  Each order has a string id, a creation
    stamp, a name, a phone and a productId that are there, a quantity that
    is a number or null, and is in one of three states: PENDING with no
    approval or rejection field, APPROVED with an approval stamp, a warranty
    expiry that is null or a date and no rejection stamp, or REJECTED with a
    rejection stamp. *)
Theorem reachable_well_formed db :
  reachable db ->
  Forall product_shape (products db) /\ Forall order_shape (orders db).
Proof. intros H. apply reachable_shape in H as (? & ? & _). done. Qed.

Lemma resolves_find db o :
  (exists p, p ∈ products db /\ strict_eq (p_id p) (o_productId o) = true) ->
  is_Some (find (fun p => strict_eq (p_id p) (o_productId o)) (products db)).
Proof.
  intros (p & Hin & Heq).
  destruct (find _ _) as [r|] eqn:E; [done|].
  apply find_None in E. rewrite Forall_forall in E.
  specialize (E p Hin). cbv beta in E. congruence.
Qed.

(** X10. Orders never lose their product: in every document the service
    reaches, the productId of each order is the id of a stored product.  So
    approval never answers "Product not found for order", and the order list
    embeds a product in every item. *)
Theorem references_always_resolve db :
  reachable db ->
  references_resolve db /\
  (forall env orderId,
     fst (approve env db orderId)
       <> Reply NotFound (Json_error "Product not found for order")) /\
  (forall status, exists items,
     list_orders db status = Reply OK (Json_orders items) /\ all_joined items).
Proof.
  intros Hreach. apply reachable_shape in Hreach as (_ & _ & Href).
  split; [done|]. unfold references_resolve in Href.
  rewrite Forall_forall in Href. split.
  - intros env orderId. unfold approve.
    destruct (find _ (orders db)) as [[i order]|] eqn:Ho; [|done].
    destruct (negb _); [done|].
    apply find_Some in Ho as (Hi & _). apply list_elem_of_lookup_2 in Hi.
    destruct (resolves_find db order (Href order Hi)) as [[j product] ->].
    destruct (js_lt _ _); [done|].
    destruct (warranty_expiry _ _ _); done.
  - intros status. unfold list_orders. eexists. split; [reflexivity|].
    unfold all_joined. apply Forall_forall. intros item Hin.
    apply list_elem_of_In, in_map_iff in Hin as (o & <- & Hin). cbn [snd].
    assert (Ho : o ∈ orders db).
    { destruct (ToBoolean (param status)).
      - apply filter_In in Hin as [Hin _]. by apply list_elem_of_In.
      - by apply list_elem_of_In. }
    destruct (resolves_find db o (Href o Ho)) as [r ->]. by eexists.
Qed.

(* ------------------------------------------------------------------ *)
(** ** Stock adjustments                                                *)
(* ------------------------------------------------------------------ *)

(** Writing a stored document with one product replaced. *)
Lemma writeDB_insert_product db j p' :
  json_db db ->
  writeDB (mkDB (<[j := p']> (products db)) (orders db)) =
  mkDB (<[j := json_product p']> (products db)) (orders db).
Proof.
  intros Hjson. unfold writeDB. cbn [products orders].
  rewrite (map_insert_fixed json_product) by (by apply json_db_products).
  by rewrite (json_db_orders db Hjson).
Qed.

Lemma json_product_set_stock p v :
  json_product p = p ->
  json_product (set_stock v p) = set_stock (json_value v) p.
Proof.
  intros Hfix. apply json_product_fix in Hfix
    as (F1 & F2 & F3 & F4 & F5 & F6 & F7 & F8).
  destruct p. unfold json_product, set_stock. simpl in *. congruence.
Qed.

Lemma json_product_set_stock_num p z :
  json_product p = p ->
  json_product (set_stock (VNum (Fin z)) p) = set_stock (VNum (Fin z)) p.
Proof. intros Hfix. by rewrite json_product_set_stock. Qed.

Lemma the_product_insert db pid j p p' os :
  the_product db pid j p -> p_id p' = p_id p ->
  the_product (mkDB (<[j := p']> (products db)) os) pid j p'.
Proof.
  intros Hp Hid. pose proof Hp as (_ & Hpred & _).
  apply find_first_with. apply find_first_with in Hp. cbn [products].
  apply (find_insert_same _ _ _ p); [done|]. cbv beta. by rewrite Hid.
Qed.

Lemma update_stock_stored db body j p :
  json_db db -> the_product db (s_productId body) j p ->
  update_stock db body =
    (Reply OK (Json_message_product "Stock updated"
                 (set_stock (js_add (js_or (p_stock p) (VNum (Fin 0)))
                                    (Number (js_or (s_addQuantity body)
                                                   (VNum (Fin 0))))) p)),
     mkDB (<[j := set_stock
                     (json_value
                        (js_add (js_or (p_stock p) (VNum (Fin 0)))
                                (Number (js_or (s_addQuantity body)
                                               (VNum (Fin 0)))))) p]>
              (products db))
          (orders db)).
Proof.
  intros Hjson Hp. rewrite (update_stock_found db body j p Hp). f_equal.
  rewrite writeDB_insert_product by done.
  rewrite json_product_set_stock; [done|].
  destruct Hp as (Hj & _). by eapply json_db_product.
Qed.

Lemma update_stock_absent db body :
  (forall p, p ∈ products db -> strict_eq (p_id p) (s_productId body) = false) ->
  update_stock db body = (Reply NotFound (Json_error "Product not found"), db).
Proof.
  intros Hnone. unfold update_stock.
  destruct (find _ _) as [[j p]|] eqn:E; [|done].
  apply find_Some in E as (Hj & Hpred & _).
  apply list_elem_of_lookup_2 in Hj. rewrite (Hnone p Hj) in Hpred. done.
Qed.

(** X11. Adjusting stock.  With no product of that id the answer is
    NotFound and nothing is written.  Otherwise the first product with that
    id gets a new stock and nothing else changes.  For an amount the model
    reads as JavaScript does: an integer is added to a numeric stock,
    without any check of the sign of the result (stock, amount and sum being
    within the safe range); a stock that is null counts as 0; an amount that
    is absent, null, 0 or empty leaves a numeric stock as it is; an amount
    that is a word, no number, leaves null as the stored stock. *)
Theorem update_stock_cases db body :
  ((forall p, p ∈ products db ->
              strict_eq (p_id p) (s_productId body) = false) ->
   update_stock db body = (Reply NotFound (Json_error "Product not found"), db))
  /\
  (forall j p,
     json_db db -> the_product db (s_productId body) j p ->
     exact_number (s_addQuantity body) ->
     exists stock,
       update_stock db body =
         (Reply OK (Json_message_product "Stock updated" (set_stock stock p)),
          mkDB (<[j := set_stock (json_value stock) p]> (products db))
               (orders db)) /\
       (forall a,
          ToNumber (js_or (s_addQuantity body) (VNum (Fin 0))) = Fin a ->
          (forall s, p_stock p = VNum (Fin s) ->
                     safe s -> safe (s + a) -> stock = VNum (Fin (s + a))) /\
          (p_stock p = VNull -> stock = VNum (Fin a))) /\
       (missing (s_addQuantity body) ->
          forall s, p_stock p = VNum (Fin s) -> stock = VNum (Fin s)) /\
       (ToNumber (js_or (s_addQuantity body) (VNum (Fin 0))) = NaN ->
          json_number (p_stock p) -> json_value stock = VNull)).
Proof.
  split; [apply update_stock_absent|].
  intros j p Hjson Hp _. eexists. split; [by apply update_stock_stored|].
  assert (Hnum : forall s a, 
             js_add (js_or (VNum (Fin s)) (VNum (Fin 0))) (VNum (Fin a))
             = VNum (Fin (s + a))).
  { intros s a. unfold js_or. simpl.
    destruct (Z.eqb_spec s 0) as [->|]; done. }
  split_and!.
  - intros a Ha. unfold Number. rewrite Ha. split.
    + intros s -> _ _. apply Hnum.
    + by intros ->.
  - intros Hmiss s ->. unfold Number, js_or at 2. rewrite Hmiss. simpl ToNumber.
    rewrite Hnum. f_equal. f_equal. lia.
  - intros Ha Hst. unfold Number. rewrite Ha.
    destruct Hst as [->|[s ->]]; [done|].
    unfold js_or. simpl. by destruct (negb (s =? 0)).
Qed.

(** X12. Adjustments add up: on a stored document, adjusting a numeric
    stock by [a] and then by [b] writes the same document as adjusting it
    once by [a + b]; in particular an adjustment followed by the opposite
    one gives the document back.  This holds as long as the stock, the
    amounts and every sum involved are within the safe range, where the
    additions of JavaScript are exact. *)
Theorem update_stock_adds_up db productId j p s q1 q2 a b :
  json_db db -> the_product db productId j p ->
  p_stock p = VNum (Fin s) ->
  ToNumber (js_or q1 (VNum (Fin 0))) = Fin a ->
  ToNumber (js_or q2 (VNum (Fin 0))) = Fin b ->
  exact_number q1 -> exact_number q2 ->
  safe s -> safe a -> safe b -> safe (s + a) -> safe (a + b) ->
  safe (s + a + b) ->
  snd (update_stock (snd (update_stock db (mkStockBody productId q1)))
                    (mkStockBody productId q2))
  = snd (update_stock db (mkStockBody productId (VNum (Fin (a + b))))) /\
  (a + b = 0 ->
   snd (update_stock (snd (update_stock db (mkStockBody productId q1)))
                     (mkStockBody productId q2)) = db).
Proof.
  intros Hjson Hp Hs Ha Hb _ _ _ _ _ _ _ _.
  pose proof Hp as (Hj & _).
  pose proof (json_db_product db Hjson j p Hj) as Hfix.
  assert (Hone : forall q c,
            ToNumber (js_or q (VNum (Fin 0))) = Fin c ->
            snd (update_stock db (mkStockBody productId q)) =
            mkDB (<[j := set_stock (VNum (Fin (s + c))) p]> (products db))
                 (orders db)).
  { intros q c Hc.
    rewrite (update_stock_sets db (mkStockBody productId q) j p s c) by done.
    cbn [snd]. rewrite writeDB_insert_product by done.
    by rewrite json_product_set_stock_num. }
  assert (Hsum : ToNumber (js_or (VNum (Fin (a + b))) (VNum (Fin 0)))
                 = Fin (a + b)).
  { unfold js_or. simpl. destruct (Z.eqb_spec (a + b) 0) as [->|]; done. }
  assert (Htwo :
    snd (update_stock (snd (update_stock db (mkStockBody productId q1)))
                      (mkStockBody productId q2)) =
    mkDB (<[j := set_stock (VNum (Fin (s + (a + b)))) p]> (products db))
         (orders db)).
  { rewrite (Hone q1 a Ha).
    set (p1 := set_stock (VNum (Fin (s + a))) p).
    set (db1 := mkDB (<[j := p1]> (products db)) (orders db)).
    assert (Hjson1 : json_db db1).
    { unfold db1, p1. rewrite <- (json_product_set_stock_num p (s + a) Hfix).
      rewrite <- writeDB_insert_product by done. apply writeDB_json. }
    assert (Hp1 : the_product db1 productId j p1)
      by (by apply (the_product_insert db productId j p p1)).
    rewrite (update_stock_sets db1 (mkStockBody productId q2) j p1 (s + a) b)
      by done.
    cbn [snd]. rewrite writeDB_insert_product by done.
    unfold db1. cbn [products orders]. rewrite list_insert_insert_eq.
    rewrite json_product_set_stock_num.
    - unfold p1. destruct p. unfold set_stock. simpl.
      by rewrite Z.add_assoc.
    - unfold p1. by rewrite json_product_set_stock_num. }
  split.
  - by rewrite Htwo, (Hone _ _ Hsum).
  - intros Hzero. rewrite Htwo, Hzero, Z.add_0_r.
    assert (E : set_stock (VNum (Fin s)) p = p).
    { destruct p. unfold set_stock. simpl in *. by rewrite Hs. }
    rewrite E, list_insert_id by done. by destruct db.
Qed.

(* ------------------------------------------------------------------ *)
(** ** From an order to its approval                                    *)
(* ------------------------------------------------------------------ *)

Lemma new_order_json env body q :
  complete body -> ToNumber (b_quantity body) = Fin q ->
  json_order (new_order env body) = new_order env body.
Proof.
  unfold complete. rewrite !not_missing. intros (Hn & Hp & Hi & _) Hq.
  unfold json_order, new_order.
  cbn [o_id o_name o_phone o_productId o_quantity o_serialNumber o_status
       o_createdAt o_approvedAt o_warrantyExpiry o_rejectedAt].
  rewrite (json_value_truthy (b_name body)), (json_value_truthy (b_phone body)),
    (json_value_truthy (b_productId body)) by done.
  unfold Number. rewrite Hq. f_equal.
  unfold js_or. destruct (ToBoolean (b_serialNumber body)) eqn:E; [|done].
  by apply json_value_truthy.
Qed.

Lemma the_order_last db ps id o :
  (forall x, x ∈ orders db -> o_id x <> VStr id) -> o_id o = VStr id ->
  the_order (mkDB ps (orders db ++ [o])) id (length (orders db)) o.
Proof.
  intros Hfresh Hid. unfold the_order, first_with. cbn [orders]. split_and!.
  - by rewrite lookup_app_r, Nat.sub_diag.
  - rewrite Hid. by apply strict_eq_VStr.
  - intros k y Hk Hlt. rewrite lookup_app_l in Hk by done.
    apply list_elem_of_lookup_2, Hfresh in Hk.
    apply not_true_iff_false. by rewrite strict_eq_VStr.
Qed.


(* ------------------------------------------------------------------ *)
(** ** Which documents the filters can read                             *)
(* ------------------------------------------------------------------ *)

Lemma same_request_trans o1 o2 o3 :
  same_request o1 o2 -> same_request o2 o3 -> same_request o1 o3.
Proof.
  intros (A1 & A2 & A3 & A4 & A5 & A6 & A7) (B1 & B2 & B3 & B4 & B5 & B6 & B7).
  unfold same_request. split_and!; congruence.
Qed.

(** Whatever requests follow, a stored order keeps its position and what
    the customer sent. *)
Lemma run_same_request reqs : forall db k o,
  json_db db -> orders db !! k = Some o ->
  exists o', orders (run db reqs) !! k = Some o' /\ same_request o o'.
Proof.
  induction reqs as [|[env req] reqs IH]; intros db k o Hjson Hk.
  - exists o. split; [done|apply same_request_refl].
  - destruct (handle_order_step env db req k o Hjson Hk) as (o1 & Hk1 & Hstep).
    destruct (IH _ k o1 (handle_json env db req Hjson) Hk1) as (o' & Hk' & Hsame).
    exists o'. split; [done|].
    eapply same_request_trans; [by apply order_step_request|done].
Qed.

(** The order filter of the search throws on a name that is there but is
    not a string, whatever the products are. *)
Lemma search_throws_on_name db s o :
  s <> "" -> o ∈ orders db ->
  ToBoolean (o_name o) = true -> ~ is_string (o_name o) ->
  search db (Some s) = Threw.
Proof.
  intros Hs Hin Ht Hn. unfold search. rewrite (proj2 (truthy_string s) Hs).
  destruct (filter_js (product_matches _) _); [|done].
  rewrite (filter_js_throws _ _ o Hin); [done|].
  unfold order_matches, and_then. rewrite Ht.
  destruct (lower_includes (o_name o) (toLowerCase s)) as [x|] eqn:E; [|done].
  apply lower_includes_Some in E as (n & Hname & _). destruct Hn. by exists n.
Qed.

Lemma place_order_ok_inv env db body rbody db' :
  place_order env db body = (Reply OK rbody, db') ->
  complete body /\
  db' = writeDB (mkDB (products db) (orders db ++ [new_order env body])).
Proof.
  intros H.
  destruct (ToBoolean (b_name body) && ToBoolean (b_phone body)
            && ToBoolean (b_productId body) && ToBoolean (b_quantity body))
    eqn:Hc.
  - assert (Hcomplete : complete body).
    { unfold complete. rewrite !not_missing.
      apply andb_prop in Hc as [Hc ?]. apply andb_prop in Hc as [Hc ?].
      apply andb_prop in Hc as [? ?]. done. }
    split; [done|]. rewrite place_order_complete in H by done.
    destruct (find _ _) as [[j product]|]; [|discriminate].
    destruct (num_lt _ _); [discriminate|]. by injection H as _ <-.
  - rewrite place_order_missing in H; [discriminate|].
    unfold complete. rewrite !not_missing. intros (H1 & H2 & H3 & H4).
    by rewrite H1, H2, H3, H4 in Hc.
Qed.

(** X14. Order creation checks that the name is there, not that it is a
    string: once an order has been accepted whose name is not a string (a
    number, [true]), every search with a non-empty [q] ends in an exception
    instead of an answer, and no later request repairs it. *)
Theorem order_name_breaks_search env db body rbody db' reqs q :
  place_order env db body = (Reply OK rbody, db') ->
  ~ is_string (b_name body) ->
  q <> "" ->
  search (run db' reqs) (Some q) = Threw.
Proof.
  intros Hplace Hname Hq.
  apply place_order_ok_inv in Hplace as (Hc & ->).
  pose proof Hc as (Hn & _). apply not_missing in Hn.
  set (db1 := writeDB (mkDB (products db) (orders db ++ [new_order env body]))).
  assert (Hk : orders db1 !! length (orders db)
               = Some (json_order (new_order env body))).
  { unfold db1. rewrite writeDB_orders_lookup. cbn [orders].
    by rewrite lookup_app_r, Nat.sub_diag. }
  destruct (run_same_request reqs db1 _ _ (writeDB_json _) Hk)
    as (o' & Hk' & (_ & Hsame & _)).
  cbn [json_order new_order o_name] in Hsame.
  rewrite json_value_truthy in Hsame by done.
  apply (search_throws_on_name _ q o'); [done| | |].
  - by eapply list_elem_of_lookup_2.
  - by rewrite Hsame.
  - by rewrite Hsame.
Qed.

(* ------------------------------------------------------------------ *)
(** ** How far the warranty expiry lies from the approval               *)
(* ------------------------------------------------------------------ *)

(** One month further is 28 to 31 days further, whatever the day of the
    month. *)
Lemma MakeDay_step y m d :
  28 <= MakeDay y (m + 1) d - MakeDay y m d <= 31.
Proof.
  rewrite !MakeDay_carry.
  assert (Hk : 0 <= m mod 12 < 12) by (apply Z.mod_pos_bound; lia).
  destruct (Z.eq_dec (m mod 12) 11) as [E|E].
  - replace ((m + 1) / 12) with (m / 12 + 1) by (Z.div_mod_to_equations; lia).
    replace ((m + 1) mod 12) with 0 by (Z.div_mod_to_equations; lia).
    rewrite E, Z.add_assoc, DayFromYear_succ, DaysInYear_leap.
    pose proof (leap_of_year_cases (y + m / 12 + 1)) as Hl. cbn [month_start]. lia.
  - replace ((m + 1) / 12) with (m / 12) by (Z.div_mod_to_equations; lia).
    replace ((m + 1) mod 12) with (m mod 12 + 1) by (Z.div_mod_to_equations; lia).
    pose proof (month_start_range (leap_of_year (y + m / 12)) (m mod 12)
                  (leap_of_year_cases _) ltac:(lia)) as (_ & _ & Hs).
    lia.
Qed.

Lemma MakeDay_months y m d n :
  0 <= n ->
  28 * n <= MakeDay y (m + n) d - MakeDay y m d <= 31 * n.
Proof.
  intros Hn. revert n Hn. apply natlike_ind.
  - rewrite Z.add_0_r. lia.
  - intros n Hn IH. replace (m + Z.succ n) with (m + n + 1) by lia.
    pose proof (MakeDay_step y (m + n) d). lia.
Qed.

Lemma MakeDay_civil t :
  MakeDay (YearFromTime t) (MonthFromTime t) (DateFromTime t) = Day t.
Proof.
  pose proof (civil_fields t) as (HM & _ & _).
  rewrite MakeDay_carry.
  replace (MonthFromTime t / 12) with 0 by (Z.div_mod_to_equations; lia).
  replace (MonthFromTime t mod 12) with (MonthFromTime t)
    by (Z.div_mod_to_equations; lia).
  rewrite Z.add_0_r. unfold DateFromTime, DayWithinYear, InLeapYear. lia.
Qed.

(** The instant [setMonth(getMonth() + n)] computes, before it is clipped
    to the range of time values: the one as which the zone reads the local
    time a whole number of days, 28 to 31 for each month, after the local
    time it starts from. *)
Lemma setMonth_distance tza t n :
  0 <= n ->
  exists days,
    28 * n <= days <= 31 * n /\
    setMonth tza (Fin t) (num_add (getMonth tza (Fin t)) (Fin n)) =
    TimeClip (UTC tza (LocalTime tza t + days * msPerDay)).
Proof.
  intros Hn. unfold setMonth, getMonth, num_add.
  set (lt := LocalTime tza t).
  pose proof (MakeDay_months (YearFromTime lt) (MonthFromTime lt)
                (DateFromTime lt) n Hn) as Hd.
  rewrite MakeDay_civil in Hd.
  exists (MakeDay (YearFromTime lt) (MonthFromTime lt + n) (DateFromTime lt)
          - Day lt).
  split; [lia|]. f_equal. f_equal.
  pose proof (MakeDate_Day lt) as Hlt.
  unfold MakeDate in *. lia.
Qed.

Lemma warranty_expiry_positive tza t n :
  0 < n ->
  warranty_expiry tza (Fin t) (VNum (Fin n)) =
  match toISOString (setMonth tza (Fin t)
                       (num_add (getMonth tza (Fin t)) (Fin n))) with
  | Some s => Some (VStr s)
  | None => None
  end.
Proof.
  intros Hn. unfold warranty_expiry, js_and, js_gt.
  cbn [ToBoolean js_lt ToNumber num_lt].
  replace (n =? 0) with false by (symmetry; apply Z.eqb_neq; lia).
  replace (0 <? n) with true by (symmetry; by apply Z.ltb_lt).
  reflexivity.
Qed.

(** X16. The warranty expiry of [n > 0] months is the instant [t'] as
    which the server's zone reads the local time that lies a whole number
    of days, between [28 n] and [31 n], after the local time of the
    approval: the same time of day, so many days later.  When the zone has
    the same offset at the expiry as at the approval, the expiry lies that
    many days after the approval; across a change of offset it is earlier
    or later by the difference.  The expiry is stored when [t'] is a time
    value JavaScript has.  When it is not, printing it throws: the approval
    ends in an exception and writes nothing, so no order for a product with
    such a warranty can be approved. *)
Theorem warranty_expiry_distance env n :
  0 < n ->
  exists days t',
    28 * n <= days <= 31 * n /\
    t' = UTC (tza env) (LocalTime (tza env) (clock env) + days * msPerDay) /\
    (offset_of_local (tza env)
       (LocalTime (tza env) (clock env) + days * msPerDay)
     = offset_at (tza env) (clock env) ->
     t' = clock env + days * msPerDay) /\
    (Z.abs t' <= 8640000000000000 ->
     warranty_expiry (tza env) (Fin (clock env)) (VNum (Fin n))
       = Some (VStr (iso_format t'))) /\
    (8640000000000000 < Z.abs t' ->
     warranty_expiry (tza env) (Fin (clock env)) (VNum (Fin n)) = None /\
     forall db orderId i order j product,
       the_order db orderId i order -> o_status order = VStr "PENDING" ->
       the_product db (o_productId order) j product ->
       p_warrantyMonths product = VNum (Fin n) ->
       js_lt (js_or (p_stock product) (VNum (Fin 0))) (o_quantity order)
         = false ->
       approve env db orderId = (Threw, db)).
Proof.
  intros Hn.
  destruct (setMonth_distance (tza env) (clock env) n ltac:(lia))
    as (days & Hdays & Hset).
  exists days, (UTC (tza env) (LocalTime (tza env) (clock env) + days * msPerDay)).
  rewrite warranty_expiry_positive, Hset by done.
  split; [lia|]. split; [done|]. split_and!.
  - intros Hoff. unfold UTC, LocalTime in *. rewrite Hoff. lia.
  - intros Hin. unfold TimeClip.
    destruct (Z.ltb_spec 8640000000000000
                (Z.abs (UTC (tza env)
                          (LocalTime (tza env) (clock env) + days * msPerDay))))
      as [Habs|]; [lia|done].
  - intros Hbig.
    assert (Hclip : TimeClip (UTC (tza env)
                     (LocalTime (tza env) (clock env) + days * msPerDay)) = NaN).
    { unfold TimeClip.
      destruct (Z.ltb_spec 8640000000000000
                  (Z.abs (UTC (tza env)
                            (LocalTime (tza env) (clock env) + days * msPerDay))))
        as [|Habs]; [done|lia]. }
    rewrite Hclip. split; [done|].
    intros db orderId i order j product Ho Hst Hp Hwm Hlt.
    apply find_first_with in Ho. apply find_first_with in Hp.
    unfold approve. rewrite Ho, Hst. simpl. rewrite Hp, Hlt.
    cbn [p_warrantyMonths set_stock]. rewrite Hwm.
    by rewrite warranty_expiry_positive, Hset, Hclip.
Qed.

(** In the zone [eastern], whose offset changes on 10 March 2024, an
    approval at noon UTC on 31 January with 3 warranty months is read as
    7:00 local time, moved to 7:00 on 1 May, and stored as 11:00 UTC: one
    hour less than 91 days later. *)
Example warranty_across_offset_change :
  warranty_expiry eastern (Fin 1706702400000) (VNum (Fin 3))
    = Some (VStr "2024-05-01T11:00:00.000Z") /\
  iso_format 1706702400000 = "2024-01-31T12:00:00.000Z" /\
  iso_format (1706702400000 + 91 * msPerDay) = "2024-05-01T12:00:00.000Z".
Proof. split_and!; vm_compute; reflexivity. Qed.

(* ------------------------------------------------------------------ *)
(** ** Identifiers                                                      *)
(* ------------------------------------------------------------------ *)

Lemma digit36_val_char d : 0 <= d < 36 -> digit36_val (digit_char d) = d.
Proof.
  intros Hd. unfold digit36_val, digit_char, code.
  rewrite nat_ascii_embedding by (destruct (d <? 10); lia).
  destruct (Z.ltb_spec d 10).
  - rewrite Z2Nat.id by lia.
    destruct (Z.leb_spec 48 (48 + d)), (Z.leb_spec (48 + d) 57); simpl; lia.
  - rewrite Z2Nat.id by lia.
    destruct (Z.leb_spec 48 (87 + d)), (Z.leb_spec (87 + d) 57); simpl; lia.
Qed.

Lemma digits_value_linear radix l : forall acc,
  digits_value radix acc l =
  acc * radix ^ Z.of_nat (length l) + digits_value radix 0 l.
Proof.
  induction l as [|c l IH]; intros acc; simpl digits_value.
  - simpl. lia.
  - rewrite (IH (acc * radix + digit36_val c)), (IH (0 * radix + digit36_val c)).
    cbn [length]. rewrite Nat2Z.inj_succ, Z.pow_succ_r by lia. lia.
Qed.

(** The digits printed in radix 36 read back as the number. *)
Lemma digits_aux_value fuel : forall n acc,
  0 <= n < 36 ^ Z.of_nat fuel ->
  digits_value 36 0 (digits_aux fuel 36 n acc) =
  n * 36 ^ Z.of_nat (length acc) + digits_value 36 0 acc.
Proof.
  induction fuel as [|fuel IH]; intros n acc Hn.
  - simpl in *. assert (n = 0) by lia. subst. lia.
  - rewrite Nat2Z.inj_succ, Z.pow_succ_r in Hn by lia.
    cbn [digits_aux].
    assert (Hmod : 0 <= n mod 36 < 36) by (apply Z.mod_pos_bound; lia).
    assert (Hcons : digits_value 36 0 (digit_char (n mod 36) :: acc) =
                    (n mod 36) * 36 ^ Z.of_nat (length acc)
                    + digits_value 36 0 acc).
    { cbn [digits_value]. rewrite digits_value_linear.
      rewrite digit36_val_char by done. lia. }
    destruct (Z.eqb_spec (n / 36) 0) as [E|E].
    + rewrite Hcons. replace (n mod 36) with n by (Z.div_mod_to_equations; lia).
      done.
    + rewrite IH by (Z.div_mod_to_equations; lia).
      rewrite Hcons. cbn [length]. rewrite Nat2Z.inj_succ, Z.pow_succ_r by lia.
      pose proof (Z.div_mod n 36 ltac:(lia)). nia.
Qed.

(** A number of [k] digits is printed with [k] digits. *)
Lemma digits_aux_length fuel : forall n acc k,
  (1 <= k <= fuel)%nat ->
  36 ^ (Z.of_nat k - 1) <= n < 36 ^ Z.of_nat k ->
  length (digits_aux fuel 36 n acc) = (k + length acc)%nat.
Proof.
  induction fuel as [|fuel IH]; intros n acc k Hk Hn; [lia|].
  cbn [digits_aux].
  destruct (decide (k = 1%nat)) as [->|Hk1].
  - simpl in Hn. replace (n / 36 =? 0) with true; [done|].
    symmetry. apply Z.eqb_eq. Z.div_mod_to_equations. lia.
  - destruct k as [|k]; [lia|].
    rewrite Nat2Z.inj_succ, Z.pow_succ_r in Hn by lia.
    replace (Z.succ (Z.of_nat k) - 1) with (Z.succ (Z.of_nat k - 1)) in Hn by lia.
    rewrite Z.pow_succ_r in Hn by lia.
    assert (Hpos : 0 < 36 ^ (Z.of_nat k - 1)) by (apply Z.pow_pos_nonneg; lia).
    replace (n / 36 =? 0) with false
      by (symmetry; apply Z.eqb_neq; Z.div_mod_to_equations; lia).
    rewrite (IH (n / 36) _ k) by (try lia; Z.div_mod_to_equations; lia).
    simpl. lia.
Qed.

Lemma enough_fuel n : 0 <= n -> n < 36 ^ Z.of_nat (S (Z.to_nat (Z.log2 n))).
Proof.
  intros Hn. rewrite Nat2Z.inj_succ, Z2Nat.id by apply Z.log2_nonneg.
  destruct (Z.eq_dec n 0) as [->|Hne].
  - simpl. lia.
  - pose proof (Z.log2_spec n ltac:(lia)) as [_ Hlt].
    pose proof (Z.log2_nonneg n).
    assert (2 ^ Z.succ (Z.log2 n) <= 36 ^ Z.succ (Z.log2 n))
      by (apply Z.pow_le_mono_l; lia).
    lia.
Qed.

Lemma digits_of_value n : 0 <= n -> digits_value 36 0 (digits_of 36 n) = n.
Proof.
  intros Hn. unfold digits_of.
  rewrite digits_aux_value by (split; [done|by apply enough_fuel]).
  simpl. lia.
Qed.

Lemma digits_of_inj a b :
  0 <= a -> 0 <= b -> digits_of 36 a = digits_of 36 b -> a = b.
Proof.
  intros Ha Hb E. rewrite <- (digits_of_value a Ha), <- (digits_of_value b Hb).
  by rewrite E.
Qed.

(** A timestamp between 36^7 and 36^8 milliseconds (from June 1972 to May
    2059) is printed with 8 digits. *)
Lemma digits_of_clock n :
  36 ^ 7 <= n < 36 ^ 8 -> length (digits_of 36 n) = 8%nat.
Proof.
  intros Hn. unfold digits_of.
  rewrite (digits_aux_length _ n [] 8); [done| |done].
  split; [lia|].
  assert (36 <= Z.log2 n).
  { apply Z.log2_le_pow2; [lia|]. change (2 ^ 36) with 68719476736.
    change (36 ^ 7) with 78364164096 in Hn. lia. }
  lia.
Qed.

Lemma of_chars_app l1 l2 : of_chars l1 +:+ of_chars l2 = of_chars (l1 ++ l2).
Proof.
  unfold of_chars. induction l1 as [|c l1 IH]; [done|].
  simpl. rewrite append_cons. by rewrite IH.
Qed.

Lemma of_chars_inj l1 l2 : of_chars l1 = of_chars l2 -> l1 = l2.
Proof.
  unfold of_chars. intros E.
  rewrite <- (list_ascii_of_string_of_list_ascii l1),
          <- (list_ascii_of_string_of_list_ascii l2).
  by rewrite E.
Qed.

Lemma append_inj_l p : forall s1 s2, p +:+ s1 = p +:+ s2 -> s1 = s2.
Proof.
  induction p as [|c p IH]; intros s1 s2 E; [done|].
  rewrite !append_cons in E. injection E as E. by apply IH.
Qed.

Lemma int_toString_nonneg n : 0 <= n -> int_toString 36 n = of_chars (digits_of 36 n).
Proof.
  intros Hn. unfold int_toString.
  destruct (Z.ltb_spec n 0); [lia|done].
Qed.

(** X17. Identifiers made at different milliseconds, or with different
    random numbers, differ: for timestamps from 36^7 to 36^8 milliseconds,
    which covers June 1972 to May 2059, [makeId] is injective in the clock
    and the random number together.  (The timestamp and the random number
    are printed one after the other with nothing in between; it is the
    fixed length of the timestamp that keeps the two apart.) *)
Theorem makeId_injective e1 e2 prefix :
  36 ^ 7 <= id_clock e1 < 36 ^ 8 -> 36 ^ 7 <= id_clock e2 < 36 ^ 8 ->
  0 <= id_random e1 -> 0 <= id_random e2 ->
  makeId e1 prefix = makeId e2 prefix ->
  id_clock e1 = id_clock e2 /\ id_random e1 = id_random e2.
Proof.
  intros Hc1 Hc2 Hr1 Hr2 E. unfold makeId in E.
  apply append_inj_l in E.
  rewrite !int_toString_nonneg in E by lia.
  rewrite !of_chars_app in E. apply of_chars_inj in E.
  apply app_inj_1 in E as [Ec Er];
    [|by rewrite !digits_of_clock].
  split; apply digits_of_inj; (done || lia).
Qed.

(* ------------------------------------------------------------------ *)
(** ** A quantity that is not a number                                  *)
(* ------------------------------------------------------------------ *)

Lemma new_order_json_null env body :
  complete body -> ToNumber (b_quantity body) = NaN ->
  json_order (new_order env body) =
  mkOrder (VStr (makeId env "ord_")) (b_name body) (b_phone body)
          (b_productId body) VNull (js_or (b_serialNumber body) VNull)
          (VStr "PENDING") (VStr (now_iso env)) VUndefined VUndefined VUndefined.
Proof.
  unfold complete. rewrite !not_missing. intros (Hn & Hp & Hi & _) Hq.
  unfold json_order, new_order.
  cbn [o_id o_name o_phone o_productId o_quantity o_serialNumber o_status
       o_createdAt o_approvedAt o_warrantyExpiry o_rejectedAt].
  rewrite (json_value_truthy (b_name body)), (json_value_truthy (b_phone body)),
    (json_value_truthy (b_productId body)) by done.
  unfold Number. rewrite Hq. f_equal.
  unfold js_or. destruct (ToBoolean (b_serialNumber body)) eqn:E; [|done].
  by apply json_value_truthy.
Qed.

(** X18. Order creation checks that the quantity is there, not that it is
    a number.  A complete request whose quantity is a word (text of letters,
    no number) passes the stock test whatever the stock is, and is stored as
    a PENDING order with quantity null.  Approving that order succeeds on
    any numeric stock that is not negative and takes nothing from it. *)
Theorem quantity_not_a_number env db body j p :
  json_db db -> complete body ->
  the_product db (b_productId body) j p ->
  ToNumber (b_quantity body) = NaN -> exact_number (b_quantity body) ->
  place_order env db body =
    (Reply OK (Json_message_order "Order placed (pending admin approval)"
                 (new_order env body)),
     mkDB (products db) (orders db ++ [json_order (new_order env body)])) /\
  o_quantity (json_order (new_order env body)) = VNull /\
  o_status (json_order (new_order env body)) = VStr "PENDING" /\
  (forall env' s w,
     p_stock p = VNum (Fin s) -> 0 <= s ->
     (forall o, o ∈ orders db -> o_id o <> VStr (makeId env "ord_")) ->
     warranty_expiry (tza env') (Fin (clock env')) (p_warrantyMonths p)
       = Some w ->
     approve env' (snd (place_order env db body)) (makeId env "ord_") =
       (Reply OK (Json_message_order "Order approved"
                    (approved_order env' w (json_order (new_order env body)))),
        mkDB (products db)
             (orders db
              ++ [approved_order env' w (json_order (new_order env body))]))).
Proof.
  intros Hjson Hc Hp Hq _.
  pose proof Hp as (Hj & _).
  pose proof (json_db_product db Hjson j p Hj) as Hfix.
  pose proof (new_order_json_null env body Hc Hq) as Hnew.
  assert (Hplace : place_order env db body =
    (Reply OK (Json_message_order "Order placed (pending admin approval)"
                 (new_order env body)),
     mkDB (products db) (orders db ++ [json_order (new_order env body)]))).
  { rewrite (place_order_creates env db body j p);
      [|done|done|intros (x & y & _ & Hy & _); congruence].
    f_equal. unfold writeDB. cbn [products orders].
    by rewrite map_app, (json_db_products db Hjson), (json_db_orders db Hjson). }
  split; [done|]. split; [by rewrite Hnew|]. split; [by rewrite Hnew|].
  intros env' s w Hs Hpos Hfresh Hw.
  rewrite Hplace. cbn [snd].
  set (o := json_order (new_order env body)) in *.
  assert (Hfixo : json_order o = o) by apply json_order_idem.
  assert (Ho : the_order (mkDB (products db) (orders db ++ [o]))
                         (makeId env "ord_") (length (orders db)) o).
  { apply the_order_last; [done|]. by rewrite Hnew. }
  assert (Hpid : o_productId o = b_productId body) by (by rewrite Hnew).
  assert (Hst : o_status o = VStr "PENDING") by (by rewrite Hnew).
  assert (Hqo : o_quantity o = VNull) by (by rewrite Hnew).
  assert (Hp' : the_product (mkDB (products db) (orders db ++ [o]))
                            (o_productId o) j p) by (by rewrite Hpid).
  assert (Hlt : js_lt (js_or (p_stock p) (VNum (Fin 0))) (o_quantity o) = false).
  { rewrite Hs, Hqo. unfold js_or. simpl.
    destruct (Z.eqb_spec s 0) as [->|]; simpl; lia. }
  rewrite (approve_ok env' _ (makeId env "ord_") (length (orders db))
             o j p w Ho Hst Hp' Hlt Hw).
  f_equal. unfold approved_db, writeDB. cbn [products orders].
  rewrite (map_insert_fixed json_product) by (by apply json_db_products).
  rewrite insert_app_r_alt, Nat.sub_diag by done. cbn [insert list_insert].
  rewrite map_app, (json_db_orders db Hjson). cbn [map].
  rewrite approved_order_json; [|done|by eapply warranty_expiry_json].
  rewrite json_product_set_stock by done.
  rewrite Hs, Hqo. unfold js_sub. cbn [ToNumber num_sub json_value].
  rewrite Z.sub_0_r.
  assert (E : set_stock (VNum (Fin s)) p = p).
  { destruct p. unfold set_stock. simpl in *. by rewrite Hs. }
  by rewrite E, list_insert_id.
Qed.

(* ------------------------------------------------------------------ *)
(** ** Stock accounting                                                 *)
(* ------------------------------------------------------------------ *)

Lemma order_write_rewrites db db' : order_write db db' -> rewrites db db'.
Proof.
  intros [env body Hn | env body j product Hc Hp Hge
          | env orderId i order j product w Ho Hst Hp Hlt Hw
          | env orderId i order Ho].
  - by constructor.
  - by eapply rewrites_order.
  - by eapply rewrites_approval.
  - by apply (rewrites_rejection db env orderId).
Qed.

(** A request that is no stock adjustment leaves the document or writes it
    in one of the four other ways. *)
Lemma handle_order_write env db req out db' :
  is_adjustment req = false ->
  handle env db req = (out, db') ->
  db' = db \/ order_write db db'.
Proof.
  intros Hreq.
  assert (Hadd : forall body,
    add_product_body env db body = (out, db') ->
    db' = db \/ order_write db db').
  { intros body. destruct (ToBoolean (pb_name body)) eqn:Hn.
    - rewrite add_product_body_ok by (by apply not_missing).
      intros [= <- <-]. right. constructor. by apply not_missing.
    - unfold add_product_body. rewrite Hn. intros [= <- <-]. by left. }
  destruct req as [ | | |body|body|body|body| |id|id| ]; simpl;
    try (intros [= <- <-]; by left); try discriminate.
  - rewrite add_product_form. apply Hadd.
  - apply Hadd.
  - destruct (ToBoolean (b_name body) && ToBoolean (b_phone body)
              && ToBoolean (b_productId body) && ToBoolean (b_quantity body))
      eqn:Hc.
    + assert (Hcomplete : complete body).
      { unfold complete. rewrite !not_missing.
        apply andb_prop in Hc as [Hc ?]. apply andb_prop in Hc as [Hc ?].
        apply andb_prop in Hc as [? ?]. done. }
      rewrite place_order_complete by done.
      destruct (find _ _) as [[j product]|] eqn:Hf;
        [|intros [= <- <-]; by left].
      destruct (num_lt _ _) eqn:Hlt; intros [= <- <-]; [by left|].
      right. apply find_first_with in Hf.
      eapply write_order; eauto.
      intros Hless. apply num_lt_less_than in Hless. congruence.
    + rewrite place_order_missing; [intros [= <- <-]; by left|].
      unfold complete. rewrite !not_missing. intros (H1 & H2 & H3 & H4).
      by rewrite H1, H2, H3, H4 in Hc.
  - intros Happ.
    assert (Hcases : db' = db \/ exists body, out = Reply OK body).
    { revert Happ. unfold approve.
      repeat (case_match; try (intros [= <- <-]; by left)).
      intros [= <- <-]. right. eauto. }
    destruct Hcases as [->|[body ->]]; [by left|]. right.
    apply approve_ok_inv in Happ
      as (i & order & j & product & w & Ho & Hst & Hp & Hlt & Hw & _ & ->).
    by eapply write_approval.
  - destruct (find (fun o => strict_eq (o_id o) (VStr id)) (orders db))
      as [[i order]|] eqn:Hf.
    + apply find_first_with in Hf. rewrite (reject_found env db id i order Hf).
      intros [= <- <-]. right. by apply (write_rejection db env id).
    + unfold reject. rewrite Hf. intros [= <- <-]. by left.
Qed.

Lemma approved_units_app id l1 l2 :
  approved_units id (l1 ++ l2) = approved_units id l1 + approved_units id l2.
Proof. induction l1 as [|o l1 IH]; simpl; [done|]. rewrite IH. lia. Qed.

Lemma approved_units_insert id l : forall i o o',
  l !! i = Some o ->
  approved_units id (<[i := o']> l) =
  approved_units id l
  - (if counts_for id o then num_or_zero (ToNumber (o_quantity o)) else 0)
  + (if counts_for id o' then num_or_zero (ToNumber (o_quantity o')) else 0).
Proof.
  induction l as [|x l IH]; intros [|i] o o' Hi; simpl in *; try done.
  - injection Hi as ->. lia.
  - rewrite (IH i o o' Hi). lia.
Qed.

Lemma first_with_unique {A} (pred : A -> bool) l i x j y :
  first_with pred l i x -> first_with pred l j y -> i = j /\ x = y.
Proof.
  intros Hi Hj. apply find_first_with in Hi. apply find_first_with in Hj.
  rewrite Hi in Hj. by injection Hj as -> ->.
Qed.

(** Replacing another product by one of the same id does not change which
    product an id designates. *)
Lemma the_product_insert_other db pid j p j0 q q' os :
  the_product db pid j p -> products db !! j0 = Some q -> p_id q' = p_id q ->
  j0 <> j ->
  the_product (mkDB (<[j0 := q']> (products db)) os) pid j p.
Proof.
  intros (Hj & Hpred & Hfirst) Hj0 Hid Hne.
  unfold the_product, first_with. cbn [products]. split_and!.
  - by rewrite list_lookup_insert_ne.
  - done.
  - intros k y Hk Hlt. destruct (decide (k = j0)) as [->|Hk0].
    + rewrite list_lookup_insert_eq in Hk by (by eapply lookup_lt_Some).
      injection Hk as <-. rewrite Hid. by apply (Hfirst j0 q).
    + rewrite list_lookup_insert_ne in Hk by done. by apply (Hfirst k y).
Qed.

Lemma the_product_app db pid j p ps os :
  the_product db pid j p -> the_product (mkDB (products db ++ ps) os) pid j p.
Proof.
  intros (Hj & Hpred & Hfirst). unfold the_product, first_with. cbn [products].
  split_and!; [|done|].
  - rewrite lookup_app_l; [done|by eapply lookup_lt_Some].
  - intros k y Hk Hlt. apply (Hfirst k y); [|done].
    rewrite lookup_app_l in Hk; [done|]. apply lookup_lt_Some in Hj. lia.
Qed.

Lemma the_product_orders db pid j p os :
  the_product db pid j p -> the_product (mkDB (products db) os) pid j p.
Proof. done. Qed.

Section Conservation.
Context (db : DB) (Hjson : json_db db) (Hshape : Forall order_shape (orders db)).
Context (id : string) (j : nat) (p : Product) (s : Z).
Context (Hp : the_product db (VStr id) j p) (Hs : p_stock p = VNum (Fin s)).

Lemma order_write_conserves db' :
  order_write db db' ->
  exists p' s',
    the_product db' (VStr id) j p' /\ p_stock p' = VNum (Fin s') /\
    s' + approved_units id (orders db') = s + approved_units id (orders db).
Proof.
  pose proof Hp as (Hj & Hpid & _). apply strict_eq_VStr in Hpid.
  pose proof (json_db_product db Hjson j p Hj) as Hfix.
  intros [env body Hn | env body j0 product Hc Hp0 Hge
          | env orderId i order j0 product w Ho Hst Hp0 Hlt Hw
          | env orderId i order Ho].
  - exists p, s. unfold writeDB. cbn [products orders].
    rewrite map_app, (json_db_products db Hjson), (json_db_orders db Hjson).
    split_and!; [by apply the_product_app|done|done].
  - exists p, s. unfold writeDB. cbn [products orders].
    rewrite map_app, (json_db_products db Hjson), (json_db_orders db Hjson).
    split_and!; [done|done|].
    rewrite approved_units_app. simpl. unfold counts_for.
    cbn [json_order new_order o_approvedAt json_value].
    rewrite andb_false_r. lia.
  - pose proof Ho as (Hi & _). pose proof Hp0 as (Hj0 & Hpred0 & _).
    pose proof (json_db_order db Hjson i order Hi) as Hfixo.
    pose proof (proj1 (Forall_lookup _ _) Hshape i order Hi) as Hord.
    pose proof (pending_status order Hord Hst) as (_ & Hund & _).
    destruct Hord as (_ & _ & _ & _ & _ & Hqty & _).
    unfold approved_db, writeDB. cbn [products orders].
    rewrite (map_insert_fixed json_product) by (by apply json_db_products).
    rewrite (map_insert_fixed json_order) by (by apply json_db_orders).
    rewrite approved_order_json; [|done|by eapply warranty_expiry_json].
    rewrite (approved_units_insert id _ i order _ Hi).
    assert (Hold : counts_for id order = false).
    { unfold counts_for. rewrite Hund. apply andb_false_r. }
    assert (Hnew : counts_for id (approved_order env w order)
                   = strict_eq (o_productId order) (VStr id)).
    { unfold counts_for, approved_order. simpl. apply andb_true_r. }
    rewrite Hold, Hnew. cbn [approved_order set_warrantyExpiry set_approvedAt
      set_status o_quantity].
    destruct (strict_eq (o_productId order) (VStr id)) eqn:Hpid0.
    + apply strict_eq_VStr in Hpid0. rewrite Hpid0 in Hp0.
      destruct (first_with_unique _ _ _ _ _ _ Hp Hp0) as [<- <-].
      rewrite json_product_set_stock by done.
      exists (set_stock (json_value (js_sub (p_stock p) (o_quantity order))) p),
             (s - num_or_zero (ToNumber (o_quantity order))).
      split_and!.
      * by apply (the_product_insert db (VStr id) j p).
      * cbn [set_stock p_stock]. rewrite Hs.
        destruct Hqty as [->|[q ->]]; reflexivity.
      * lia.
    + exists p, s. split_and!; [|done|lia].
      apply (the_product_insert_other db (VStr id) j p j0 product).
      * done.
      * done.
      * rewrite json_product_set_stock by (by eapply json_db_product).
        reflexivity.
      * intros ->. rewrite Hj in Hj0. injection Hj0 as <-.
        rewrite Hpid in Hpred0. apply strict_eq_true in Hpred0 as [Heq _].
        rewrite <- Heq in Hpid0. simpl in Hpid0.
        rewrite String.eqb_refl in Hpid0. discriminate.
  - pose proof Ho as (Hi & _).
    pose proof (json_db_order db Hjson i order Hi) as Hfixo.
    exists p, s. unfold writeDB. cbn [products orders].
    rewrite (json_db_products db Hjson).
    rewrite (map_insert_fixed json_order) by (by apply json_db_orders).
    rewrite rejected_order_json by done.
    split_and!; [done|done|].
    rewrite (approved_units_insert id _ i order _ Hi).
    unfold counts_for. simpl. lia.
Qed.

End Conservation.

(** X19. Stock is accounted for.  Take a product of a document the service
    has reached, the first under its id, with a numeric stock.  Whatever
    requests follow, as long as none of them is a stock adjustment, the
    product stays where it is and its stock plus the units of the approved
    orders for it stays the same: an approval moves the order's quantity
    from the one to the other, and nothing else touches either.  A
    rejection counts as nothing, also when it rejects an order that was
    approved: the units that order took are not returned.  This is stated
    for runs on which the arithmetic of JavaScript is exact: the amounts of
    the requests are integers or words, and the stocks and quantities of
    the documents, from the first one on, stay within the safe range. *)
Theorem stock_is_accounted_for reqs : forall db id j p s,
  reachable db -> safe_document db ->
  the_product db (VStr id) j p -> p_stock p = VNum (Fin s) ->
  Forall (fun er => is_adjustment (snd er) = false) reqs ->
  exact_run db reqs ->
  exists p' s',
    the_product (run db reqs) (VStr id) j p' /\
    p_stock p' = VNum (Fin s') /\
    s' + approved_units id (orders (run db reqs))
      = s + approved_units id (orders db).
Proof.
  induction reqs as [|[env req] reqs IH];
    intros db id j p s Hreach Hsafe Hp Hs Hreqs Hexact.
  - exists p, s. by split_and!.
  - apply Forall_cons in Hreqs as [Hreq Hreqs]. cbn [snd] in Hreq.
    destruct Hexact as (_ & Hsafe' & Hexact).
    assert (Hstep : exists p1 s1,
      the_product (snd (handle env db req)) (VStr id) j p1 /\
      p_stock p1 = VNum (Fin s1) /\
      s1 + approved_units id (orders (snd (handle env db req)))
        = s + approved_units id (orders db)).
    { destruct (handle env db req) as [out db'] eqn:E. cbn [snd].
      apply (handle_order_write env db req out db' Hreq) in E as [->|Hw].
      - exists p, s. by split_and!.
      - apply (order_write_conserves db (reachable_json_db db Hreach)
                 (proj1 (proj2 (reachable_shape db Hreach))) id j p s Hp Hs db' Hw). }
    destruct Hstep as (p1 & s1 & Hp1 & Hs1 & Hsum).
    destruct (IH (snd (handle env db req)) id j p1 s1
                (reachable_step env db req Hreach) Hsafe' Hp1 Hs1 Hreqs Hexact)
      as (p' & s' & Hp' & Hs' & Hsum').
    exists p', s'. simpl. split_and!; [done|done|lia].
Qed.

(* ------------------------------------------------------------------ *)
(** ** Orders reserve nothing                                           *)
(* ------------------------------------------------------------------ *)

(** The answer to an order request depends on the products only. *)
Lemma place_order_answer env db1 db2 body :
  products db1 = products db2 ->
  fst (place_order env db1 body) = fst (place_order env db2 body).
Proof.
  intros Hps. unfold place_order. rewrite Hps.
  destruct (_ || _); [done|].
  destruct (find _ _) as [[j product]|]; [|done].
  by destruct (js_lt _ _).
Qed.

Lemma place_order_products env db body :
  json_db db -> products (snd (place_order env db body)) = products db.
Proof.
  intros Hjson. unfold place_order.
  destruct (_ || _); [done|].
  destruct (find _ _) as [[j product]|]; [|done].
  destruct (js_lt _ _); [done|]. cbn [snd writeDB products].
  by apply json_db_products.
Qed.

Lemma run_orders_products reqs : forall db,
  json_db db ->
  Forall (fun er => is_order_request (snd er) = true) reqs ->
  products (run db reqs) = products db.
Proof.
  induction reqs as [|[env req] reqs IH]; intros db Hjson Hreqs; [done|].
  apply Forall_cons in Hreqs as [Hreq Hreqs]. cbn [snd] in Hreq.
  destruct req; try discriminate. simpl.
  rewrite IH; [by apply place_order_products| |done].
  apply (handle_json env db (POST_orders body) Hjson).
Qed.

(** X20. Orders reserve nothing: after any number of order requests,
    accepted or not, the products are as they were, so a further order
    request gets the answer it would have got before them.  Orders that
    together exceed the stock are all accepted as long as each of them
    alone does not. *)
Theorem orders_reserve_nothing db reqs env body :
  json_db db ->
  Forall (fun er => is_order_request (snd er) = true) reqs ->
  products (run db reqs) = products db /\
  fst (place_order env (run db reqs) body) = fst (place_order env db body).
Proof.
  intros Hjson Hreqs.
  pose proof (run_orders_products reqs db Hjson Hreqs) as Hps.
  split; [done|]. by apply place_order_answer.
Qed.

(* ------------------------------------------------------------------ *)
(** ** The further properties on the sample scenario                    *)
(* ------------------------------------------------------------------ *)

Ltac by_computation := vm_compute; reflexivity.

Ltac not_missing_by_computation :=
  let H := fresh in intros H; vm_compute in H; discriminate H.

(** A form without a name is refused; the JSON body whose name is the
    number 7 is stored, with that number as the name. *)
Lemma add_product_cases_witness :
  add_product_body env0 db_widget (form_body nameless_form) =
    (Reply BadRequest (Json_error "Product name required"), db_widget) /\
  exact_product seven_body /\
  exists p,
    add_product_body env0 empty_db seven_body =
      (Reply OK (Json_message_product "Product added" p),
       writeDB (mkDB (products empty_db ++ [p]) (orders empty_db))) /\
    p_name p = VNum (Fin 7) /\
    p_stock p = VNum (Fin 5).
Proof.
  assert (Hex : exact_product seven_body) by (split_and!; by_computation).
  split; [|split; [exact Hex|]].
  - apply (proj1 (add_product_cases env0 db_widget (form_body nameless_form))).
    by_computation.
  - destruct (proj1 (proj2 (add_product_cases env0 empty_db seven_body))
                ltac:(not_missing_by_computation) Hex)
      as (p & Hadd & _ & Hname & _ & _ & Hstock & _).
    exists p. split; [exact Hadd|]. split; [exact Hname|exact Hstock].
Defined.

(** The widget is found under its id; the empty document has no product. *)
Lemma get_product_first_witness :
  (exists j p,
      the_product db_widget (VStr widget_id) j p /\
      get_product db_widget widget_id = Reply OK (Json_product p)) /\
  get_product empty_db widget_id =
    Reply NotFound (Json_error "Product not found").
Proof.
  split.
  - apply (proj1 (get_product_first db_widget widget_id)).
    eexists. split; [apply list_elem_of_lookup_2 with 0%nat|]; by_computation.
  - apply (proj1 (proj2 (get_product_first empty_db widget_id))).
    intros (p & Hin & _). by apply elem_of_nil in Hin.
Defined.


(** Approving Ann's order a second time is refused and writes nothing. *)
Lemma refused_request_writes_nothing_witness :
  snd (handle env0 db_approved (POST_approve ann_id)) = db_approved.
Proof.
  apply (refused_request_writes_nothing env0 db_approved (POST_approve ann_id)
           (fst (handle env0 db_approved (POST_approve ann_id)))).
  - by destruct (handle env0 db_approved (POST_approve ann_id)).
  - intros body. vm_compute. discriminate.
Defined.

(** The frame of the approval of Ann's order. *)
Lemma request_frame_witness :
  json_db db_pending /\
  exists j i,
    (forall k p, products db_pending !! k = Some p ->
       exists p',
         products (snd (handle env0 db_pending (POST_approve ann_id))) !! k
           = Some p' /\
         same_but_stock p p' /\ (k <> j -> p' = p)) /\
    (forall k o, orders db_pending !! k = Some o ->
       exists o',
         orders (snd (handle env0 db_pending (POST_approve ann_id))) !! k
           = Some o' /\
         same_request o o' /\ (k <> i -> o' = o)).
Proof.
  assert (Hj : json_db db_pending) by by_computation.
  split; [exact Hj|].
  exact (request_frame env0 db_pending (POST_approve ann_id) Hj).
Defined.

(** Ann's approved order, approved and rejected again, ends up rejected. *)
Lemma status_moves_forward_witness :
  exists o,
    orders db_approved !! 0%nat = Some o /\
    exists o',
      orders (run db_approved approve_then_reject) !! 0%nat = Some o' /\
      (o_status o = VStr "REJECTED" -> o_status o' = VStr "REJECTED") /\
      (o_status o = VStr "APPROVED" ->
         o_status o' = VStr "APPROVED" \/ o_status o' = VStr "REJECTED") /\
      (o_status o <> VStr "PENDING" -> o_status o' <> VStr "PENDING") /\
      (o_status o' = VStr "PENDING" -> o' = o).
Proof.
  eexists. split; [by_computation|].
  apply (status_moves_forward approve_then_reject db_approved 0%nat);
    by_computation.
Defined.

(** The second of two orders under Ann's id is left alone by an approval
    and a rejection under that id. *)
Lemma later_duplicate_is_frozen_witness :
  json_db db_twin_orders /\
  exists o2,
    orders db_twin_orders !! 1%nat = Some o2 /\
    orders (run db_twin_orders approve_then_reject) !! 1%nat = Some o2.
Proof.
  assert (Hj : json_db db_twin_orders) by by_computation.
  split; [exact Hj|]. eexists. split; [by_computation|].
  eapply (proj1 (later_duplicate_is_frozen db_twin_orders approve_then_reject Hj)
            0%nat 1%nat).
  - by_computation.
  - by_computation.
  - lia.
  - by_computation.
Defined.

(** The document with Ann's pending order is well formed. *)
Lemma reachable_well_formed_witness :
  reachable db_pending /\
  Forall product_shape (products db_pending) /\
  Forall order_shape (orders db_pending).
Proof.
  assert (Hr : reachable db_pending).
  { exact (reachable_step env0 _ (POST_orders (ann_order (VNum (Fin 2))))
             (reachable_step env0 _ (POST_admin_product widget_form)
                reachable_init)). }
  split; [exact Hr|]. exact (reachable_well_formed db_pending Hr).
Defined.

(** Ann's order refers to the widget. *)
Lemma references_always_resolve_witness :
  reachable db_pending /\
  references_resolve db_pending /\
  (forall env orderId,
     fst (approve env db_pending orderId)
       <> Reply NotFound (Json_error "Product not found for order")) /\
  (forall status, exists items,
     list_orders db_pending status = Reply OK (Json_orders items) /\
     all_joined items).
Proof.
  assert (Hr : reachable db_pending).
  { exact (reachable_step env0 _ (POST_orders (ann_order (VNum (Fin 2))))
             (reachable_step env0 _ (POST_admin_product widget_form)
                reachable_init)). }
  split; [exact Hr|]. exact (references_always_resolve db_pending Hr).
Defined.

(** Adjusting the widget stock of 5 by -8 stores -3; no stock is adjusted
    in the empty document. *)
Lemma update_stock_cases_witness :
  update_stock empty_db overdraw =
    (Reply NotFound (Json_error "Product not found"), empty_db) /\
  json_db db_widget /\
  exists p stock,
    the_product db_widget (VStr widget_id) 0%nat p /\
    update_stock db_widget overdraw =
      (Reply OK (Json_message_product "Stock updated" (set_stock stock p)),
       mkDB (<[0%nat := set_stock (json_value stock) p]> (products db_widget))
            (orders db_widget)) /\
    stock = VNum (Fin (-3)).
Proof.
  split; [|split; [by_computation|]].
  - apply (proj1 (update_stock_cases empty_db overdraw)).
    intros p Hin. by apply elem_of_nil in Hin.
  - eexists.
    assert (Hp : the_product db_widget (s_productId overdraw) 0%nat
                   (mkProduct (VStr widget_id) (VStr "Widget") (VNum (Fin 10))
                      (VNum (Fin 3)) (VStr "General") (VNum (Fin 5)) VNull
                      (VStr (now_iso env0)))) by first_at_0.
    destruct (proj2 (update_stock_cases db_widget overdraw) 0%nat _
                ltac:(by_computation) Hp ltac:(by_computation))
      as (stock & Hup & Hnum & _).
    exists stock. split; [exact Hp|]. split; [exact Hup|].
    exact (proj1 (Hnum (-8) eq_refl) 5 eq_refl
             ltac:(by_computation) ltac:(by_computation)).
Defined.

(** Adjusting the widget stock by -8 and then by 8 gives the document
    back. *)
Lemma update_stock_adds_up_witness :
  snd (update_stock (snd (update_stock db_widget
                            (mkStockBody (VStr widget_id) (VNum (Fin (-8))))))
                    (mkStockBody (VStr widget_id) (VNum (Fin 8))))
  = db_widget.
Proof.
  assert (Hp : the_product db_widget (VStr widget_id) 0%nat
                 (mkProduct (VStr widget_id) (VStr "Widget") (VNum (Fin 10))
                    (VNum (Fin 3)) (VStr "General") (VNum (Fin 5)) VNull
                    (VStr (now_iso env0)))) by first_at_0.
  apply (proj2 (update_stock_adds_up db_widget (VStr widget_id) 0%nat _ 5
                  (VNum (Fin (-8))) (VNum (Fin 8)) (-8) 8
                  ltac:(by_computation) Hp eq_refl eq_refl eq_refl
                  ltac:(by_computation) ltac:(by_computation)
                  ltac:(by_computation) ltac:(by_computation)
                  ltac:(by_computation) ltac:(by_computation)
                  ltac:(by_computation) ltac:(by_computation))).
  reflexivity.
Defined.

Ltac complete_by_computation :=
  unfold complete; rewrite !not_missing; split_and!; by_computation.


(** Once the order of the customer named 7 is stored, searching "a" ends
    in an exception, also after an approval and a rejection. *)
Lemma order_name_breaks_search_witness :
  exists rbody db',
    place_order env0 db_widget numbered_order = (Reply OK rbody, db') /\
    search (run db' approve_then_reject) (Some "a") = Threw.
Proof.
  eexists _, _. split; [by_computation|].
  eapply (order_name_breaks_search env0 db_widget numbered_order).
  - by_computation.
  - intros [s Hs]. discriminate Hs.
  - discriminate.
Defined.

(** In a zone without changes of offset, a warranty of 3 months from
    31 January 2024 ends 84 to 93 days later. *)
Lemma warranty_expiry_distance_witness :
  exists days t',
    28 * 3 <= days <= 31 * 3 /\
    t' = clock env0 + days * msPerDay /\
    warranty_expiry (tza env0) (Fin (clock env0)) (VNum (Fin 3))
      = Some (VStr (iso_format t')).
Proof.
  destruct (warranty_expiry_distance env0 3 ltac:(lia))
    as (days & t' & Hdays & _ & Hsame & Hin & _).
  assert (Ht : t' = clock env0 + days * msPerDay) by (apply Hsame; reflexivity).
  exists days, t'. split; [exact Hdays|]. split; [exact Ht|].
  apply Hin. rewrite Ht.
  change (clock env0) with 1706659200000. change msPerDay with 86400000. lia.
Defined.

(** Two environments with the same identifier [prod_...] have the same
    identifier clock and random number. *)
Lemma makeId_injective_witness :
  makeId env0 "prod_" = makeId env1 "prod_" /\
  id_clock env0 = id_clock env1 /\ id_random env0 = id_random env1.
Proof.
  split; [reflexivity|].
  apply (makeId_injective env0 env1 "prod_").
  - split; vm_compute; first [discriminate | reflexivity].
  - split; vm_compute; first [discriminate | reflexivity].
  - vm_compute. discriminate.
  - vm_compute. discriminate.
  - reflexivity.
Defined.

(** Ann orders "abc" widgets: the order is stored with quantity null, and
    its approval leaves the 5 widgets. *)
Lemma quantity_not_a_number_witness :
  json_db db_widget /\
  o_quantity (json_order (new_order env0 letters_order)) = VNull /\
  approve env0 (snd (place_order env0 db_widget letters_order))
          (makeId env0 "ord_") =
    (Reply OK (Json_message_order "Order approved"
                 (approved_order env0 (VStr "2024-05-01T00:00:00.000Z")
                    (json_order (new_order env0 letters_order)))),
     mkDB (products db_widget)
          (orders db_widget
           ++ [approved_order env0 (VStr "2024-05-01T00:00:00.000Z")
                 (json_order (new_order env0 letters_order))])).
Proof.
  assert (Hj : json_db db_widget) by by_computation.
  split; [exact Hj|].
  assert (Hp : the_product db_widget (b_productId letters_order) 0%nat
                 (mkProduct (VStr widget_id) (VStr "Widget") (VNum (Fin 10))
                    (VNum (Fin 3)) (VStr "General") (VNum (Fin 5)) VNull
                    (VStr (now_iso env0)))) by first_at_0.
  assert (Hfresh : forall o, o ∈ orders db_widget ->
                             o_id o <> VStr (makeId env0 "ord_")).
  { intros o Hin.
    replace (orders db_widget) with (@nil Order) in Hin by by_computation.
    destruct (proj1 (elem_of_nil o) Hin). }
  assert (Hc : complete letters_order) by complete_by_computation.
  pose proof (quantity_not_a_number env0 db_widget letters_order 0%nat _
                Hj Hc Hp eq_refl ltac:(by_computation))
    as (_ & Hq & _ & Happ).
  split; [exact Hq|].
  exact (Happ env0 5 (VStr "2024-05-01T00:00:00.000Z") eq_refl ltac:(lia)
           Hfresh ltac:(by_computation)).
Defined.

(** Ann's order for 2 of the 5 widgets, approved and then rejected: the
    stock and the approved units still add up to 5. *)
Lemma stock_is_accounted_for_witness :
  reachable db_pending /\ safe_document db_pending /\
  exact_run db_pending approve_then_reject /\
  exists p p' s',
    the_product db_pending (VStr widget_id) 0%nat p /\
    p_stock p = VNum (Fin 5) /\
    the_product (run db_pending approve_then_reject) (VStr widget_id) 0%nat p' /\
    p_stock p' = VNum (Fin s') /\
    s' + approved_units widget_id (orders (run db_pending approve_then_reject))
      = 5 + approved_units widget_id (orders db_pending).
Proof.
  assert (Hr : reachable db_pending).
  { exact (reachable_step env0 _ (POST_orders (ann_order (VNum (Fin 2))))
             (reachable_step env0 _ (POST_admin_product widget_form)
                reachable_init)). }
  assert (Hsafe : safe_document db_pending) by by_computation.
  assert (Hexact : exact_run db_pending approve_then_reject).
  { vm_compute. repeat split. }
  split; [exact Hr|]. split; [exact Hsafe|]. split; [exact Hexact|].
  assert (Hp : the_product db_pending (VStr widget_id) 0%nat
                 (mkProduct (VStr widget_id) (VStr "Widget") (VNum (Fin 10))
                    (VNum (Fin 3)) (VStr "General") (VNum (Fin 5)) VNull
                    (VStr (now_iso env0)))) by first_at_0.
  assert (Hreqs : Forall (fun er => is_adjustment (snd er) = false)
                         approve_then_reject).
  { unfold approve_then_reject.
    repeat (apply List.Forall_cons; [reflexivity|]). apply List.Forall_nil. }
  destruct (stock_is_accounted_for approve_then_reject db_pending widget_id
              0%nat _ 5 Hr Hsafe Hp eq_refl Hreqs Hexact)
    as (p' & s' & Hp' & Hs' & Hsum).
  eexists _, p', s'. split; [exact Hp|]. split; [reflexivity|].
  split; [exact Hp'|]. split; [exact Hs'|exact Hsum].
Defined.

(** After three orders for 2 widgets each, a fourth order for 2 of the 5
    widgets is accepted like the first. *)
Lemma orders_reserve_nothing_witness :
  json_db db_widget /\
  products (run db_widget three_orders) = products db_widget /\
  fst (place_order env0 (run db_widget three_orders) (ann_order (VNum (Fin 2))))
  = fst (place_order env0 db_widget (ann_order (VNum (Fin 2)))).
Proof.
  assert (Hj : json_db db_widget) by by_computation.
  split; [exact Hj|].
  apply (orders_reserve_nothing db_widget three_orders env0
           (ann_order (VNum (Fin 2))) Hj).
  unfold three_orders.
  repeat (apply List.Forall_cons; [reflexivity|]). apply List.Forall_nil.
Defined.
